(** * Run lifecycle and trace-streaming relay of the Go backend

    A shallow embedding of [backend-go]: the in-memory run table, the two
    calls to the Python collaborator, the behaviour-signal lookup, the
    streaming relay [streamRun] and the two HTTP handlers.

    Everything the Go code does to the outside world (writes on the
    WebSocket connection, HTTP posts to the Python backend, printing,
    sleeping) is recorded, in order, in an event log carried by the world;
    the answers of the outside world come from an environment [Env] whose
    oracles see the log so far, so that a collaborator may answer the same
    request differently at different times. *)

From Stdlib Require Import ZArith String Ascii List Bool Lia.
From Stdlib Require Import Floats.PrimFloat Floats.FloatOps Floats.SpecFloat.
From Stdlib Require Import Numbers.Cyclic.Int63.Uint63.
From stdpp Require Import gmap strings list fin_maps pretty.

Set Warnings "-register-all".

(** ** Go values *)

(** What an [interface{}] holds in this program: JSON-like data, plus the
    [*int] pointers that [getBehaviorSignal] stores (nil is [VIntPtr None]). *)
Inductive Value : Type :=
| VNil
| VBool (b : bool)
| VInt (n : Z)
| VFloat (f : float)
| VString (s : string)
| VIntPtr (p : option Z)
| VList (l : list Value)
| VMap (m : gmap string Value).

(** [map[string]interface{}] *)
Abbreviation GoMap := (gmap string Value).

(** A variable of type [map[string]interface{}] that may hold the nil map
    ([None]), put into an [interface{}]: encoding/json writes a nil map as
    [null], as it writes [nil]. *)
Definition ofMap (m : option GoMap) : Value :=
  match m with
  | Some m => VMap m
  | None => VNil
  end.

(** The text of a Go [error] value, as [err.Error()] gives it. *)
Abbreviation error := string (only parsing).

Definition newline : string := String (ascii_of_nat 10) EmptyString.

(** ** Data structures (worker_manager.go, lines 17-37) *)

Record BehaviorSignal : Type := {
  PauseDuration : float;
  ReplayCount : Z;
  SpeedMultiplier : float;
  HoverIndex : option Z;
  ScrollDepth : option Z
}.

Record RunState : Type := {
  RunID : string;
  Trace : list (option GoMap);   (* a frame may be the nil map *)
  CurrentStep : Z;
  BehaviorSignals : gmap Z BehaviorSignal
}.

Definition pythonBaseURL : string := "http://localhost:8000".

(** ** The outside world *)

(** What [http.Post] gives back: a transport error, or a response with its
    status code and its body. *)
Inductive HttpOutcome : Type :=
| NetErr (e : error)
| Resp (status : Z) (body : string).

Inductive Event : Type :=
| EvWrite (msg : GoMap) (res : option error)  (* conn.WriteJSON and its result *)
| EvPost (url : string) (req : GoMap) (out : HttpOutcome)  (* http.Post *)
| EvPrintf (line : string)                    (* fmt.Printf *)
| EvLog (line : string)                       (* log.Printf *)
| EvSleep (d : Z)                             (* time.Sleep, nanoseconds *)
| EvClose.                                    (* conn.Close *)

(** [http.ResponseWriter]: headers, the status written, what was written. *)
Inductive Payload : Type :=
| Text (s : string)
| Json (v : GoMap).

Record ResponseWriter : Type := {
  Header : gmap string string;
  StatusCode : option Z;
  Written : list Payload
}.

Record Request : Type := {
  Method : string;
  Query : gmap string string;
  Body : string
}.

(** The library and collaborator behaviour the Go code relies on and that
    is not part of this repository. *)
Record Env : Type := {
  (* the Python backend, seen through http.Post *)
  http_Post : list Event -> string -> GoMap -> HttpOutcome;
  (* json.Decoder.Decode into struct{Trace []map[string]interface{}}: a null
     element of the trace decodes to the nil map, which is None *)
  decode_trace : string -> error + list (option GoMap);
  (* json.Decoder.Decode into a nil map[string]interface{}: the body null
     decodes without error and leaves the map nil, which is None *)
  decode_object : string -> error + option GoMap;
  (* json.Decoder.Decode into struct{AlgorithmID string; Array []int} *)
  decode_request : string -> error + (string * list Z);
  (* the viewer connection: None is a successful write *)
  conn_WriteJSON : list Event -> GoMap -> option error;
  (* uuid.New().String() *)
  uuid_New : list Event -> string;
  (* upgrader.Upgrade: on failure the library has answered the request *)
  ws_Upgrade : list Event -> ResponseWriter -> Request ->
               (error * ResponseWriter) + unit;
  (* fmt.Sscanf(s, "%f", &x): None leaves x untouched *)
  Sscanf_f : string -> option float;
  (* float64 -> int64 conversion of a value int64 cannot represent:
     implementation-dependent in Go *)
  int64_of_unrepresentable : float -> Z
}.

Record World : Type := {
  runs : gmap string RunState;   (* the global run table *)
  events : list Event            (* everything done so far, oldest first *)
}.

(** ** A state monad over the world *)

Definition M (A : Type) : Type := World -> A * World.

Definition ret {A} (a : A) : M A := fun w => (a, w).

Definition bind {A B} (m : M A) (k : A -> M B) : M B :=
  fun w => let '(a, w') := m w in k a w'.

Notation "'let!' x ':=' m 'in' k" := (bind m (fun x => k))
  (at level 10, x name, m at level 100, k at level 200).
Notation "'do!' m 'in' k" := (bind m (fun _ => k))
  (at level 10, m at level 100, k at level 200).

Definition emit (e : Event) : M unit :=
  fun w => (tt, {| runs := runs w; events := events w ++ [e] |}).

Definition exec {A} (m : M A) (w : World) : World := snd (m w).
Definition eval {A} (m : M A) (w : World) : A := fst (m w).

(** The events a computation adds to the log. *)
Definition trail {A} (m : M A) (w : World) : list Event :=
  drop (length (events w)) (events (exec m w)).

(** ** Library functions that are modelled, not assumed *)

(** [json.Marshal] fails on a float that is NaN or infinite, and on nothing
    else that this program builds. The encoder writes a list in order and a
    map by sorted keys, and stops at the first such float with the error
    "json: unsupported value: " followed by the float as
    [strconv.FormatFloat(f, 'g', -1, 64)] prints it. The marshalled bytes
    are kept abstract: a successful [json_Marshal] hands the value itself
    to [http.Post]. *)
Definition float_finite (f : float) : bool :=
  negb (PrimFloat.is_nan f || PrimFloat.is_infinity f).

Definition formatNonFinite (f : float) : string :=
  if PrimFloat.is_nan f then "NaN"
  else if (f <? 0)%float then "-Inf"
  else "+Inf".

(** The float the encoder stops at, if any, as the error prints it. In a
    map it is the one under the least key that holds one. *)
Fixpoint firstUnsupported (v : Value) : option string :=
  match v with
  | VFloat f => if float_finite f then None else Some (formatNonFinite f)
  | VList l =>
      (fix first (l : list Value) : option string :=
         match l with
         | [] => None
         | x :: l =>
             match firstUnsupported x with
             | Some text => Some text
             | None => first l
             end
         end) l
  | VMap m =>
      snd <$>
      map_fold (fun k x (acc : option (string * string)) =>
                  match firstUnsupported x with
                  | Some text =>
                      match acc with
                      | Some (k', _) =>
                          if String.ltb k k' then Some (k, text) else acc
                      | None => Some (k, text)
                      end
                  | None => acc
                  end) None m
  | _ => None
  end.

Definition json_Marshal (v : GoMap) : error + GoMap :=
  match firstUnsupported (VMap v) with
  | Some text => inl ("json: unsupported value: " +:+ text)
  | None => inr v
  end.

(** [int64] wrap-around. *)
Definition wrap64 (z : Z) : Z := (z + 2 ^ 63) mod 2 ^ 64 - 2 ^ 63.

Definition Millisecond : Z := 1000000.

Definition http_StatusOK : Z := 200.
Definition http_StatusBadRequest : Z := 400.
Definition http_StatusMethodNotAllowed : Z := 405.
Definition http_StatusInternalServerError : Z := 500.

(** [w.Header().Set(k, v)] *)
Definition Header_Set (k v : string) (w : ResponseWriter) : ResponseWriter :=
  {| Header := <[k := v]> (Header w);
     StatusCode := StatusCode w;
     Written := Written w |}.

(** [w.WriteHeader(code)]: the first status written is the one sent. *)
Definition WriteHeader (code : Z) (w : ResponseWriter) : ResponseWriter :=
  {| Header := Header w;
     StatusCode := Some (default code (StatusCode w));
     Written := Written w |}.

(** [w.Write]: writes the status 200 first when none was written. *)
Definition ResponseWriter_Write (p : Payload) (w : ResponseWriter) : ResponseWriter :=
  {| Header := Header w;
     StatusCode := Some (default http_StatusOK (StatusCode w));
     Written := Written w ++ [p] |}.

(** [http.Error(w, msg, code)] *)
Definition http_Error (w : ResponseWriter) (msg : string) (code : Z)
  : ResponseWriter :=
  let w := {| Header := delete "Content-Length" (Header w);
              StatusCode := StatusCode w;
              Written := Written w |} in
  let w := Header_Set "Content-Type" "text/plain; charset=utf-8" w in
  let w := Header_Set "X-Content-Type-Options" "nosniff" w in
  let w := WriteHeader code w in
  ResponseWriter_Write (Text (msg +:+ newline)) w.

(** [r.URL.Query().Get(key)]: the empty string when the key is absent. *)
Definition Query_Get (r : Request) (key : string) : string :=
  default "" (Query r !! key).

(** ** The program *)

Section Backend.

Variable E : Env.

(** *** Effects

    The model follows one viewer connection: [conn] is the connection of
    the attachment under study, and its writes are the [EvWrite] events. *)

(** [http.Post(url, "application/json", body)] *)
Definition Post (url : string) (req : GoMap) : M HttpOutcome :=
  fun w =>
    let out := http_Post E (events w) url req in
    (out, {| runs := runs w; events := events w ++ [EvPost url req out] |}).

(** [conn.WriteJSON(v)] (lines 246-248) *)
Definition WriteJSON (v : GoMap) : M (option error) :=
  fun w =>
    let res := conn_WriteJSON E (events w) v in
    (res, {| runs := runs w; events := events w ++ [EvWrite v res] |}).

Definition Printf (line : string) : M unit := emit (EvPrintf line).
Definition log_Printf (line : string) : M unit := emit (EvLog line).
Definition Sleep (d : Z) : M unit := emit (EvSleep d).
Definition Close : M unit := emit EvClose.

(** [time.Duration(f)]: truncation towards zero where int64 can hold it. *)
Definition Duration_of_float (f : float) : Z :=
  match Prim2SF f with
  | S754_zero _ => 0
  | S754_finite s m e =>
      let a := if (0 <=? e)%Z then Z.shiftl (Z.pos m) e
               else Z.shiftr (Z.pos m) (- e) in
      let z := if s then (- a)%Z else a in
      if ((- 2 ^ 63 <=? z) && (z <? 2 ^ 63))%Z then z
      else int64_of_unrepresentable E f
  | _ => int64_of_unrepresentable E f
  end.

(** *** callPythonExecute (lines 39-70) *)

Definition callPythonExecute (algorithmID : string) (array : list Z)
  : M (error + list (option GoMap)) :=
  let requestBody : GoMap :=
    {[ "algorithmId" := VString algorithmID;
       "array" := VList (VInt <$> array) ]} in
  match json_Marshal requestBody with
  | inl err => ret (inl err)
  | inr jsonData =>
      let! resp := Post (pythonBaseURL +:+ "/execute") jsonData in
      match resp with
      | NetErr err => ret (inl ("failed to call Python backend: " +:+ err))
      | Resp status body =>
          if negb (status =? http_StatusOK)%Z then
            ret (inl ("Python backend returned error: " +:+ body))
          else
            match decode_trace E body with
            | inl err => ret (inl err)
            | inr trace => ret (inr trace)
            end
      end
  end.

(** *** callPythonExplain (lines 72-101) *)

Definition callPythonExplain (frame : option GoMap) (userBehavior : GoMap)
  : M (error + option GoMap) :=
  let requestBody : GoMap :=
    {[ "frame" := ofMap frame;
       "userBehavior" := VMap userBehavior ]} in
  match json_Marshal requestBody with
  | inl err => ret (inl err)
  | inr jsonData =>
      let! resp := Post (pythonBaseURL +:+ "/explain-step") jsonData in
      match resp with
      | NetErr err => ret (inl ("failed to call Python backend: " +:+ err))
      | Resp status body =>
          if negb (status =? http_StatusOK)%Z then
            ret (inl ("Python backend returned error: " +:+ body))
          else
            match decode_object E body with
            | inl err => ret (inl err)
            | inr result => ret (inr result)
            end
      end
  end.

(** *** getBehaviorSignal (lines 103-132) *)

Definition getBehaviorSignal (runID : string) (stepIndex : Z) : M GoMap :=
  fun w =>
    match runs w !! runID with
    | None =>
        ({[ "pauseDuration" := VFloat 0%float;
            "replayCount" := VInt 0;
            "speedMultiplier" := VFloat 1%float ]}, w)
    | Some run =>
        match BehaviorSignals run !! stepIndex with
        | Some signal =>
            ({[ "pauseDuration" := VFloat (PauseDuration signal);
                "replayCount" := VInt (ReplayCount signal);
                "speedMultiplier" := VFloat (SpeedMultiplier signal);
                "hoverIndex" := VIntPtr (HoverIndex signal);
                "scrollDepth" := VIntPtr (ScrollDepth signal) ]}, w)
        | None =>
            ({[ "pauseDuration" := VFloat 0%float;
                "replayCount" := VInt 0;
                "speedMultiplier" := VFloat 1%float ]}, w)
        end
    end.

(** *** streamRun (lines 134-197) *)

Definition traceMsg (frame : option GoMap) : GoMap :=
  {[ "type" := VString "TRACE"; "data" := ofMap frame ]}.

Definition fallbackExplanation : GoMap :=
  {[ "mode" := VString "conceptual";
     "explanation" := VString "Processing this step...";
     "short_hint" := VString "Watch the visualization";
     "confidence_estimate" := VString "medium";
     "followup_question" := VString "" ]}.

Definition explainMsg (explanation : option GoMap) : GoMap :=
  {[ "type" := VString "EXPLANATION"; "data" := ofMap explanation ]}.

Definition endMsg : GoMap :=
  {[ "type" := VString "END";
     "data" := VMap {[ "message" := VString "Visualization complete" ]} ]}.

(** The [for i, frame := range run.Trace] loop, from index [i] on. *)
Fixpoint streamFrames (runID : string) (speedMultiplier : float)
    (frameDelay : Z) (i : Z) (frames : list (option GoMap))
  : M (option error) :=
  match frames with
  | [] => ret None
  | frame :: rest =>
      let! err := WriteJSON (traceMsg frame) in
      match err with
      | Some err => ret (Some ("failed to send trace: " +:+ err))
      | None =>
          let! userBehavior := getBehaviorSignal runID i in
          let userBehavior :=
            <["speedMultiplier" := VFloat speedMultiplier]> userBehavior in
          let! r := callPythonExplain frame userBehavior in
          let! explanation :=
            match r with
            | inl err =>
                do! Printf ("Error getting explanation: " +:+ err +:+ newline) in
                ret (Some fallbackExplanation)
            | inr explanation => ret explanation
            end in
          let! err := WriteJSON (explainMsg explanation) in
          match err with
          | Some err => ret (Some ("failed to send explanation: " +:+ err))
          | None =>
              do! Sleep frameDelay in
              streamFrames runID speedMultiplier frameDelay (i + 1) rest
          end
      end
  end.

Definition frameDelayOf (speedMultiplier : float) : Z :=
  let baseDelay := 1000%float in
  wrap64 (Duration_of_float (baseDelay / speedMultiplier) * Millisecond).

Definition streamRun (runID : string) (speedMultiplier : float)
  : M (option error) :=
  fun w =>
    match runs w !! runID with
    | None => (Some ("run not found: " +:+ runID), w)
    | Some run =>
        let frameDelay := frameDelayOf speedMultiplier in
        (let! err := streamFrames runID speedMultiplier frameDelay 0 (Trace run) in
         match err with
         | Some err => ret (Some err)
         | None => WriteJSON endMsg
         end) w
    end.

(** *** createRun (lines 199-222) *)

Definition createRun (algorithmID : string) (array : list Z)
  : M (error + RunState) :=
  let! r := callPythonExecute algorithmID array in
  match r with
  | inl err => ret (inl err)
  | inr trace =>
      fun w =>
        let runID := uuid_New E (events w) in
        let run := {| RunID := runID; Trace := trace; CurrentStep := 0;
                      BehaviorSignals := ∅ |} in
        (inr run, {| runs := <[runID := run]> (runs w); events := events w |})
  end.

(** *** enableCORS and handleRunCreate (lines 250-299) *)

Definition enableCORS (w : ResponseWriter) : ResponseWriter :=
  let w := Header_Set "Access-Control-Allow-Origin" "*" w in
  let w := Header_Set "Access-Control-Allow-Methods" "POST, GET, OPTIONS" w in
  Header_Set "Access-Control-Allow-Headers" "Content-Type" w.

Definition handleRunCreate (w : ResponseWriter) (r : Request)
  : M ResponseWriter :=
  let w := enableCORS w in
  if decide (Method r = "OPTIONS") then ret (WriteHeader http_StatusOK w)
  else if decide (Method r ≠ "POST") then
    ret (http_Error w "Method not allowed" http_StatusMethodNotAllowed)
  else
    match decode_request E (Body r) with
    | inl _ => ret (http_Error w "Invalid request body" http_StatusBadRequest)
    | inr (AlgorithmID, Array) =>
        if (length Array =? 0)%nat then
          ret (http_Error w "Array cannot be empty" http_StatusBadRequest)
        else
          let! res := createRun AlgorithmID Array in
          match res with
          | inl err =>
              ret (http_Error w ("Failed to create run: " +:+ err)
                     http_StatusInternalServerError)
          | inr run =>
              let w := Header_Set "Content-Type" "application/json" w in
              ret (ResponseWriter_Write (Json {[ "runId" := VString (RunID run) ]}) w)
          end
    end.

(** *** handleWebSocket (lines 301-336) *)

(** The speed multiplier of an attach request (lines 309-313). *)
Definition speedOf (r : Request) : float :=
  let speedStr := Query_Get r "speed" in
  let speedMultiplier := 1%float in
  if decide (speedStr ≠ "") then
    match Sscanf_f E speedStr with
    | Some v => v
    | None => speedMultiplier
    end
  else speedMultiplier.

Definition errorMsg (message : string) : GoMap :=
  {[ "type" := VString "ERROR";
     "data" := VMap {[ "message" := VString message ]} ]}.

Definition handleWebSocket (w : ResponseWriter) (r : Request)
  : M ResponseWriter :=
  let runID := Query_Get r "runId" in
  if decide (runID = "") then
    ret (http_Error w "Missing runId parameter" http_StatusBadRequest)
  else
    let speedMultiplier := speedOf r in
    fun s =>
      match ws_Upgrade E (events s) w r with
      | inl (err, w') =>
          (do! log_Printf ("WebSocket upgrade failed: " +:+ err) in ret w') s
      | inr _ =>
          (let! err := streamRun runID speedMultiplier in
           do! match err with
               | Some err =>
                   do! log_Printf ("Error streaming run: " +:+ err) in
                   let! _ := WriteJSON (errorMsg err) in
                   ret tt
               | None => ret tt
               end in
           do! Close in
           ret w) s
      end.

(** *** handleHealth (lines 338-346) *)

Definition handleHealth (w : ResponseWriter) (r : Request)
  : M ResponseWriter :=
  let w := enableCORS w in
  let w := Header_Set "Content-Type" "application/json" w in
  ret (ResponseWriter_Write
         (Json {[ "status" := VString "healthy";
                  "service" := VString "go-backend" ]}) w).

End Backend.

(** ** Reading the log *)

(** The messages the viewer connection accepted, in order. *)
Definition sent (evs : list Event) : list GoMap :=
  flat_map (fun e => match e with EvWrite m None => [m] | _ => [] end) evs.

(** Every message handed to [conn.WriteJSON], accepted or not. *)
Definition attempted (evs : list Event) : list GoMap :=
  flat_map (fun e => match e with EvWrite m _ => [m] | _ => [] end) evs.

(** The requests posted to the Python backend, with their URL. *)
Definition posted (evs : list Event) : list (string * GoMap) :=
  flat_map (fun e => match e with EvPost u r _ => [(u, r)] | _ => [] end) evs.

(** The pauses the relay took, in nanoseconds. *)
Definition sleeps (evs : list Event) : list Z :=
  flat_map (fun e => match e with EvSleep d => [d] | _ => [] end) evs.

Definition write_failed (e : Event) : bool :=
  match e with EvWrite _ (Some _) => true | _ => false end.

(** No write on the viewer connection failed. *)
Definition all_sent (evs : list Event) : Prop :=
  Forall (fun e => write_failed e = false) evs.

(** The [type] field of an outbound message. *)
Definition msgTypeIs (t : string) (m : GoMap) : bool :=
  match m !! "type" with
  | Some (VString s) => String.eqb s t
  | _ => false
  end.

Definition countType (t : string) (msgs : list GoMap) : nat :=
  length (List.filter (msgTypeIs t) msgs).

(** TRACE(0), EXPLANATION(0), TRACE(1), EXPLANATION(1), ... *)
Fixpoint interleaved (frames explanations : list (option GoMap))
  : list GoMap :=
  match frames, explanations with
  | frame :: frames, e :: explanations =>
      traceMsg frame :: explainMsg e :: interleaved frames explanations
  | _, _ => []
  end.

(** A computation that leaves the run table alone and only adds to the log. *)
Definition appends {A} (m : M A) : Prop :=
  forall w, runs (exec m w) = runs w /\
            exists evs, events (exec m w) = events w ++ evs.

(** ** The anatomy of one loop iteration

    The points an iteration of the relay passes through, each defined by
    running the code above from the world [w] in which the iteration
    starts. *)

Section Iteration.

Variables (E : Env) (runID : string) (speedMultiplier : float) (frameDelay : Z).
Variables (i : Z) (frame : option GoMap) (w : World).

(** What the write of TRACE answers, and the world after it. *)
Definition traceResult : option error :=
  eval (WriteJSON E (traceMsg frame)) w.
Definition afterTrace : World :=
  exec (WriteJSON E (traceMsg frame)) w.

(** The behaviour summary of lines 158-160. *)
Definition summary : GoMap :=
  <["speedMultiplier" := VFloat speedMultiplier]>
    (eval (getBehaviorSignal runID i) afterTrace).

(** What [callPythonExplain] returns for this frame. *)
Definition explainResult : error + option GoMap :=
  eval (callPythonExplain E frame summary) afterTrace.

(** The explanation that goes out, and the world just before it does. *)
Definition explanationSent : option GoMap :=
  match explainResult with
  | inl _ => Some fallbackExplanation
  | inr explanation => explanation
  end.
Definition afterExplain : World :=
  let w2 := exec (callPythonExplain E frame summary) afterTrace in
  match explainResult with
  | inl err => exec (Printf ("Error getting explanation: " +:+ err +:+ newline)) w2
  | inr _ => w2
  end.

(** What is logged between the two writes: the post, when one is made,
    and the line printed when the call failed. *)
Definition explainTrail : list Event :=
  trail (callPythonExplain E frame summary) afterTrace ++
  match explainResult with
  | inl err => [EvPrintf ("Error getting explanation: " +:+ err +:+ newline)]
  | inr _ => []
  end.

(** What the write of EXPLANATION answers, and the world after the
    iteration's sleep. *)
Definition explainWriteResult : option error :=
  eval (WriteJSON E (explainMsg explanationSent)) afterExplain.
Definition afterExplainWrite : World :=
  exec (WriteJSON E (explainMsg explanationSent)) afterExplain.
Definition afterFrame : World :=
  exec (Sleep frameDelay) afterExplainWrite.

End Iteration.

(** The relay from frame [i] on: the rest of the loop, then END
    (lines 148-196). [streamRun] is [relayFrom] at index 0. *)
Definition relayFrom (E : Env) (runID : string) (speedMultiplier : float)
    (frameDelay : Z) (i : Z) (frames : list (option GoMap))
  : M (option error) :=
  let! err := streamFrames E runID speedMultiplier frameDelay i frames in
  match err with
  | Some err => ret (Some err)
  | None => WriteJSON E endMsg
  end.

(** A run table in which [signal] is recorded for step [i] of [run]. *)
Definition withSignal (run : RunState) (i : Z) (signal : BehaviorSignal)
  : RunState :=
  {| RunID := RunID run; Trace := Trace run; CurrentStep := CurrentStep run;
     BehaviorSignals := <[i := signal]> (BehaviorSignals run) |}.

Definition withoutSignal (run : RunState) (i : Z) : RunState :=
  {| RunID := RunID run; Trace := Trace run; CurrentStep := CurrentStep run;
     BehaviorSignals := delete i (BehaviorSignals run) |}.

Definition defaultSignal : BehaviorSignal :=
  {| PauseDuration := 0%float; ReplayCount := 0; SpeedMultiplier := 1%float;
     HoverIndex := None; ScrollDepth := None |}.

Definition pausedSignal : BehaviorSignal :=
  {| PauseDuration := 2.5%float; ReplayCount := 3;
     SpeedMultiplier := 0.5%float; HoverIndex := Some 4%Z;
     ScrollDepth := None |}.

Definition setRun (runID : string) (run : RunState) (w : World) : World :=
  {| runs := <[runID := run]> (runs w); events := events w |}.

(** ** Concrete environments, for running the model *)

Definition digitOf (c : ascii) : option Z :=
  let n := Z.of_nat (nat_of_ascii c) in
  if ((48 <=? n) && (n <=? 57))%Z then Some (n - 48)%Z else None.

Fixpoint scanDigits (s : string) (acc : Z) (n : nat) : option (Z * nat) :=
  match s with
  | EmptyString => Some (acc, n)
  | String c s' =>
      match digitOf c with
      | Some d => scanDigits s' (10 * acc + d)%Z (S n)
      | None => None
      end
  end.

Fixpoint splitDot (s : string) : string * option string :=
  match s with
  | EmptyString => (EmptyString, None)
  | String c s' =>
      if Ascii.eqb c "."%char then (EmptyString, Some s')
      else let '(a, b) := splitDot s' in (String c a, b)
  end.

(** [fmt.Sscanf(s, "%f", &x)] on a plain decimal literal (sign, digits,
    optional fraction) of at most 15 digits, where the quotient below is the
    correctly rounded float64. Any other text is reported as a scan error
    by this oracle; the library also reads exponents, hexadecimal floats,
    NaN and Inf, and a number followed by other text, so this oracle stands
    for it on plain decimal literals and on text that starts no number. *)
Definition scanDecimal (s : string) : option float :=
  let '(neg, body) :=
    match s with
    | String c t =>
        if Ascii.eqb c "-"%char then (true, t)
        else if Ascii.eqb c "+"%char then (false, t)
        else (false, s)
    | EmptyString => (false, s)
    end in
  let '(ip, fp) := splitDot body in
  match scanDigits ip 0 0,
        match fp with Some f => scanDigits f 0 0 | None => Some (0%Z, 0%nat) end
  with
  | Some (a, na), Some (b, nb) =>
      if ((na + nb =? 0) || (15 <? na + nb))%nat then None
      else
        let scale := (10 ^ Z.of_nat nb)%Z in
        let v := (PrimFloat.of_uint63 (Uint63.of_Z (a * scale + b)) /
                  PrimFloat.of_uint63 (Uint63.of_Z scale))%float in
        Some (if neg then (- v)%float else v)
  | _, _ => None
  end.

(** A toy wire format for the bodies the decoders read: the empty body is
    malformed; a create-run body lists the array's digits; a trace body has
    one frame per character, an underscore standing for null; an
    explanation body is the explanation text, or null. *)
Definition demo_decode_request (body : string) : error + (string * list Z) :=
  if decide (body = "") then inl "EOF"
  else inr ("bubble_sort", omap digitOf (list_ascii_of_string body)).

Definition demoFrame (c : ascii) : option GoMap :=
  if Ascii.eqb c "_"%char then None
  else Some {[ "action" := VString (String c EmptyString) ]}.

Definition demo_decode_trace (body : string)
  : error + list (option GoMap) :=
  if decide (body = "") then inl "EOF"
  else inr (demoFrame <$> list_ascii_of_string body).

Definition demo_decode_object (body : string) : error + option GoMap :=
  if decide (body = "") then inl "EOF"
  else if decide (body = "null") then inr None
  else inr (Some {[ "mode" := VString "operational";
                    "explanation" := VString body;
                    "short_hint" := VString "";
                    "confidence_estimate" := VString "high";
                    "followup_question" := VString "" ]}).

Definition demoEnv (post : list Event -> string -> GoMap -> HttpOutcome)
    (write : list Event -> GoMap -> option error) : Env :=
  {| http_Post := post;
     decode_trace := demo_decode_trace;
     decode_object := demo_decode_object;
     decode_request := demo_decode_request;
     conn_WriteJSON := write;
     uuid_New := fun h => "run-" +:+ pretty (length h);
     ws_Upgrade := fun _ _ _ => inr tt;
     Sscanf_f := scanDecimal;
     int64_of_unrepresentable := fun _ => (- 2 ^ 63)%Z |}.

(** Collaborators and connections. *)
Definition pythonUp : list Event -> string -> GoMap -> HttpOutcome :=
  fun _ _ _ => Resp 200 "Compare the two highlighted cells".
Definition pythonDown : list Event -> string -> GoMap -> HttpOutcome :=
  fun _ _ _ => NetErr "connection refused".
Definition pythonErrors : list Event -> string -> GoMap -> HttpOutcome :=
  fun _ _ _ => Resp 500 "Unknown algorithm".
(** Down for the [k]-th post only. *)
Definition pythonDownAt (k : nat) : list Event -> string -> GoMap -> HttpOutcome :=
  fun h _ _ =>
    if (length (posted h) =? k)%nat then NetErr "connection refused"
    else Resp 200 "Compare the two highlighted cells".

(** What [demo_decode_object] reads in the body [pythonUp] answers. *)
Definition demoExplanation : GoMap :=
  {[ "mode" := VString "operational";
     "explanation" := VString "Compare the two highlighted cells";
     "short_hint" := VString "";
     "confidence_estimate" := VString "high";
     "followup_question" := VString "" ]}.

Definition viewerOpen : list Event -> GoMap -> option error :=
  fun _ _ => None.
(** The viewer goes away before the [n]-th write. *)
Definition viewerGoneAt (n : nat) : list Event -> GoMap -> option error :=
  fun h _ => if (n <=? length (attempted h))%nat then Some "broken pipe" else None.

Definition demoRun (frames : string) : RunState :=
  {| RunID := "r1"; Trace := demoFrame <$> list_ascii_of_string frames;
     CurrentStep := 0; BehaviorSignals := ∅ |}.

Definition demoWorld (frames : string) : World :=
  {| runs := {[ "r1" := demoRun frames ]}; events := [] |}.

Definition emptyWorld : World := {| runs := ∅; events := [] |}.

Definition freshResponse : ResponseWriter :=
  {| Header := ∅; StatusCode := None; Written := [] |}.

Definition attachRequest (runId speed : string) : Request :=
  {| Method := "GET";
     Query := {[ "runId" := runId; "speed" := speed ]};
     Body := "" |}.

Definition createRequest (body : string) : Request :=
  {| Method := "POST"; Query := ∅; Body := body |}.

(** ** TrackedArray (tracked_array.h)

    The array the teaching programs sort: every mutation first records a
    JSON snapshot of the array, with the positions it is about to touch and
    a description, and then changes the array. An [int] is a [Z]; a
    [size_t] index is a [nat]. *)

Module TrackedArray.

Record t : Type := {
  data : list Z;
  trace_steps : list string
}.

Definition dquote : string := String (ascii_of_nat 34) EmptyString.

(** [(int)index] *)
Definition int_of_size_t (n : nat) : Z :=
  ((Z.of_nat n + 2 ^ 31) mod 2 ^ 32 - 2 ^ 31)%Z.

(** The two printing loops of [record]: the elements, with a comma after
    each but the last. *)
Fixpoint join_ints (l : list Z) : string :=
  match l with
  | [] => ""
  | [x] => pretty x
  | x :: rest => pretty x +:+ "," +:+ join_ints rest
  end.

Definition record (action : string) (highlights : list Z) (a : t) : t :=
  let ss :=
    "{" +:+
    dquote +:+ "data" +:+ dquote +:+ ":[" +:+ join_ints (data a) +:+ "]," +:+
    dquote +:+ "highlights" +:+ dquote +:+ ":[" +:+ join_ints highlights
      +:+ "]," +:+
    dquote +:+ "action" +:+ dquote +:+ ":" +:+ dquote +:+ action +:+ dquote +:+
    "}" in
  {| data := data a; trace_steps := trace_steps a ++ [ss] |}.

(** The constructor. *)
Definition make (initial_data : list Z) : t :=
  record "Initial array" [] {| data := initial_data; trace_steps := [] |}.

Definition size (a : t) : Z := int_of_size_t (length (data a)).

Definition get (index : nat) (a : t) : Z :=
  if (length (data a) <=? index)%nat then (-1)%Z
  else default 0%Z (data a !! index).

Definition set (index : nat) (value : Z) (a : t) : t :=
  if (length (data a) <=? index)%nat then a
  else
    let action := "Set arr[" +:+ pretty index +:+ "] = " +:+ pretty value in
    let a := record action [int_of_size_t index] a in
    {| data := <[index := value]> (data a); trace_steps := trace_steps a |}.

Definition swap (i j : nat) (a : t) : t :=
  if ((length (data a) <=? i) || (length (data a) <=? j))%nat then a
  else
    let action :=
      "Swap arr[" +:+ pretty i +:+ "] ↔ arr[" +:+ pretty j +:+ "]" in
    let a := record action [int_of_size_t i; int_of_size_t j] a in
    let temp := default 0%Z (data a !! i) in
    let d := <[i := default 0%Z (data a !! j)]> (data a) in
    let d := <[j := temp]> d in
    {| data := d; trace_steps := trace_steps a |}.

Definition insert (index : nat) (value : Z) (a : t) : t :=
  if (length (data a) <? index)%nat then a
  else
    let action :=
      "Insert " +:+ pretty value +:+ " at index " +:+ pretty index in
    let a := record action [int_of_size_t index] a in
    {| data := take index (data a) ++ value :: drop index (data a);
       trace_steps := trace_steps a |}.

Definition erase (index : nat) (a : t) : t :=
  if (length (data a) <=? index)%nat then a
  else
    let action := "Delete arr[" +:+ pretty index +:+ "]" in
    let a := record action [int_of_size_t index] a in
    {| data := delete index (data a); trace_steps := trace_steps a |}.

(** What [print_trace] writes to [cout], and the array after it. *)
Fixpoint join_steps (l : list string) : string :=
  match l with
  | [] => ""
  | [x] => x
  | x :: rest => x +:+ "," +:+ join_steps rest
  end.

Definition print_trace (a : t) : string * t :=
  let a := record "✓ Sorting complete!" [] a in
  ("{" +:+ dquote +:+ "trace" +:+ dquote +:+ ":[" +:+
   join_steps (trace_steps a) +:+ "]}", a).

End TrackedArray.

(** ** Computations only add to the log *)

Lemma eval_bind {A B} (m : M A) (k : A -> M B) w :
  eval (bind m k) w = eval (k (eval m w)) (exec m w).
Proof. unfold eval, exec, bind. destruct (m w). reflexivity. Qed.

Lemma exec_bind {A B} (m : M A) (k : A -> M B) w :
  exec (bind m k) w = exec (k (eval m w)) (exec m w).
Proof. unfold eval, exec, bind. destruct (m w). reflexivity. Qed.

Lemma run_eq {A} (m : M A) w : m w = (eval m w, exec m w).
Proof. unfold eval, exec. destruct (m w). reflexivity. Qed.

Lemma trail_spec {A} (m : M A) w :
  appends m -> events (exec m w) = events w ++ trail m w.
Proof.
  intros H. destruct (H w) as [_ [evs Hevs]]. unfold trail.
  rewrite Hevs, drop_app_length. reflexivity.
Qed.

Lemma trail_unique {A} (m : M A) w evs :
  events (exec m w) = events w ++ evs -> trail m w = evs.
Proof. intros H. unfold trail. rewrite H. apply drop_app_length. Qed.

Lemma appends_ret {A} (a : A) : appends (ret a).
Proof. intros w. split; [reflexivity|]. exists []. cbn. symmetry. apply app_nil_r. Qed.

Lemma appends_emit e : appends (emit e).
Proof. intros w. split; [reflexivity|]. exists [e]. reflexivity. Qed.

Lemma appends_bind {A B} (m : M A) (k : A -> M B) :
  appends m -> (forall a, appends (k a)) -> appends (bind m k).
Proof.
  intros Hm Hk w. rewrite exec_bind.
  destruct (Hm w) as [Hr [e1 He1]].
  destruct (Hk (eval m w) (exec m w)) as [Hr' [e2 He2]].
  split; [congruence|].
  exists (e1 ++ e2). rewrite He2, He1. symmetry. apply app_assoc.
Qed.

Lemma trail_ret {A} (a : A) w : trail (ret a) w = [].
Proof. apply trail_unique. cbn. symmetry. apply app_nil_r. Qed.

Lemma trail_emit e w : trail (emit e) w = [e].
Proof. apply trail_unique. reflexivity. Qed.

Lemma trail_bind {A B} (m : M A) (k : A -> M B) w :
  appends m -> (forall a, appends (k a)) ->
  trail (bind m k) w = trail m w ++ trail (k (eval m w)) (exec m w).
Proof.
  intros Hm Hk. apply trail_unique. rewrite exec_bind.
  rewrite (trail_spec (k (eval m w))) by apply Hk.
  rewrite (trail_spec m) by apply Hm. symmetry. apply app_assoc.
Qed.

Lemma sent_app a b : sent (a ++ b) = sent a ++ sent b.
Proof. apply flat_map_app. Qed.

Lemma attempted_app a b : attempted (a ++ b) = attempted a ++ attempted b.
Proof. apply flat_map_app. Qed.

Lemma posted_app a b : posted (a ++ b) = posted a ++ posted b.
Proof. apply flat_map_app. Qed.

Lemma countType_app t a b : countType t (a ++ b) = (countType t a + countType t b)%nat.
Proof. unfold countType. rewrite List.filter_app, length_app. reflexivity. Qed.

Section BackendFacts.

Variable E : Env.

Lemma appends_Post url req : appends (Post E url req).
Proof. intros w. split; [reflexivity|]. eexists. reflexivity. Qed.

Lemma appends_WriteJSON v : appends (WriteJSON E v).
Proof. intros w. split; [reflexivity|]. eexists. reflexivity. Qed.

Lemma appends_getBehaviorSignal runID i : appends (getBehaviorSignal runID i).
Proof.
  intros w. unfold exec, getBehaviorSignal.
  destruct (runs w !! runID) as [run|]; [destruct (BehaviorSignals run !! i)|];
    (split; [reflexivity|]; exists []; cbn; symmetry; apply app_nil_r).
Qed.

Lemma appends_callPythonExplain frame ub : appends (callPythonExplain E frame ub).
Proof.
  unfold callPythonExplain. destruct (json_Marshal _); [apply appends_ret|].
  apply appends_bind; [apply appends_Post|].
  intros [e|status body]; [apply appends_ret|].
  destruct (negb _); [apply appends_ret|].
  destruct (decode_object E body); apply appends_ret.
Qed.

Lemma appends_callPythonExecute alg arr : appends (callPythonExecute E alg arr).
Proof.
  unfold callPythonExecute. destruct (json_Marshal _); [apply appends_ret|].
  apply appends_bind; [apply appends_Post|].
  intros [e|status body]; [apply appends_ret|].
  destruct (negb _); [apply appends_ret|].
  destruct (decode_trace E body); apply appends_ret.
Qed.

Lemma appends_streamFrames runID speed delay frames :
  forall i, appends (streamFrames E runID speed delay i frames).
Proof.
  induction frames as [|frame rest IH]; intros i; cbn [streamFrames].
  - apply appends_ret.
  - apply appends_bind; [apply appends_WriteJSON|].
    intros [e|]; [apply appends_ret|].
    apply appends_bind; [apply appends_getBehaviorSignal|]. intros ub.
    apply appends_bind; [apply appends_callPythonExplain|]. intros r.
    apply appends_bind.
    { destruct r; [|apply appends_ret].
      apply appends_bind; [apply appends_emit|]. intros _. apply appends_ret. }
    intros x. apply appends_bind; [apply appends_WriteJSON|].
    intros [e|]; [apply appends_ret|].
    apply appends_bind; [apply appends_emit|]. intros _. apply IH.
Qed.

Lemma appends_streamRun runID speed : appends (streamRun E runID speed).
Proof.
  intros w. unfold exec, streamRun.
  destruct (runs w !! runID) as [run|].
  - apply (appends_bind (streamFrames E runID speed _ 0 (Trace run))).
    + apply appends_streamFrames.
    + intros [e|]; [apply appends_ret|apply appends_WriteJSON].
  - split; [reflexivity|]. exists []. cbn. symmetry. apply app_nil_r.
Qed.

End BackendFacts.

(** ** One iteration of the relay *)

Section IterationFacts.

Variables (E : Env) (runID : string) (speed : float) (delay : Z).

Lemma exec_getBehaviorSignal i w : exec (getBehaviorSignal runID i) w = w.
Proof.
  unfold exec, getBehaviorSignal.
  destruct (runs w !! runID) as [run|]; [destruct (BehaviorSignals run !! i)|];
    reflexivity.
Qed.

Lemma streamFrames_step i frame rest w :
  streamFrames E runID speed delay i (frame :: rest) w =
    match traceResult E frame w with
    | Some e => (Some ("failed to send trace: " +:+ e), afterTrace E frame w)
    | None =>
        match explainWriteResult E runID speed i frame w with
        | Some e => (Some ("failed to send explanation: " +:+ e),
                     afterExplainWrite E runID speed i frame w)
        | None => streamFrames E runID speed delay (i + 1) rest
                    (afterFrame E runID speed delay i frame w)
        end
    end.
Proof.
  cbn [streamFrames]. unfold bind at 1.
  rewrite (run_eq (WriteJSON E (traceMsg frame)) w).
  fold (traceResult E frame w). fold (afterTrace E frame w).
  destruct (traceResult E frame w) as [e|] eqn:Ht; [reflexivity|].
  unfold bind at 1.
  rewrite (run_eq (getBehaviorSignal runID i) (afterTrace E frame w)).
  rewrite exec_getBehaviorSignal.
  fold (summary E runID speed i frame w).
  unfold bind at 1.
  rewrite (run_eq (callPythonExplain E frame _) (afterTrace E frame w)).
  fold (explainResult E runID speed i frame w).
  unfold afterFrame, afterExplainWrite, explainWriteResult, afterExplain,
    explanationSent.
  destruct (explainResult E runID speed i frame w) as [err|x] eqn:Hr.
  - unfold bind at 1. unfold bind at 1.
    rewrite (run_eq (Printf _) _). cbn [ret].
    unfold bind at 1. rewrite (run_eq (WriteJSON E _) _).
    destruct (eval (WriteJSON E _) _); [reflexivity|].
    unfold bind at 1. rewrite (run_eq (Sleep delay) _). reflexivity.
  - unfold bind at 1. cbn [ret].
    unfold bind at 1. rewrite (run_eq (WriteJSON E _) _).
    destruct (eval (WriteJSON E _) _); [reflexivity|].
    unfold bind at 1. rewrite (run_eq (Sleep delay) _). reflexivity.
Qed.

Lemma events_WriteJSON v w :
  events (exec (WriteJSON E v) w) =
  events w ++ [EvWrite v (eval (WriteJSON E v) w)].
Proof. reflexivity. Qed.

Lemma events_emit e w : events (exec (emit e) w) = events w ++ [e].
Proof. reflexivity. Qed.

Lemma events_afterTrace frame w :
  events (afterTrace E frame w) =
  events w ++ [EvWrite (traceMsg frame) (traceResult E frame w)].
Proof. reflexivity. Qed.

Lemma events_afterExplain i frame w :
  events (afterExplain E runID speed i frame w) =
  events w ++ EvWrite (traceMsg frame) (traceResult E frame w)
           :: explainTrail E runID speed i frame w.
Proof.
  unfold afterExplain, explainTrail.
  set (c := callPythonExplain E frame _).
  pose proof (trail_spec c (afterTrace E frame w)
                (appends_callPythonExplain E _ _)) as Hc.
  rewrite events_afterTrace in Hc.
  cbv zeta. destruct (explainResult E runID speed i frame w) as [err|x].
  - change (events (exec (Printf ?l) ?w')) with (events w' ++ [EvPrintf l]).
    rewrite Hc. rewrite <- !app_assoc. reflexivity.
  - rewrite Hc, app_nil_r. rewrite <- !app_assoc. reflexivity.
Qed.

Lemma events_afterExplainWrite i frame w :
  events (afterExplainWrite E runID speed i frame w) =
  events w ++ EvWrite (traceMsg frame) (traceResult E frame w)
           :: explainTrail E runID speed i frame w
           ++ [EvWrite (explainMsg (explanationSent E runID speed i frame w))
                 (explainWriteResult E runID speed i frame w)].
Proof.
  unfold afterExplainWrite, explainWriteResult.
  rewrite events_WriteJSON, events_afterExplain.
  rewrite <- !app_assoc. reflexivity.
Qed.

Lemma events_afterFrame i frame w :
  events (afterFrame E runID speed delay i frame w) =
  events w ++ EvWrite (traceMsg frame) (traceResult E frame w)
           :: explainTrail E runID speed i frame w
           ++ [EvWrite (explainMsg (explanationSent E runID speed i frame w))
                 (explainWriteResult E runID speed i frame w);
               EvSleep delay].
Proof.
  unfold afterFrame, Sleep. rewrite events_emit, events_afterExplainWrite.
  rewrite <- !app_assoc. cbn [app]. rewrite <- !app_assoc. reflexivity.
Qed.

Lemma runs_afterFrame i frame w :
  runs (afterFrame E runID speed delay i frame w) = runs w.
Proof.
  unfold afterFrame, afterExplainWrite, afterExplain.
  change (runs (exec (Sleep delay) (exec (WriteJSON E ?v) ?w'))) with (runs w').
  cbv zeta.
  assert (Hc : forall ub, runs (exec (callPythonExplain E frame ub)
                                  (afterTrace E frame w)) = runs w).
  { intros ub.
    exact (proj1 (appends_callPythonExplain E frame ub (afterTrace E frame w))). }
  destruct (explainResult E runID speed i frame w).
  - change (runs (exec (Printf ?l) ?w')) with (runs w'). apply Hc.
  - apply Hc.
Qed.

(** [callPythonExplain] posts once, unless the request cannot be
    marshalled, and writes nothing to the viewer. *)
Lemma trail_callPythonExplain frame ub w :
  trail (callPythonExplain E frame ub) w =
  let req : GoMap := {[ "frame" := ofMap frame; "userBehavior" := VMap ub ]} in
  match json_Marshal req with
  | inl _ => []
  | inr _ =>
      let url := pythonBaseURL +:+ "/explain-step" in
      [EvPost url req (http_Post E (events w) url req)]
  end.
Proof.
  apply trail_unique. unfold callPythonExplain, json_Marshal. cbv zeta.
  destruct (firstUnsupported _).
  - cbn. symmetry. apply app_nil_r.
  - unfold exec, bind, Post. cbv beta iota.
    destruct (http_Post E (events w) _ _) as [e|status body]; [reflexivity|].
    destruct (negb _); [reflexivity|].
    destruct (decode_object E body); reflexivity.
Qed.

Lemma explainTrail_no_write i frame w :
  attempted (explainTrail E runID speed i frame w) = [] /\
  all_sent (explainTrail E runID speed i frame w).
Proof.
  unfold explainTrail. rewrite trail_callPythonExplain. cbn zeta.
  destruct (json_Marshal _), (explainResult E runID speed i frame w);
    cbn; split; try reflexivity; repeat constructor.
Qed.

Lemma explainTrail_sent i frame w :
  sent (explainTrail E runID speed i frame w) = [] /\
  posted (explainTrail E runID speed i frame w) =
  posted (trail (callPythonExplain E frame (summary E runID speed i frame w))
            (afterTrace E frame w)).
Proof.
  unfold explainTrail. rewrite sent_app, posted_app, trail_callPythonExplain.
  cbv zeta.
  destruct (json_Marshal _), (explainResult E runID speed i frame w);
    cbn; split; try reflexivity.
Qed.

Lemma eval_streamFrames_cons i frame rest w :
  eval (streamFrames E runID speed delay i (frame :: rest)) w =
    match traceResult E frame w with
    | Some e => Some ("failed to send trace: " +:+ e)
    | None =>
        match explainWriteResult E runID speed i frame w with
        | Some e => Some ("failed to send explanation: " +:+ e)
        | None => eval (streamFrames E runID speed delay (i + 1) rest)
                    (afterFrame E runID speed delay i frame w)
        end
    end.
Proof.
  unfold eval at 1. rewrite streamFrames_step.
  destruct (traceResult E frame w); [reflexivity|].
  destruct (explainWriteResult E runID speed i frame w); reflexivity.
Qed.

Lemma trail_streamFrames_cons i frame rest w :
  trail (streamFrames E runID speed delay i (frame :: rest)) w =
    match traceResult E frame w with
    | Some e => [EvWrite (traceMsg frame) (Some e)]
    | None =>
        EvWrite (traceMsg frame) None ::
        explainTrail E runID speed i frame w ++
        match explainWriteResult E runID speed i frame w with
        | Some e =>
            [EvWrite (explainMsg (explanationSent E runID speed i frame w))
               (Some e)]
        | None =>
            EvWrite (explainMsg (explanationSent E runID speed i frame w)) None
            :: EvSleep delay
            :: trail (streamFrames E runID speed delay (i + 1) rest)
                 (afterFrame E runID speed delay i frame w)
        end
    end.
Proof.
  apply trail_unique. unfold exec at 1. rewrite streamFrames_step.
  destruct (traceResult E frame w) as [e|] eqn:Ht.
  - cbn [snd]. rewrite events_afterTrace, Ht. reflexivity.
  - destruct (explainWriteResult E runID speed i frame w) as [e|] eqn:Hw.
    + cbn [snd]. rewrite events_afterExplainWrite, Ht, Hw. reflexivity.
    + fold (exec (streamFrames E runID speed delay (i + 1) rest)
              (afterFrame E runID speed delay i frame w)).
      rewrite (trail_spec _ _ (appends_streamFrames E _ _ _ _ _)).
      rewrite events_afterFrame, Ht, Hw.
      rewrite <- !app_assoc. cbn. rewrite <- !app_assoc. reflexivity.
Qed.

End IterationFacts.

(** ** The whole relay *)

Section RelayFacts.

Variables (E : Env) (runID : string) (speed : float).

Lemma streamRun_found w run :
  runs w !! runID = Some run ->
  streamRun E runID speed w =
  relayFrom E runID speed (frameDelayOf E speed) 0 (Trace run) w.
Proof. intros H. unfold streamRun, relayFrom. rewrite H. reflexivity. Qed.

Lemma streamRun_missing w :
  runs w !! runID = None ->
  streamRun E runID speed w = (Some ("run not found: " +:+ runID), w).
Proof. intros H. unfold streamRun. rewrite H. reflexivity. Qed.

Lemma appends_relayFrom delay i frames :
  appends (relayFrom E runID speed delay i frames).
Proof.
  apply appends_bind; [apply appends_streamFrames|].
  intros [e|]; [apply appends_ret|apply appends_WriteJSON].
Qed.

Lemma eval_relayFrom delay i frames w :
  eval (relayFrom E runID speed delay i frames) w =
  match eval (streamFrames E runID speed delay i frames) w with
  | Some e => Some e
  | None => eval (WriteJSON E endMsg)
              (exec (streamFrames E runID speed delay i frames) w)
  end.
Proof.
  unfold relayFrom. rewrite eval_bind.
  destruct (eval (streamFrames E runID speed delay i frames) w); reflexivity.
Qed.

Lemma trail_relayFrom delay i frames w :
  trail (relayFrom E runID speed delay i frames) w =
  trail (streamFrames E runID speed delay i frames) w ++
  match eval (streamFrames E runID speed delay i frames) w with
  | Some e => []
  | None => [EvWrite endMsg
               (eval (WriteJSON E endMsg)
                  (exec (streamFrames E runID speed delay i frames) w))]
  end.
Proof.
  unfold relayFrom. rewrite trail_bind.
  - destruct (eval (streamFrames E runID speed delay i frames) w).
    + rewrite trail_ret. reflexivity.
    + f_equal. apply trail_unique. reflexivity.
  - apply appends_streamFrames.
  - intros [e|]; [apply appends_ret|apply appends_WriteJSON].
Qed.

(** When every write is accepted the loop runs through all the frames and
    sends TRACE and EXPLANATION in turn. *)
Lemma streamFrames_drained delay frames :
  forall i w,
    all_sent (trail (streamFrames E runID speed delay i frames) w) ->
    eval (streamFrames E runID speed delay i frames) w = None /\
    exists explanations,
      length explanations = length frames /\
      sent (trail (streamFrames E runID speed delay i frames) w) =
      interleaved frames explanations.
Proof.
  induction frames as [|frame rest IH]; intros i w Hall.
  - split; [reflexivity|]. exists []. split; [reflexivity|].
    cbn [streamFrames]. rewrite trail_ret. reflexivity.
  - rewrite trail_streamFrames_cons in Hall |- *.
    rewrite eval_streamFrames_cons.
    destruct (traceResult E frame w) as [e|].
    { apply Forall_cons in Hall as [Hbad _]. discriminate Hbad. }
    apply Forall_cons in Hall as [_ Hall].
    apply Forall_app in Hall as [_ Hall].
    destruct (explainWriteResult E runID speed i frame w) as [e|].
    { apply Forall_cons in Hall as [Hbad _]. discriminate Hbad. }
    apply Forall_cons in Hall as [_ Hall].
    apply Forall_cons in Hall as [_ Hall].
    destruct (IH _ _ Hall) as [Hev [expls [Hlen Hsent]]].
    split; [exact Hev|].
    exists (explanationSent E runID speed i frame w :: expls).
    split; [cbn; congruence|].
    change (sent (?e :: ?l)) with (sent [e] ++ sent l).
    rewrite sent_app.
    destruct (explainTrail_sent E runID speed i frame w) as [-> _].
    cbn [app]. change (sent (?e :: ?l)) with (sent [e] ++ sent l).
    change (sent (EvSleep delay :: ?l)) with (sent l).
    rewrite Hsent. reflexivity.
Qed.

(** A failed write is the last thing the loop does, and the loop then
    reports an error. *)
Lemma streamFrames_stops delay frames :
  forall i w,
    let t := trail (streamFrames E runID speed delay i frames) w in
    (eval (streamFrames E runID speed delay i frames) w = None /\ all_sent t) \/
    (exists pre m e,
        t = pre ++ [EvWrite m (Some e)] /\ all_sent pre /\
        is_Some (eval (streamFrames E runID speed delay i frames) w)).
Proof.
  induction frames as [|frame rest IH]; intros i w; cbv zeta.
  - left. split; [reflexivity|]. cbn [streamFrames]. rewrite trail_ret.
    constructor.
  - rewrite trail_streamFrames_cons, eval_streamFrames_cons.
    destruct (traceResult E frame w) as [e|].
    { right. exists [], (traceMsg frame), e.
      split; [reflexivity|]. split; [constructor|]. eexists; reflexivity. }
    destruct (explainTrail_no_write E runID speed i frame w) as [_ Hx].
    destruct (explainWriteResult E runID speed i frame w) as [e|].
    { right. eexists (_ :: _), _, e. split; [reflexivity|].
      split; [|eexists; reflexivity].
      constructor; [reflexivity|exact Hx]. }
    destruct (IH (i + 1)%Z (afterFrame E runID speed delay i frame w))
      as [[Hev Hall]|[pre [m [e [Ht [Hpre Hsome]]]]]].
    + left. split; [exact Hev|].
      constructor; [reflexivity|]. apply Forall_app. split; [exact Hx|].
      constructor; [reflexivity|]. constructor; [reflexivity|exact Hall].
    + right.
      exists (EvWrite (traceMsg frame) None
                :: explainTrail E runID speed i frame w
                ++ EvWrite (explainMsg (explanationSent E runID speed i frame w)) None
                :: EvSleep delay :: pre), m, e.
      split; [|split; [|exact Hsome]].
      * rewrite Ht. cbn [app]. rewrite <- app_assoc. reflexivity.
      * constructor; [reflexivity|]. apply Forall_app. split; [exact Hx|].
        constructor; [reflexivity|]. constructor; [reflexivity|exact Hpre].
Qed.

End RelayFacts.

(** ** Message sequences *)

Lemma msgTypeIs_traceMsg t frame :
  msgTypeIs t (traceMsg frame) = String.eqb "TRACE" t.
Proof. reflexivity. Qed.

Lemma msgTypeIs_explainMsg t e :
  msgTypeIs t (explainMsg e) = String.eqb "EXPLANATION" t.
Proof. reflexivity. Qed.

Lemma countType_interleaved t frames :
  forall explanations,
    length explanations = length frames ->
    countType t (interleaved frames explanations) =
    ((if String.eqb "TRACE" t then length frames else 0) +
     (if String.eqb "EXPLANATION" t then length frames else 0))%nat.
Proof.
  induction frames as [|frame rest IH]; intros [|e expls] Hlen;
    try discriminate Hlen.
  - destruct (String.eqb "TRACE" t), (String.eqb "EXPLANATION" t); reflexivity.
  - injection Hlen as Hlen. specialize (IH _ Hlen).
    unfold countType in *. cbn [interleaved List.filter].
    rewrite msgTypeIs_traceMsg, msgTypeIs_explainMsg.
    destruct (String.eqb "TRACE" t), (String.eqb "EXPLANATION" t);
      cbn [length]; rewrite IH; lia.
Qed.

(** Where the messages of an attachment sit: TRACE of frame i at position
    2i, its EXPLANATION at 2i+1. *)
Lemma interleaved_length frames :
  forall explanations,
    length explanations = length frames ->
    length (interleaved frames explanations) = (2 * length frames)%nat.
Proof.
  induction frames as [|frame rest IH]; intros [|e expls] Hlen;
    try discriminate Hlen; [reflexivity|].
  injection Hlen as Hlen. cbn [interleaved length]. rewrite (IH _ Hlen). lia.
Qed.

Lemma interleaved_lookup frames :
  forall explanations (i : nat) frame tl,
    length explanations = length frames ->
    frames !! i = Some frame ->
    (interleaved frames explanations ++ tl) !! (2 * i)%nat =
      Some (traceMsg frame) /\
    exists x, (interleaved frames explanations ++ tl) !! (2 * i + 1)%nat =
              Some (explainMsg x).
Proof.
  induction frames as [|f rest IH]; intros [|e expls] i frame tl Hlen Hi;
    try discriminate Hlen; try discriminate Hi.
  injection Hlen as Hlen. destruct i as [|i].
  - injection Hi as <-. split; [reflexivity|]. exists e. reflexivity.
  - replace (2 * S i)%nat with (S (S (2 * i))) by lia.
    replace (S (S (2 * i)) + 1)%nat with (S (S (2 * i + 1))) by lia.
    exact (IH expls i frame tl Hlen Hi).
Qed.

Lemma interleaved_lookup_inv frames :
  forall explanations (k : nat) m,
    length explanations = length frames ->
    interleaved frames explanations !! k = Some m ->
    (exists (i : nat) frame,
        k = (2 * i)%nat /\ frames !! i = Some frame /\ m = traceMsg frame) \/
    (exists (i : nat) x,
        k = (2 * i + 1)%nat /\ (i < length frames)%nat /\ m = explainMsg x).
Proof.
  induction frames as [|f rest IH]; intros [|e expls] k m Hlen Hk;
    try discriminate Hlen; try discriminate Hk.
  injection Hlen as Hlen. destruct k as [|[|k]].
  - injection Hk as <-. left. exists 0%nat, f. repeat split.
  - injection Hk as <-. right. exists 0%nat, e. cbn [length].
    split; [reflexivity|]. split; [lia|reflexivity].
  - destruct (IH expls k m Hlen Hk) as [(i & frame & -> & Hi & ->)|
                                       (i & x & -> & Hi & ->)].
    + left. exists (S i), frame. split; [lia|]. split; [exact Hi|reflexivity].
    + right. exists (S i), x. cbn [length].
      split; [lia|]. split; [lia|reflexivity].
Qed.

(** The same, with the envelopes written out: what a viewer that received
    everything holds at each position. *)
Lemma drained_positions frames explanations (msgs : list GoMap) :
  length explanations = length frames ->
  msgs = interleaved frames explanations ++ [endMsg] ->
  length msgs = (2 * length frames + 1)%nat /\
  (forall (i : nat) (frame : option GoMap),
      frames !! i = Some frame ->
      msgs !! (2 * i)%nat =
        Some {[ "type" := VString "TRACE"; "data" := ofMap frame ]} /\
      exists m, msgs !! (2 * i + 1)%nat = Some m /\
                m !! "type" = Some (VString "EXPLANATION") /\
                is_Some (m !! "data")) /\
  msgs !! (2 * length frames)%nat =
    Some {[ "type" := VString "END";
            "data" := VMap {[ "message" := VString "Visualization complete" ]} ]}.
Proof.
  intros Hlen ->. split; [|split].
  - rewrite length_app, (interleaved_length _ _ Hlen). reflexivity.
  - intros i frame Hi.
    destruct (interleaved_lookup frames explanations i frame [endMsg] Hlen Hi)
      as [Ht [x Hx]].
    split; [exact Ht|]. exists (explainMsg x).
    split; [exact Hx|]. split; [reflexivity|]. eexists. reflexivity.
  - rewrite <- (interleaved_length _ _ Hlen).
    apply list_lookup_middle. reflexivity.
Qed.

Lemma prefix_positions frames explanations (msgs : list GoMap) :
  length explanations = length frames ->
  msgs `prefix_of` interleaved frames explanations ++ [endMsg] ->
  (length msgs <= 2 * length frames + 1)%nat /\
  forall (k : nat) (m : GoMap),
    msgs !! k = Some m ->
    (exists (i : nat) (frame : option GoMap),
        k = (2 * i)%nat /\ frames !! i = Some frame /\
        m = {[ "type" := VString "TRACE"; "data" := ofMap frame ]}) \/
    (exists i : nat,
        k = (2 * i + 1)%nat /\ (i < length frames)%nat /\
        m !! "type" = Some (VString "EXPLANATION") /\ is_Some (m !! "data")) \/
    (k = (2 * length frames)%nat /\
     m = {[ "type" := VString "END";
            "data" := VMap {[ "message" := VString "Visualization complete" ]} ]}).
Proof.
  intros Hlen Hpre. split.
  - apply prefix_length in Hpre.
    rewrite length_app, (interleaved_length _ _ Hlen) in Hpre. exact Hpre.
  - intros k m Hk.
    pose proof (prefix_lookup_Some _ _ _ _ Hk Hpre) as Hfull.
    apply lookup_app_Some in Hfull as [Hin|[Hge Hend]].
    + destruct (interleaved_lookup_inv _ _ _ _ Hlen Hin)
        as [(i & frame & -> & Hi & ->)|(i & x & -> & Hi & ->)].
      * left. exists i, frame. repeat split. exact Hi.
      * right. left. exists i. split; [reflexivity|]. split; [exact Hi|].
        split; [reflexivity|]. eexists. reflexivity.
    + right. right. rewrite (interleaved_length _ _ Hlen) in Hge, Hend.
      destruct (k - 2 * length frames)%nat as [|j] eqn:Hj;
        [|destruct j; discriminate Hend].
      injection Hend as <-. split; [lia|reflexivity].
Qed.

Lemma all_sent_attempted evs : all_sent evs -> attempted evs = sent evs.
Proof.
  induction 1 as [|e evs He _ IH]; [reflexivity|].
  destruct e as [m [err|]| | | | |]; try discriminate He.
  - change (m :: attempted evs = m :: sent evs). rewrite IH. reflexivity.
  - exact IH.
  - exact IH.
  - exact IH.
  - exact IH.
  - exact IH.
Qed.

Lemma all_sent_check evs :
  forallb (fun e => negb (write_failed e)) evs = true -> all_sent evs.
Proof.
  intros H. apply Forall_forall. intros e He.
  rewrite forallb_forall in H. apply list_elem_of_In in He.
  specialize (H e He). destruct (write_failed e); [discriminate H|reflexivity].
Qed.

Lemma trail_ext {A} (m m' : M A) w : m w = m' w -> trail m w = trail m' w.
Proof. intros H. unfold trail, exec. rewrite H. reflexivity. Qed.

Lemma eval_ext {A} (m m' : M A) w : m w = m' w -> eval m w = eval m' w.
Proof. intros H. unfold eval. rewrite H. reflexivity. Qed.

(** ** Running the model *)

(** Two frames at speed 2: two TRACE/EXPLANATION pairs half a second apart,
    then END. *)
Example relay_two_frames :
  let t := trail (streamRun (demoEnv pythonUp viewerOpen) "r1" 2%float)
             (demoWorld "ab") in
  sent t = [traceMsg (demoFrame "a"); explainMsg (Some demoExplanation);
            traceMsg (demoFrame "b"); explainMsg (Some demoExplanation); endMsg] /\
  sleeps t = [500000000; 500000000]%Z /\
  length (posted t) = 2%nat.
Proof. vm_compute. repeat split. Qed.

(** The Python backend is down: every explanation is the fallback. *)
Example relay_python_down :
  sent (trail (streamRun (demoEnv pythonDown viewerOpen) "r1" 1%float)
          (demoWorld "ab")) =
  [traceMsg (demoFrame "a"); explainMsg (Some fallbackExplanation);
   traceMsg (demoFrame "b"); explainMsg (Some fallbackExplanation); endMsg].
Proof. vm_compute. reflexivity. Qed.

(** The viewer leaves after the first TRACE: one post, no END. *)
Example relay_viewer_gone :
  let E := demoEnv pythonUp (viewerGoneAt 1) in
  let t := trail (streamRun E "r1" 1%float) (demoWorld "ab") in
  sent t = [traceMsg (demoFrame "a")] /\
  attempted t = [traceMsg (demoFrame "a"); explainMsg (Some demoExplanation)] /\
  length (posted t) = 1%nat /\
  eval (streamRun E "r1" 1%float) (demoWorld "ab") =
    Some "failed to send explanation: broken pipe".
Proof. vm_compute. repeat split. Qed.

(** The collaborator answers 200 with the body null: the decoded map is
    nil, and the EXPLANATION goes out with data null. *)
Example relay_null_body :
  sent (trail (streamRun (demoEnv (fun _ _ _ => Resp 200 "null") viewerOpen)
                 "r1" 1%float) (demoWorld "a")) =
  [ {[ "type" := VString "TRACE"; "data" := ofMap (demoFrame "a") ]};
    {[ "type" := VString "EXPLANATION"; "data" := VNil ]};
    {[ "type" := VString "END";
       "data" := VMap {[ "message" := VString "Visualization complete" ]} ]} ].
Proof. vm_compute. reflexivity. Qed.

(** The generator returned a trace whose only frame is null: the TRACE goes
    out with data null, and the explanation request carries frame null. *)
Example relay_null_frame :
  let t := trail (streamRun (demoEnv pythonUp viewerOpen) "r1" 1%float)
             (demoWorld "_") in
  sent t =
  [ {[ "type" := VString "TRACE"; "data" := VNil ]};
    {[ "type" := VString "EXPLANATION"; "data" := VMap demoExplanation ]};
    {[ "type" := VString "END";
       "data" := VMap {[ "message" := VString "Visualization complete" ]} ]} ] /\
  posted t =
  [ (pythonBaseURL +:+ "/explain-step",
     {[ "frame" := VNil;
        "userBehavior" := VMap {[ "pauseDuration" := VFloat 0%float;
                                  "replayCount" := VInt 0;
                                  "speedMultiplier" := VFloat 1%float ]} ]}) ].
Proof. vm_compute. repeat split. Qed.

(** The encoder stops at the first float it cannot write, by sorted keys:
    pauseDuration comes before speedMultiplier. *)
Example marshal_error_text :
  json_Marshal
    {[ "frame" := ofMap (demoFrame "a");
       "userBehavior" := VMap {[ "pauseDuration" := VFloat nan;
                                 "replayCount" := VInt 0;
                                 "speedMultiplier" := VFloat infinity ]} ]} =
    inl "json: unsupported value: NaN" /\
  json_Marshal
    {[ "frame" := ofMap (demoFrame "a");
       "userBehavior" := VMap {[ "pauseDuration" := VFloat 0%float;
                                 "replayCount" := VInt 0;
                                 "speedMultiplier" := VFloat neg_infinity ]} ]} =
    inl "json: unsupported value: -Inf" /\
  trail (streamRun (demoEnv pythonUp viewerOpen) "r1" infinity)
    (demoWorld "a") =
  [EvWrite (traceMsg (demoFrame "a")) None;
   EvPrintf ("Error getting explanation: json: unsupported value: +Inf"
             +:+ newline);
   EvWrite (explainMsg (Some fallbackExplanation)) None;
   EvSleep 0;
   EvWrite endMsg None].
Proof. vm_compute. repeat split. Qed.

(** A successful create-run request stores the run under the id it
    returns, with the trace the generator gave and no signal. *)
Example create_run_stores :
  let E := demoEnv (fun _ _ _ => Resp 200 "abcdefghi") viewerOpen in
  let m := handleRunCreate E freshResponse (createRequest "52819") in
  StatusCode (eval m emptyWorld) = Some 200%Z /\
  Written (eval m emptyWorld) = [Json {[ "runId" := VString "run-1" ]}] /\
  (Trace <$> runs (exec m emptyWorld) !! "run-1") =
    Some (demoFrame <$> list_ascii_of_string "abcdefghi") /\
  (BehaviorSignals <$> runs (exec m emptyWorld) !! "run-1") = Some ∅.
Proof. vm_compute. repeat split. Qed.

(** ** Properties of the relay *)

(** C1. A stored run with N frames, streamed with no write on the viewer
    connection failing, gives TRACE(0), EXPLANATION(0), TRACE(1),
    EXPLANATION(1), ... then one END carrying "Visualization complete": N
    messages of type TRACE, N of type EXPLANATION, one of type END, 2N+1
    messages in all, and the relay returns no error. The frames are
    delivered in index order, none skipped or reordered: message 2i is
    exactly the envelope with type TRACE whose data is frame i of the
    trace, message 2i+1 has type EXPLANATION and a data field, and message
    2N is the END envelope. It holds for every N, so for every N >= 1. *)
Theorem stream_drained_sequence (E : Env) (w : World) (runID : string)
    (speed : float) (run : RunState) :
  runs w !! runID = Some run ->
  all_sent (trail (streamRun E runID speed) w) ->
  let msgs := sent (trail (streamRun E runID speed) w) in
  let N := length (Trace run) in
  eval (streamRun E runID speed) w = None /\
  attempted (trail (streamRun E runID speed) w) = msgs /\
  (exists explanations,
      length explanations = N /\
      msgs = interleaved (Trace run) explanations ++ [endMsg]) /\
  countType "TRACE" msgs = N /\
  countType "EXPLANATION" msgs = N /\
  countType "END" msgs = 1%nat /\
  endMsg !! "data" =
    Some (VMap {[ "message" := VString "Visualization complete" ]}) /\
  length msgs = (2 * N + 1)%nat /\
  (forall (i : nat) (frame : option GoMap),
      Trace run !! i = Some frame ->
      msgs !! (2 * i)%nat =
        Some {[ "type" := VString "TRACE"; "data" := ofMap frame ]} /\
      exists m, msgs !! (2 * i + 1)%nat = Some m /\
                m !! "type" = Some (VString "EXPLANATION") /\
                is_Some (m !! "data")) /\
  msgs !! (2 * N)%nat =
    Some {[ "type" := VString "END";
            "data" := VMap {[ "message" := VString "Visualization complete" ]} ]}.
Proof.
  intros Hrun Hall. cbv zeta.
  pose proof (streamRun_found E runID speed w run Hrun) as Heq.
  rewrite (trail_ext _ _ _ Heq) in Hall |- *.
  rewrite (eval_ext _ _ _ Heq).
  rewrite trail_relayFrom in Hall |- *. rewrite eval_relayFrom.
  apply Forall_app in Hall as [Hloop Hend].
  destruct (streamFrames_drained E runID speed _ _ _ _ Hloop)
    as [Hev [expls [Hlen Hsent]]].
  rewrite Hev in Hend |- *.
  apply Forall_cons in Hend as [Hend _].
  destruct (eval (WriteJSON E endMsg) _) as [e|]; [discriminate Hend|].
  assert (Hmsgs : sent (trail (streamFrames E runID speed (frameDelayOf E speed)
                                 0 (Trace run)) w ++ [EvWrite endMsg None]) =
                  interleaved (Trace run) expls ++ [endMsg]).
  { rewrite sent_app, Hsent. reflexivity. }
  split; [reflexivity|]. split.
  { apply all_sent_attempted. apply Forall_app. split; [exact Hloop|].
    repeat constructor. }
  rewrite Hmsgs. split; [exists expls; split; [exact Hlen|reflexivity]|].
  destruct (drained_positions (Trace run) expls _ Hlen eq_refl)
    as (Hn & Hpos & Hlast).
  rewrite !countType_app, !countType_interleaved by exact Hlen.
  change (countType "TRACE" [endMsg]) with 0%nat.
  change (countType "EXPLANATION" [endMsg]) with 0%nat.
  change (countType "END" [endMsg]) with 1%nat.
  repeat match goal with
         | |- context [String.eqb ?a ?b] =>
             let v := eval vm_compute in (String.eqb a b) in
             change (String.eqb a b) with v
         end.
  cbv iota.
  split; [lia|]. split; [lia|]. split; [lia|]. split; [reflexivity|].
  split; [exact Hn|]. split; [exact Hpos|exact Hlast].
Qed.

Lemma stream_drained_sequence_witness :
  let E := demoEnv pythonUp viewerOpen in
  let msgs := sent (trail (streamRun E "r1" 1%float) (demoWorld "abc")) in
  eval (streamRun E "r1" 1%float) (demoWorld "abc") = None /\
  attempted (trail (streamRun E "r1" 1%float) (demoWorld "abc")) = msgs /\
  (exists explanations,
      length explanations = 3%nat /\
      msgs = interleaved (Trace (demoRun "abc")) explanations ++ [endMsg]) /\
  countType "TRACE" msgs = 3%nat /\
  countType "EXPLANATION" msgs = 3%nat /\
  countType "END" msgs = 1%nat /\
  endMsg !! "data" =
    Some (VMap {[ "message" := VString "Visualization complete" ]}) /\
  length msgs = 7%nat /\
  (forall (i : nat) (frame : option GoMap),
      Trace (demoRun "abc") !! i = Some frame ->
      msgs !! (2 * i)%nat =
        Some {[ "type" := VString "TRACE"; "data" := ofMap frame ]} /\
      exists m, msgs !! (2 * i + 1)%nat = Some m /\
                m !! "type" = Some (VString "EXPLANATION") /\
                is_Some (m !! "data")) /\
  msgs !! 6%nat =
    Some {[ "type" := VString "END";
            "data" := VMap {[ "message" := VString "Visualization complete" ]} ]}.
Proof.
  apply (stream_drained_sequence (demoEnv pythonUp viewerOpen)
           (demoWorld "abc") "r1" 1%float (demoRun "abc")).
  - reflexivity.
  - apply all_sent_check. vm_compute. reflexivity.
Defined.



Lemma first_failure_last (l pre post : list Event) (x y : Event) :
  all_sent l -> write_failed y = true ->
  l ++ [x] = pre ++ y :: post ->
  post = [] /\ pre = l /\ x = y.
Proof.
  intros Hl Hy. revert pre.
  induction Hl as [|a l Ha _ IH]; intros [|b pre] Heq; cbn in Heq.
  - injection Heq as -> <-. auto.
  - injection Heq as _ Heq. destruct pre; discriminate Heq.
  - injection Heq as <- _. congruence.
  - injection Heq as <- Heq. destruct (IH _ Heq) as (-> & -> & ->). auto.
Qed.

(** C6. If a write to the viewer connection fails during an attachment, the
    relay does nothing after it: the failed write is the last event of the
    relay (no later TRACE, EXPLANATION or END, no later post to the
    explanation collaborator), every write before it was accepted, and the
    relay returns an error. *)
Theorem send_failure_stops_relay (E : Env) (w : World) (runID : string)
    (speed : float) (pre post : list Event) (m : GoMap) (e : string) :
  trail (streamRun E runID speed) w = pre ++ EvWrite m (Some e) :: post ->
  post = [] /\
  all_sent pre /\
  is_Some (eval (streamRun E runID speed) w).
Proof.
  intros Ht.
  destruct (runs w !! runID) as [run|] eqn:Hrun.
  - pose proof (streamRun_found E runID speed w run Hrun) as Heq.
    rewrite (trail_ext _ _ _ Heq) in Ht. rewrite (eval_ext _ _ _ Heq).
    rewrite trail_relayFrom in Ht. rewrite eval_relayFrom.
    destruct (streamFrames_stops E runID speed (frameDelayOf E speed)
                (Trace run) 0 w)
      as [[Hev Hall]|[pre' [m' [e' [Hloop [Hpre Hsome]]]]]].
    + rewrite Hev in Ht |- *.
      destruct (first_failure_last _ pre post _ (EvWrite m (Some e)) Hall
                  eq_refl Ht) as (-> & -> & Hx).
      injection Hx as _ ->. split; [reflexivity|]. split; [exact Hall|].
      eexists; reflexivity.
    + destruct Hsome as [err Herr]. rewrite Herr in Ht |- *.
      rewrite Hloop, app_nil_r in Ht.
      destruct (first_failure_last _ pre post _ (EvWrite m (Some e)) Hpre
                  eq_refl Ht) as (-> & -> & _).
      split; [reflexivity|]. split; [exact Hpre|]. eexists; reflexivity.
  - pose proof (streamRun_missing E runID speed w Hrun) as Heq.
    assert (Hnil : trail (streamRun E runID speed) w = []).
    { apply trail_unique. unfold exec. rewrite Heq. cbn. symmetry.
      apply app_nil_r. }
    rewrite Hnil in Ht. destruct pre; discriminate Ht.
Qed.

Lemma send_failure_stops_relay_witness :
  let E := demoEnv pythonUp (viewerGoneAt 2) in
  let t := trail (streamRun E "r1" 1%float) (demoWorld "abc") in
  t = take 4 t ++ [EvWrite (traceMsg (demoFrame "b")) (Some "broken pipe")] /\
  @nil Event = [] /\
  all_sent (take 4 t) /\
  is_Some (eval (streamRun E "r1" 1%float) (demoWorld "abc")).
Proof.
  split; [vm_compute; reflexivity|].
  apply (send_failure_stops_relay (demoEnv pythonUp (viewerGoneAt 2))
           (demoWorld "abc") "r1" 1%float _ [] (traceMsg (demoFrame "b"))
           "broken pipe").
  vm_compute. reflexivity.
Defined.

(** C9. Attaching to a run id that is not in the run table: the relay
    returns the error "run not found: <id>" having written nothing and
    posted nothing. The handler then logs the error, tries one message and
    closes; that message is the envelope with type ERROR whose data is
    {message: "run not found: <id>"}. So nothing is posted to the
    explanation collaborator, and the only message handed to the connection,
    if any, is that one ERROR: no TRACE, EXPLANATION or END. *)
Theorem unknown_run_only_error (E : Env) (w : World) (runID : string)
    (speed : float) :
  runs w !! runID = None ->
  streamRun E runID speed w = (Some ("run not found: " +:+ runID), w) /\
  trail (streamRun E runID speed) w = [] /\
  forall (rw : ResponseWriter) (r : Request),
    Query_Get r "runId" = runID ->
    let t := trail (handleWebSocket E rw r) w in
    let message := "run not found: " +:+ runID in
    let ERROR : GoMap :=
      {[ "type" := VString "ERROR";
         "data" := VMap {[ "message" := VString message ]} ]} in
    posted t = [] /\
    (attempted t = [] \/ attempted t = [ERROR]) /\
    (runID <> "" -> ws_Upgrade E (events w) rw r = inr tt ->
     exists res, t = [EvLog ("Error streaming run: " +:+ message);
                      EvWrite ERROR res; EvClose]).
Proof.
  intros Hrun.
  pose proof (streamRun_missing E runID speed w Hrun) as Heq.
  split; [exact Heq|]. split.
  { apply trail_unique. unfold exec. rewrite Heq. cbn. symmetry.
    apply app_nil_r. }
  intros rw r Hq. cbv zeta.
  unfold handleWebSocket. rewrite Hq.
  destruct (decide (runID = "")) as [Hempty|Hne].
  { rewrite trail_ret. split; [reflexivity|]. split; [left; reflexivity|].
    intros Hc. contradiction. }
  destruct (ws_Upgrade E (events w) rw r) as [[err rw']|[]] eqn:Hup.
  - match goal with
    | |- context [trail ?m w] =>
        assert (Ht : events (exec m w) =
                     events w ++ [EvLog ("WebSocket upgrade failed: " +:+ err)])
    end.
    { unfold exec. rewrite Hup. reflexivity. }
    apply trail_unique in Ht.
    rewrite Ht. split; [reflexivity|]. split; [left; reflexivity|].
    intros _ Hc. discriminate Hc.
  - pose proof (streamRun_missing E runID (speedOf E r) w Hrun) as Heq'.
    match goal with
    | |- context [trail ?m w] =>
        assert (Ht : events (exec m w) =
                     events w ++
                     [EvLog ("Error streaming run: " +:+ ("run not found: " +:+ runID));
                      EvWrite (errorMsg ("run not found: " +:+ runID))
                        (conn_WriteJSON E
                           (events w ++
                            [EvLog ("Error streaming run: " +:+
                                    ("run not found: " +:+ runID))])
                           (errorMsg ("run not found: " +:+ runID)));
                      EvClose])
    end.
    { unfold exec. rewrite Hup. unfold bind at 1. rewrite Heq'.
      cbn. rewrite <- !app_assoc. reflexivity. }
    apply trail_unique in Ht. rewrite Ht.
    split; [reflexivity|]. split; [right; reflexivity|].
    intros _ _. eexists. reflexivity.
Qed.

Lemma unknown_run_only_error_witness :
  let E := demoEnv pythonUp viewerOpen in
  let message := "run not found: nope" in
  streamRun E "nope" 1%float (demoWorld "abc") =
    (Some message, demoWorld "abc") /\
  trail (streamRun E "nope" 1%float) (demoWorld "abc") = [] /\
  posted (trail (handleWebSocket E freshResponse (attachRequest "nope" "1"))
            (demoWorld "abc")) = [] /\
  exists res,
    trail (handleWebSocket E freshResponse (attachRequest "nope" "1"))
      (demoWorld "abc") =
    [EvLog ("Error streaming run: " +:+ message);
     EvWrite {[ "type" := VString "ERROR";
                "data" := VMap {[ "message" := VString message ]} ]} res;
     EvClose].
Proof.
  destruct (unknown_run_only_error (demoEnv pythonUp viewerOpen)
              (demoWorld "abc") "nope" 1%float eq_refl) as (H1 & H2 & H3).
  destruct (H3 freshResponse (attachRequest "nope" "1") eq_refl)
    as (Hp & _ & Ht).
  split; [exact H1|]. split; [exact H2|]. split; [exact Hp|].
  apply Ht; [discriminate|reflexivity].
Defined.

(** ** Run creation *)

(** The encoder accepts a map exactly when it accepts every value in it. *)
Lemma firstUnsupported_VMap (m : GoMap) :
  firstUnsupported (VMap m) = None <->
  forall k v, m !! k = Some v -> firstUnsupported v = None.
Proof.
  cbn [firstUnsupported]. rewrite fmap_None.
  apply (map_fold_weak_ind
           (fun (acc : option (string * string)) (m : GoMap) =>
              acc = None <->
              forall k v, m !! k = Some v -> firstUnsupported v = None)).
  - split; [|reflexivity]. intros _ k v H. rewrite lookup_empty in H.
    discriminate H.
  - intros i x m0 r Hi IH.
    destruct (firstUnsupported x) as [text|] eqn:Hx.
    + split.
      * intros H. destruct r as [[k' s']|]; [|discriminate H].
        destruct (String.ltb i k'); [discriminate H|].
        discriminate H.
      * intros H. specialize (H i x (lookup_insert_eq _ _ _)). congruence.
    + rewrite IH. split.
      * intros H k v Hk. destruct (decide (i = k)) as [->|Hne].
        -- rewrite lookup_insert_eq in Hk. injection Hk as <-. exact Hx.
        -- rewrite lookup_insert_ne in Hk by exact Hne. exact (H k v Hk).
      * intros H k v Hk. apply (H k v).
        rewrite lookup_insert_ne; [exact Hk|]. intros ->. congruence.
Qed.

Lemma firstUnsupported_ints (array : list Z) :
  firstUnsupported (VList (VInt <$> array)) = None.
Proof. induction array as [|z array IH]; [reflexivity|exact IH]. Qed.

Lemma json_Marshal_execute (algorithmID : string) (array : list Z) :
  json_Marshal {[ "algorithmId" := VString algorithmID;
                  "array" := VList (VInt <$> array) ]} =
  inr {[ "algorithmId" := VString algorithmID;
         "array" := VList (VInt <$> array) ]}.
Proof.
  unfold json_Marshal.
  assert (H : firstUnsupported
                (VMap {[ "algorithmId" := VString algorithmID;
                         "array" := VList (VInt <$> array) ]}) = None).
  { apply firstUnsupported_VMap. intros k v Hk.
    apply lookup_insert_Some in Hk as [[_ <-]|[_ Hk]]; [reflexivity|].
    apply lookup_singleton_Some in Hk as [_ <-].
    apply firstUnsupported_ints. }
  rewrite H. reflexivity.
Qed.

(** C7. A create-run request (POST) whose array is empty is answered with
    status 400 and the text "Array cannot be empty"; the handler leaves the
    world as it was: nothing is posted to the trace generator and the run
    table is unchanged. *)
Theorem empty_array_rejected (E : Env) (w : World) (rw : ResponseWriter)
    (r : Request) (algorithmID : string) :
  Method r = "POST" ->
  decode_request E (Body r) = inr (algorithmID, []) ->
  StatusCode rw = None ->
  let resp := eval (handleRunCreate E rw r) w in
  StatusCode resp = Some 400%Z /\
  Written resp = Written rw ++ [Text ("Array cannot be empty" +:+ newline)] /\
  exec (handleRunCreate E rw r) w = w /\
  posted (trail (handleRunCreate E rw r) w) = [] /\
  runs (exec (handleRunCreate E rw r) w) = runs w.
Proof.
  intros Hm Hd Hs. cbv zeta.
  assert (Heq : handleRunCreate E rw r w =
                (http_Error (enableCORS rw) "Array cannot be empty"
                   http_StatusBadRequest, w)).
  { unfold handleRunCreate. rewrite Hm, Hd. reflexivity. }
  assert (Hex : exec (handleRunCreate E rw r) w = w).
  { unfold exec. rewrite Heq. reflexivity. }
  unfold eval. rewrite Heq. cbn [fst].
  split; [cbn; rewrite Hs; reflexivity|].
  split; [reflexivity|]. split; [exact Hex|]. split; [|rewrite Hex; reflexivity].
  unfold trail. rewrite Hex, drop_all. reflexivity.
Qed.

Lemma empty_array_rejected_witness :
  let E := demoEnv pythonUp viewerOpen in
  let resp := eval (handleRunCreate E freshResponse (createRequest "[]"))
                (demoWorld "abc") in
  StatusCode resp = Some 400%Z /\
  Written resp = [Text ("Array cannot be empty" +:+ newline)] /\
  exec (handleRunCreate E freshResponse (createRequest "[]")) (demoWorld "abc")
    = demoWorld "abc" /\
  posted (trail (handleRunCreate E freshResponse (createRequest "[]"))
            (demoWorld "abc")) = [] /\
  runs (exec (handleRunCreate E freshResponse (createRequest "[]"))
          (demoWorld "abc")) = runs (demoWorld "abc").
Proof.
  apply (empty_array_rejected (demoEnv pythonUp viewerOpen) (demoWorld "abc")
           freshResponse (createRequest "[]") "bubble_sort"); reflexivity.
Defined.

(** C8. A create-run request (POST, non-empty array) for which the trace
    generator cannot be reached, or answers with a status other than 200 (so
    with any non-success status): the handler answers with status 500 and
    the text "Failed to create run: " followed by the upstream detail (the
    transport error, or the body the collaborator returned), and the run
    table is exactly as before; the only thing done is the one post. *)
Theorem trace_failure_no_run (E : Env) (w : World) (rw : ResponseWriter)
    (r : Request) (algorithmID : string) (array : list Z) (detail : string) :
  Method r = "POST" ->
  decode_request E (Body r) = inr (algorithmID, array) ->
  array <> [] ->
  StatusCode rw = None ->
  let url := pythonBaseURL +:+ "/execute" in
  let req : GoMap := {[ "algorithmId" := VString algorithmID;
                        "array" := VList (VInt <$> array) ]} in
  let out := http_Post E (events w) url req in
  (exists e, out = NetErr e /\
             detail = "failed to call Python backend: " +:+ e) \/
  (exists status body, out = Resp status body /\ status <> 200%Z /\
             detail = "Python backend returned error: " +:+ body) ->
  let resp := eval (handleRunCreate E rw r) w in
  eval (createRun E algorithmID array) w = inl detail /\
  StatusCode resp = Some 500%Z /\
  Written resp =
    Written rw ++ [Text (("Failed to create run: " +:+ detail) +:+ newline)] /\
  runs (exec (handleRunCreate E rw r) w) = runs w /\
  trail (handleRunCreate E rw r) w = [EvPost url req out].
Proof.
  intros Hm Hd Hne Hs url req out Hout. cbv zeta.
  assert (Hcall : callPythonExecute E algorithmID array w =
                  (inl detail,
                   {| runs := runs w;
                      events := events w ++ [EvPost url req out] |})).
  { unfold callPythonExecute. cbv zeta. rewrite json_Marshal_execute.
    unfold bind, Post. fold url. fold req. fold out.
    destruct Hout as [(e & -> & ->)|(status & body & -> & Hst & ->)].
    - reflexivity.
    - apply Z.eqb_neq in Hst. unfold http_StatusOK. rewrite Hst. reflexivity. }
  assert (Hcreate : createRun E algorithmID array w =
                    (inl detail,
                     {| runs := runs w;
                        events := events w ++ [EvPost url req out] |})).
  { unfold createRun, bind. rewrite Hcall. reflexivity. }
  assert (Heq : handleRunCreate E rw r w =
                (http_Error (enableCORS rw) ("Failed to create run: " +:+ detail)
                   http_StatusInternalServerError,
                 {| runs := runs w;
                    events := events w ++ [EvPost url req out] |})).
  { unfold handleRunCreate. rewrite Hm, Hd.
    destruct array as [|z array]; [congruence|].
    cbn [decide_rel length Nat.eqb]. 
    destruct (decide ("POST" = "OPTIONS")) as [Hc|_]; [discriminate Hc|].
    destruct (decide ("POST" <> "POST")) as [Hc|_]; [congruence|].
    unfold bind. rewrite Hcreate. reflexivity. }
  split; [unfold eval; rewrite Hcreate; reflexivity|].
  unfold trail, eval, exec. rewrite Heq. cbn [fst snd runs events].
  split; [cbn; rewrite Hs; reflexivity|].
  split; [reflexivity|]. split; [reflexivity|].
  apply drop_app_length.
Qed.

Lemma trace_failure_no_run_witness :
  let E := demoEnv pythonErrors viewerOpen in
  let resp := eval (handleRunCreate E freshResponse (createRequest "52819"))
                (demoWorld "abc") in
  eval (createRun E "bubble_sort" [5; 2; 8; 1; 9]%Z) (demoWorld "abc") =
    inl "Python backend returned error: Unknown algorithm" /\
  StatusCode resp = Some 500%Z /\
  Written resp =
    [Text (("Failed to create run: " +:+
            "Python backend returned error: Unknown algorithm") +:+ newline)] /\
  runs (exec (handleRunCreate E freshResponse (createRequest "52819"))
          (demoWorld "abc")) = runs (demoWorld "abc") /\
  trail (handleRunCreate E freshResponse (createRequest "52819"))
    (demoWorld "abc") =
    [EvPost (pythonBaseURL +:+ "/execute")
       {[ "algorithmId" := VString "bubble_sort";
          "array" := VList (VInt <$> [5; 2; 8; 1; 9]%Z) ]}
       (Resp 500 "Unknown algorithm")].
Proof.
  apply (trace_failure_no_run (demoEnv pythonErrors viewerOpen)
           (demoWorld "abc") freshResponse (createRequest "52819")
           "bubble_sort" [5; 2; 8; 1; 9]%Z
           "Python backend returned error: Unknown algorithm").
  - reflexivity.
  - reflexivity.
  - discriminate.
  - reflexivity.
  - right. exists 500%Z, "Unknown algorithm".
    split; [reflexivity|]. split; [lia|reflexivity].
Defined.

(** ** Reaching frame k *)

Section Reaching.

Variables (E : Env) (runID : string) (speed : float) (delay : Z).

(** Once the loop has gone through [pre] without a failed write it is at
    index [i + length pre], in the world the prefix left. *)
Lemma streamFrames_app pre suf :
  forall i w,
    eval (streamFrames E runID speed delay i pre) w = None ->
    streamFrames E runID speed delay i (pre ++ suf) w =
    streamFrames E runID speed delay (i + Z.of_nat (length pre)) suf
      (exec (streamFrames E runID speed delay i pre) w).
Proof.
  induction pre as [|frame pre IH]; intros i w Hev.
  - cbn [app length]. rewrite Z.add_0_r. reflexivity.
  - rewrite eval_streamFrames_cons in Hev.
    cbn [app]. unfold exec. rewrite !streamFrames_step.
    destruct (traceResult E frame w); [discriminate Hev|].
    destruct (explainWriteResult E runID speed i frame w); [discriminate Hev|].
    rewrite (IH _ _ Hev). unfold exec.
    replace (i + 1 + Z.of_nat (length pre))%Z
      with (i + Z.of_nat (length (frame :: pre)))%Z by (cbn [length]; lia).
    reflexivity.
Qed.

Lemma trail_streamFrames_app pre suf i w :
  eval (streamFrames E runID speed delay i pre) w = None ->
  trail (streamFrames E runID speed delay i (pre ++ suf)) w =
  trail (streamFrames E runID speed delay i pre) w ++
  trail (streamFrames E runID speed delay (i + Z.of_nat (length pre)) suf)
    (exec (streamFrames E runID speed delay i pre) w).
Proof.
  intros Hev. apply trail_unique. unfold exec at 1.
  rewrite (streamFrames_app _ _ _ _ Hev).
  fold (exec (streamFrames E runID speed delay (i + Z.of_nat (length pre)) suf)
          (exec (streamFrames E runID speed delay i pre) w)).
  rewrite (trail_spec _ _ (appends_streamFrames E _ _ _ _ _)).
  rewrite (trail_spec _ _ (appends_streamFrames E _ _ _ _ _)).
  symmetry. apply app_assoc.
Qed.

Lemma relayFrom_app pre suf i w :
  eval (streamFrames E runID speed delay i pre) w = None ->
  relayFrom E runID speed delay i (pre ++ suf) w =
  relayFrom E runID speed delay (i + Z.of_nat (length pre)) suf
    (exec (streamFrames E runID speed delay i pre) w).
Proof.
  intros Hev. unfold relayFrom, bind.
  rewrite (streamFrames_app _ _ _ _ Hev). reflexivity.
Qed.

Lemma trail_relayFrom_app pre suf i w :
  eval (streamFrames E runID speed delay i pre) w = None ->
  trail (relayFrom E runID speed delay i (pre ++ suf)) w =
  trail (streamFrames E runID speed delay i pre) w ++
  trail (relayFrom E runID speed delay (i + Z.of_nat (length pre)) suf)
    (exec (streamFrames E runID speed delay i pre) w).
Proof.
  intros Hev. apply trail_unique. unfold exec at 1.
  rewrite (relayFrom_app _ _ _ _ Hev).
  fold (exec (relayFrom E runID speed delay (i + Z.of_nat (length pre)) suf)
          (exec (streamFrames E runID speed delay i pre) w)).
  rewrite (trail_spec _ _ (appends_relayFrom E _ _ _ _ _)).
  rewrite (trail_spec _ _ (appends_streamFrames E _ _ _ _ _)).
  symmetry. apply app_assoc.
Qed.

(** With both writes of an iteration accepted, the relay goes on from the
    next index over the remaining frames, whatever [callPythonExplain]
    returned. *)
Lemma relayFrom_next i frame rest w :
  traceResult E frame w = None ->
  explainWriteResult E runID speed i frame w = None ->
  relayFrom E runID speed delay i (frame :: rest) w =
  relayFrom E runID speed delay (i + 1) rest
    (afterFrame E runID speed delay i frame w).
Proof.
  intros Ht Hw. unfold relayFrom, bind.
  rewrite streamFrames_step, Ht, Hw. reflexivity.
Qed.

Lemma trail_relayFrom_cons i frame rest w :
  traceResult E frame w = None ->
  exists tl,
    trail (relayFrom E runID speed delay i (frame :: rest)) w =
    EvWrite (traceMsg frame) None ::
    explainTrail E runID speed i frame w ++
    EvWrite (explainMsg (explanationSent E runID speed i frame w))
      (explainWriteResult E runID speed i frame w) :: tl.
Proof.
  intros Ht. rewrite trail_relayFrom, trail_streamFrames_cons, Ht.
  destruct (explainWriteResult E runID speed i frame w) as [e|].
  - eexists. cbn [app]. rewrite <- app_assoc. cbn [app]. reflexivity.
  - eexists. cbn [app]. rewrite <- app_assoc. cbn [app]. reflexivity.
Qed.

End Reaching.

(** ** The explanation call and its summary *)

Lemma fallbackExplanation_fields :
  fallbackExplanation !! "mode" = Some (VString "conceptual") /\
  fallbackExplanation !! "confidence_estimate" = Some (VString "medium") /\
  fallbackExplanation !! "followup_question" = Some (VString "").
Proof. repeat split. Qed.

(** A failed call, in the relay's own terms: the fallback is what goes
    out, and the relay goes on from the next frame. *)
Lemma explain_failure_continues (E : Env) (w : World) (runID : string)
    (speed : float) (run : RunState)
    (pre : list (option GoMap)) (frame : option GoMap)
    (rest : list (option GoMap)) (err : string) :
  runs w !! runID = Some run ->
  Trace run = pre ++ frame :: rest ->
  let delay := frameDelayOf E speed in
  let k := Z.of_nat (length pre) in
  let wk := exec (streamFrames E runID speed delay 0 pre) w in
  eval (streamFrames E runID speed delay 0 pre) w = None ->
  traceResult E frame wk = None ->
  explainResult E runID speed k frame wk = inl err ->
  explanationSent E runID speed k frame wk = Some fallbackExplanation /\
  (exists tl,
      trail (streamRun E runID speed) w =
      trail (streamFrames E runID speed delay 0 pre) w ++
      EvWrite (traceMsg frame) None ::
      explainTrail E runID speed k frame wk ++
      EvWrite (explainMsg (Some fallbackExplanation))
        (explainWriteResult E runID speed k frame wk) :: tl) /\
  (explainWriteResult E runID speed k frame wk = None ->
   streamRun E runID speed w =
   relayFrom E runID speed delay (k + 1) rest
     (afterFrame E runID speed delay k frame wk) /\
   runs (afterFrame E runID speed delay k frame wk) = runs w /\
   sent (events (afterFrame E runID speed delay k frame wk)) =
   sent (events wk) ++
   [traceMsg frame; explainMsg (Some fallbackExplanation)]).
Proof.
  intros Hrun Htrace delay k wk Hpre Ht Hr.
  assert (Hx : explanationSent E runID speed k frame wk =
               Some fallbackExplanation).
  { unfold explanationSent. rewrite Hr. reflexivity. }
  pose proof (streamRun_found E runID speed w run Hrun) as Heq.
  fold delay in Heq. rewrite Htrace in Heq.
  split; [exact Hx|].
  split.
  - rewrite (trail_ext _ _ _ Heq).
    rewrite (trail_relayFrom_app E runID speed delay _ _ _ _ Hpre).
    fold wk. rewrite Z.add_0_l. fold k.
    destruct (trail_relayFrom_cons E runID speed delay k frame rest wk Ht)
      as [tl Htl].
    exists tl. rewrite Htl, Hx. reflexivity.
  - intros Hw. split; [|split].
    + rewrite Heq, (relayFrom_app E runID speed delay _ _ _ _ Hpre).
      fold wk. rewrite Z.add_0_l. fold k.
      apply relayFrom_next; assumption.
    + rewrite runs_afterFrame. subst wk.
      apply (appends_streamFrames E runID speed delay pre 0 w).
    + rewrite events_afterFrame, Ht, Hw, Hx.
      rewrite sent_app.
      change (sent (EvWrite ?m None :: ?l)) with (m :: sent l).
      rewrite sent_app.
      destruct (explainTrail_sent E runID speed k frame wk) as [-> _].
      reflexivity.
Qed.

(** C2. When [callPythonExplain] fails for frame k of an attachment (the
    relay has reached frame k and its TRACE was accepted), the relay does
    not stop there: the next message it hands the connection is the
    envelope with type EXPLANATION whose data is the fallback (mode
    "conceptual", the generic text and hint, confidence_estimate "medium",
    empty followup_question), and once that write is accepted it goes on
    from frame k+1 over the remaining frames, with the run table untouched:
    the same continuation as after a successful call. *)
Theorem explain_failure_falls_back (E : Env) (w : World) (runID : string)
    (speed : float) (run : RunState)
    (pre : list (option GoMap)) (frame : option GoMap)
    (rest : list (option GoMap)) (err : string) :
  runs w !! runID = Some run ->
  Trace run = pre ++ frame :: rest ->
  let delay := frameDelayOf E speed in
  let k := Z.of_nat (length pre) in
  let wk := exec (streamFrames E runID speed delay 0 pre) w in
  eval (streamFrames E runID speed delay 0 pre) w = None ->
  traceResult E frame wk = None ->
  explainResult E runID speed k frame wk = inl err ->
  let TRACE : GoMap :=
    {[ "type" := VString "TRACE"; "data" := ofMap frame ]} in
  let FALLBACK : GoMap :=
    {[ "type" := VString "EXPLANATION";
       "data" := VMap {[ "mode" := VString "conceptual";
                         "explanation" := VString "Processing this step...";
                         "short_hint" := VString "Watch the visualization";
                         "confidence_estimate" := VString "medium";
                         "followup_question" := VString "" ]} ]} in
  explanationSent E runID speed k frame wk = Some fallbackExplanation /\
  fallbackExplanation !! "mode" = Some (VString "conceptual") /\
  fallbackExplanation !! "confidence_estimate" = Some (VString "medium") /\
  fallbackExplanation !! "followup_question" = Some (VString "") /\
  FALLBACK !! "data" = Some (VMap fallbackExplanation) /\
  (exists tl,
      trail (streamRun E runID speed) w =
      trail (streamFrames E runID speed delay 0 pre) w ++
      EvWrite TRACE None ::
      explainTrail E runID speed k frame wk ++
      EvWrite FALLBACK (explainWriteResult E runID speed k frame wk) :: tl) /\
  (explainWriteResult E runID speed k frame wk = None ->
   streamRun E runID speed w =
   relayFrom E runID speed delay (k + 1) rest
     (afterFrame E runID speed delay k frame wk) /\
   runs (afterFrame E runID speed delay k frame wk) = runs w /\
   sent (events (afterFrame E runID speed delay k frame wk)) =
   sent (events wk) ++ [TRACE; FALLBACK]).
Proof.
  intros Hrun Htrace delay k wk Hpre Ht Hr TRACE FALLBACK.
  destruct (explain_failure_continues E w runID speed run pre frame rest err
              Hrun Htrace Hpre Ht Hr) as (Hx & Htl & Hgo).
  split; [exact Hx|].
  split; [reflexivity|]. split; [reflexivity|]. split; [reflexivity|].
  split; [reflexivity|].
  split; [exact Htl|exact Hgo].
Qed.

Lemma explain_failure_falls_back_witness :
  let E := demoEnv (pythonDownAt 1) viewerOpen in
  let w := demoWorld "abc" in
  let delay := frameDelayOf E 1%float in
  let wk := exec (streamFrames E "r1" 1%float delay 0 [demoFrame "a"]) w in
  let TRACE : GoMap :=
    {[ "type" := VString "TRACE"; "data" := ofMap (demoFrame "b") ]} in
  let FALLBACK : GoMap :=
    {[ "type" := VString "EXPLANATION";
       "data" := VMap {[ "mode" := VString "conceptual";
                         "explanation" := VString "Processing this step...";
                         "short_hint" := VString "Watch the visualization";
                         "confidence_estimate" := VString "medium";
                         "followup_question" := VString "" ]} ]} in
  explanationSent E "r1" 1%float 1 (demoFrame "b") wk =
    Some fallbackExplanation /\
  fallbackExplanation !! "mode" = Some (VString "conceptual") /\
  fallbackExplanation !! "confidence_estimate" = Some (VString "medium") /\
  fallbackExplanation !! "followup_question" = Some (VString "") /\
  FALLBACK !! "data" = Some (VMap fallbackExplanation) /\
  (exists tl,
      trail (streamRun E "r1" 1%float) w =
      trail (streamFrames E "r1" 1%float delay 0 [demoFrame "a"]) w ++
      EvWrite TRACE None ::
      explainTrail E "r1" 1%float 1 (demoFrame "b") wk ++
      EvWrite FALLBACK
        (explainWriteResult E "r1" 1%float 1 (demoFrame "b") wk) :: tl) /\
  (explainWriteResult E "r1" 1%float 1 (demoFrame "b") wk = None ->
   streamRun E "r1" 1%float w =
   relayFrom E "r1" 1%float delay (1 + 1) [demoFrame "c"]
     (afterFrame E "r1" 1%float delay 1 (demoFrame "b") wk) /\
   runs (afterFrame E "r1" 1%float delay 1 (demoFrame "b") wk) = runs w /\
   sent (events (afterFrame E "r1" 1%float delay 1 (demoFrame "b") wk)) =
   sent (events wk) ++ [TRACE; FALLBACK]).
Proof.
  apply (explain_failure_falls_back (demoEnv (pythonDownAt 1) viewerOpen)
           (demoWorld "abc") "r1" 1%float (demoRun "abc")
           [demoFrame "a"] (demoFrame "b") [demoFrame "c"]
           "failed to call Python backend: connection refused").
  - reflexivity.
  - reflexivity.
  - vm_compute. reflexivity.
  - vm_compute. reflexivity.
  - vm_compute. reflexivity.
Defined.

Lemma runs_afterTrace (E : Env) frame w : runs (afterTrace E frame w) = runs w.
Proof. reflexivity. Qed.

(** The summary, by cases on the run table. *)
Lemma summary_recorded (E : Env) runID speed i frame w run signal :
  runs w !! runID = Some run ->
  BehaviorSignals run !! i = Some signal ->
  summary E runID speed i frame w =
  {[ "pauseDuration" := VFloat (PauseDuration signal);
     "replayCount" := VInt (ReplayCount signal);
     "speedMultiplier" := VFloat speed;
     "hoverIndex" := VIntPtr (HoverIndex signal);
     "scrollDepth" := VIntPtr (ScrollDepth signal) ]}.
Proof.
  intros Hrun Hsig. unfold summary, eval, getBehaviorSignal.
  rewrite runs_afterTrace, Hrun, Hsig. reflexivity.
Qed.

Lemma summary_unrecorded (E : Env) runID speed i frame w run :
  runs w !! runID = Some run ->
  BehaviorSignals run !! i = None ->
  summary E runID speed i frame w =
  {[ "pauseDuration" := VFloat 0%float;
     "replayCount" := VInt 0;
     "speedMultiplier" := VFloat speed ]}.
Proof.
  intros Hrun Hsig. unfold summary, eval, getBehaviorSignal.
  rewrite runs_afterTrace, Hrun, Hsig. reflexivity.
Qed.

(** C5. A run with a signal recorded at step i, streamed with live
    multiplier m: when the relay reaches step i and its TRACE is accepted,
    the summary built for the explanation call has the recorded
    pauseDuration and replayCount and has speedMultiplier m, whatever
    multiplier the signal stored; and the request posted to the explanation
    collaborator for that step carries exactly this summary. *)
Theorem recorded_signal_in_summary (E : Env) (w : World) (runID : string)
    (m : float) (run : RunState)
    (pre : list (option GoMap)) (frame : option GoMap)
    (rest : list (option GoMap)) (signal : BehaviorSignal) :
  runs w !! runID = Some run ->
  Trace run = pre ++ frame :: rest ->
  let i := Z.of_nat (length pre) in
  BehaviorSignals run !! i = Some signal ->
  let delay := frameDelayOf E m in
  let wi := exec (streamFrames E runID m delay 0 pre) w in
  eval (streamFrames E runID m delay 0 pre) w = None ->
  traceResult E frame wi = None ->
  let s := summary E runID m i frame wi in
  let req : GoMap := {[ "frame" := ofMap frame; "userBehavior" := VMap s ]} in
  s !! "pauseDuration" = Some (VFloat (PauseDuration signal)) /\
  s !! "replayCount" = Some (VInt (ReplayCount signal)) /\
  s !! "speedMultiplier" = Some (VFloat m) /\
  (json_Marshal req = inr req ->
   exists out tl,
     trail (streamRun E runID m) w =
     trail (streamFrames E runID m delay 0 pre) w ++
     EvWrite (traceMsg frame) None ::
     EvPost (pythonBaseURL +:+ "/explain-step") req out :: tl).
Proof.
  intros Hrun Htrace i Hsig delay wi Hpre Ht s req.
  assert (Hruns : runs wi = runs w).
  { subst wi. apply (appends_streamFrames E runID m delay pre 0 w). }
  assert (Hrun' : runs wi !! runID = Some run) by (rewrite Hruns; exact Hrun).
  assert (Hs : s = {[ "pauseDuration" := VFloat (PauseDuration signal);
                      "replayCount" := VInt (ReplayCount signal);
                      "speedMultiplier" := VFloat m;
                      "hoverIndex" := VIntPtr (HoverIndex signal);
                      "scrollDepth" := VIntPtr (ScrollDepth signal) ]}).
  { subst s. apply (summary_recorded E runID m i frame wi run signal Hrun' Hsig). }
  split; [rewrite Hs; reflexivity|].
  split; [rewrite Hs; reflexivity|].
  split; [rewrite Hs; reflexivity|].
  intros Hm.
  pose proof (streamRun_found E runID m w run Hrun) as Heq.
  fold delay in Heq. rewrite Htrace in Heq.
  rewrite (trail_ext _ _ _ Heq).
  rewrite (trail_relayFrom_app E runID m delay _ _ _ _ Hpre).
  fold wi. rewrite Z.add_0_l. fold i.
  destruct (trail_relayFrom_cons E runID m delay i frame rest wi Ht)
    as [tl Htl].
  rewrite Htl. unfold explainTrail. rewrite trail_callPythonExplain.
  cbv zeta. fold s. fold req. rewrite Hm.
  eexists _, _. cbn [app]. reflexivity.
Qed.

Lemma recorded_signal_in_summary_witness :
  let E := demoEnv pythonUp viewerOpen in
  let run := withSignal (demoRun "abc") 1 pausedSignal in
  let w := setRun "r1" run emptyWorld in
  let delay := frameDelayOf E 2%float in
  let wi := exec (streamFrames E "r1" 2%float delay 0 [demoFrame "a"]) w in
  let s := summary E "r1" 2%float 1 (demoFrame "b") wi in
  let req : GoMap :=
    {[ "frame" := ofMap (demoFrame "b"); "userBehavior" := VMap s ]} in
  s !! "pauseDuration" = Some (VFloat 2.5%float) /\
  s !! "replayCount" = Some (VInt 3) /\
  s !! "speedMultiplier" = Some (VFloat 2%float) /\
  (json_Marshal req = inr req ->
   exists out tl,
     trail (streamRun E "r1" 2%float) w =
     trail (streamFrames E "r1" 2%float delay 0 [demoFrame "a"]) w ++
     EvWrite (traceMsg (demoFrame "b")) None ::
     EvPost (pythonBaseURL +:+ "/explain-step") req out :: tl).
Proof.
  apply (recorded_signal_in_summary (demoEnv pythonUp viewerOpen)
           (setRun "r1" (withSignal (demoRun "abc") 1 pausedSignal) emptyWorld)
           "r1" 2%float (withSignal (demoRun "abc") 1 pausedSignal)
           [demoFrame "a"] (demoFrame "b") [demoFrame "c"] pausedSignal).
  - reflexivity.
  - reflexivity.
  - reflexivity.
  - vm_compute. reflexivity.
  - vm_compute. reflexivity.
Defined.

(** C4, as the specification states it, does not hold: with the
    all-defaults signal recorded for step 0 the summary has five keys,
    [hoverIndex] and [scrollDepth] bound to nil pointers, where with nothing
    recorded it has three; the requests posted to the explanation
    collaborator differ. *)
Lemma default_signal_is_visible :
  let E := demoEnv pythonUp viewerOpen in
  let unrecorded := demoWorld "a" in
  let recorded :=
    setRun "r1" (withSignal (demoRun "a") 0 defaultSignal) (demoWorld "a") in
  let s0 := summary E "r1" 1%float 0 (demoFrame "a") unrecorded in
  let s1 := summary E "r1" 1%float 0 (demoFrame "a") recorded in
  s0 !! "hoverIndex" = None /\
  s1 !! "hoverIndex" = Some (VIntPtr None) /\
  size s0 = 3%nat /\
  size s1 = 5%nat /\
  s0 <> s1 /\
  posted (trail (streamRun E "r1" 1%float) unrecorded) <>
  posted (trail (streamRun E "r1" 1%float) recorded).
Proof.
  cbv zeta.
  split; [reflexivity|]. split; [reflexivity|].
  split; [vm_compute; reflexivity|]. split; [vm_compute; reflexivity|].
  split.
  - intros H. apply (f_equal (fun s : GoMap => s !! "hoverIndex")) in H.
    vm_compute in H. discriminate H.
  - intros H.
    apply (f_equal (fun l : list (string * GoMap) =>
                      match l with
                      | (_, req) :: _ =>
                          match req !! "userBehavior" with
                          | Some (VMap s) => s !! "hoverIndex"
                          | _ => None
                          end
                      | [] => None
                      end)) in H.
    vm_compute in H. discriminate H.
Qed.

(** C4, amended. The summary built for step i when the all-defaults signal
    is recorded is the summary built when nothing is recorded, with two more
    keys, [hoverIndex] and [scrollDepth], both bound to a nil pointer (JSON
    null); on every other key, so on pauseDuration, replayCount and
    speedMultiplier, the two summaries agree. *)
Theorem default_signal_summary (E : Env) (w : World) (runID : string)
    (speed : float) (i : Z) (frame : option GoMap) (run : RunState) :
  let unrecorded := setRun runID (withoutSignal run i) w in
  let recorded := setRun runID (withSignal run i defaultSignal) w in
  let s0 := summary E runID speed i frame unrecorded in
  let s1 := summary E runID speed i frame recorded in
  s0 = {[ "pauseDuration" := VFloat 0%float;
          "replayCount" := VInt 0;
          "speedMultiplier" := VFloat speed ]} /\
  s1 = <["hoverIndex" := VIntPtr None]>
         (<["scrollDepth" := VIntPtr None]> s0) /\
  s0 !! "hoverIndex" = None /\
  s0 !! "scrollDepth" = None /\
  (forall key, key <> "hoverIndex" -> key <> "scrollDepth" ->
               s1 !! key = s0 !! key).
Proof.
  cbv zeta.
  assert (H0 : summary E runID speed i frame
                 (setRun runID (withoutSignal run i) w) =
               {[ "pauseDuration" := VFloat 0%float;
                  "replayCount" := VInt 0;
                  "speedMultiplier" := VFloat speed ]}).
  { apply (summary_unrecorded E runID speed i frame _ (withoutSignal run i)).
    - apply lookup_insert_eq.
    - apply lookup_delete_eq. }
  assert (H1 : summary E runID speed i frame
                 (setRun runID (withSignal run i defaultSignal) w) =
               {[ "pauseDuration" := VFloat 0%float;
                  "replayCount" := VInt 0;
                  "speedMultiplier" := VFloat speed;
                  "hoverIndex" := VIntPtr None;
                  "scrollDepth" := VIntPtr None ]}).
  { apply (summary_recorded E runID speed i frame _
             (withSignal run i defaultSignal) defaultSignal).
    - apply lookup_insert_eq.
    - apply lookup_insert_eq. }
  rewrite H0, H1.
  split; [reflexivity|]. split; [reflexivity|].
  split; [reflexivity|]. split; [reflexivity|].
  intros key Hh Hs.
  assert (Heq : ({[ "pauseDuration" := VFloat 0%float;
                    "replayCount" := VInt 0;
                    "speedMultiplier" := VFloat speed;
                    "hoverIndex" := VIntPtr None;
                    "scrollDepth" := VIntPtr None ]} : GoMap) =
                <["hoverIndex" := VIntPtr None]>
                  (<["scrollDepth" := VIntPtr None]>
                     {[ "pauseDuration" := VFloat 0%float;
                        "replayCount" := VInt 0;
                        "speedMultiplier" := VFloat speed ]}))
    by reflexivity.
  rewrite Heq, !lookup_insert_ne by congruence. reflexivity.
Qed.

(** C3, as the specification states it, does not hold: a speed parameter
    that parses to a non-positive number is used as it is. With speed=-2 the
    relay runs with multiplier -2 and sleeps -500ms between frames; with
    speed=0 the delay is 1000/0, which is infinite. *)
Lemma nonpositive_speed_is_used :
  let E := demoEnv pythonUp viewerOpen in
  let r := attachRequest "r1" "-2" in
  speedOf E r = (-2)%float /\
  PrimFloat.leb (speedOf E r) 0%float = true /\
  speedOf E r <> 1%float /\
  frameDelayOf E (speedOf E r) = (-500000000)%Z /\
  In (EvSleep (-500000000))
     (trail (handleWebSocket E freshResponse r) (demoWorld "a")) /\
  speedOf E (attachRequest "r1" "0") = 0%float /\
  (1000 / speedOf E (attachRequest "r1" "0"))%float = infinity.
Proof.
  cbv zeta.
  split; [vm_compute; reflexivity|]. split; [vm_compute; reflexivity|].
  split.
  { intros H. apply (f_equal (fun x => PrimFloat.ltb x 0%float)) in H.
    vm_compute in H. discriminate H. }
  split; [vm_compute; reflexivity|].
  split; [vm_compute; tauto|].
  split; vm_compute; reflexivity.
Qed.

(** After a successful upgrade the handler is the relay, run with the
    multiplier [speedOf] computed, followed by the error report and the
    close. *)
Lemma handleWebSocket_upgraded (E : Env) rw r w :
  Query_Get r "runId" <> "" ->
  ws_Upgrade E (events w) rw r = inr tt ->
  exists tl,
    trail (handleWebSocket E rw r) w =
    trail (streamRun E (Query_Get r "runId") (speedOf E r)) w ++ tl.
Proof.
  intros Hid Hup.
  set (after := fun err : option string =>
         do! match err with
             | Some err =>
                 do! log_Printf ("Error streaming run: " +:+ err) in
                 let! _ := WriteJSON E (errorMsg err) in
                 ret tt
             | None => ret tt
             end in
         do! Close in
         ret rw).
  assert (Heq : handleWebSocket E rw r w =
                bind (streamRun E (Query_Get r "runId") (speedOf E r)) after w).
  { unfold handleWebSocket.
    destruct (decide (Query_Get r "runId" = "")) as [Hc|_]; [contradiction|].
    rewrite Hup. reflexivity. }
  rewrite (trail_ext _ _ _ Heq), trail_bind.
  - eexists. reflexivity.
  - apply appends_streamRun.
  - intros err. subst after. cbv beta.
    apply appends_bind.
    + destruct err as [e|]; [|apply appends_ret].
      apply appends_bind; [apply appends_emit|]. intros _.
      apply appends_bind; [apply appends_WriteJSON|]. intros _.
      apply appends_ret.
    + intros _. apply appends_bind; [apply appends_emit|]. intros _.
      apply appends_ret.
Qed.

(** C3, amended. The multiplier the relay is run with is 1.0 when the speed
    parameter is absent and when it does not parse; when it parses, the
    parsed value is used as it is, whatever its sign. With multiplier 1.0
    the inter-frame delay is 1000 ms. *)
Theorem speed_defaults_when_absent_or_unparseable (E : Env) (w : World)
    (rw : ResponseWriter) (r : Request) :
  let speedStr := Query_Get r "speed" in
  (speedStr = "" -> speedOf E r = 1%float) /\
  (Sscanf_f E speedStr = None -> speedOf E r = 1%float) /\
  (forall v, speedStr <> "" -> Sscanf_f E speedStr = Some v ->
             speedOf E r = v) /\
  (Query_Get r "runId" <> "" -> ws_Upgrade E (events w) rw r = inr tt ->
   exists tl,
     trail (handleWebSocket E rw r) w =
     trail (streamRun E (Query_Get r "runId") (speedOf E r)) w ++ tl) /\
  frameDelayOf E 1%float = (1000 * Millisecond)%Z /\
  (0 < frameDelayOf E 1%float)%Z.
Proof.
  cbv zeta. unfold speedOf.
  split; [|split; [|split; [|split; [|split]]]].
  - intros ->. destruct (decide ("" <> "")) as [Hc|_]; [congruence|reflexivity].
  - intros ->. destruct (decide _); reflexivity.
  - intros v Hne ->. destruct (decide _) as [_|Hc]; [reflexivity|contradiction].
  - apply handleWebSocket_upgraded.
  - vm_compute. reflexivity.
  - vm_compute. reflexivity.
Qed.

Lemma speed_defaults_when_absent_or_unparseable_witness :
  let E := demoEnv pythonUp viewerOpen in
  speedOf E (attachRequest "r1" "") = 1%float /\
  speedOf E (attachRequest "r1" "fast") = 1%float /\
  speedOf E (attachRequest "r1" "0.5") = 0.5%float /\
  frameDelayOf E 1%float = 1000000000%Z.
Proof.
  cbv zeta.
  pose proof (speed_defaults_when_absent_or_unparseable
                (demoEnv pythonUp viewerOpen) emptyWorld freshResponse
                (attachRequest "r1" "")) as (H1 & _ & _ & _ & H5 & _).
  pose proof (speed_defaults_when_absent_or_unparseable
                (demoEnv pythonUp viewerOpen) emptyWorld freshResponse
                (attachRequest "r1" "fast")) as (_ & H2 & _).
  pose proof (speed_defaults_when_absent_or_unparseable
                (demoEnv pythonUp viewerOpen) emptyWorld freshResponse
                (attachRequest "r1" "0.5")) as (_ & _ & H3 & _).
  split; [apply H1; reflexivity|].
  split; [apply H2; reflexivity|].
  split; [apply (H3 0.5%float); [discriminate|reflexivity]|].
  exact H5.
Defined.

(** ** More on run creation *)

Section CreationFacts.

Variable E : Env.

Lemma callPythonExecute_run algorithmID array w :
  let url := pythonBaseURL +:+ "/execute" in
  let req : GoMap := {[ "algorithmId" := VString algorithmID;
                        "array" := VList (VInt <$> array) ]} in
  let out := http_Post E (events w) url req in
  callPythonExecute E algorithmID array w =
  (match out with
   | NetErr err => inl ("failed to call Python backend: " +:+ err)
   | Resp status body =>
       if (status =? 200)%Z then decode_trace E body
       else inl ("Python backend returned error: " +:+ body)
   end,
   {| runs := runs w; events := events w ++ [EvPost url req out] |}).
Proof.
  cbv zeta. unfold callPythonExecute. cbv zeta.
  rewrite json_Marshal_execute. unfold bind, Post.
  destruct (http_Post E (events w) _ _) as [err|status body]; [reflexivity|].
  unfold http_StatusOK. destruct (status =? 200)%Z; [|reflexivity].
  cbn [negb]. destruct (decode_trace E body); reflexivity.
Qed.

(** What [createRun] logs, and what either result says about the answer. *)
Lemma createRun_cases (algorithmID : string) (array : list Z) (w : World) :
  let url := pythonBaseURL +:+ "/execute" in
  let req : GoMap := {[ "algorithmId" := VString algorithmID;
                        "array" := VList (VInt <$> array) ]} in
  let out := http_Post E (events w) url req in
  let w' := exec (createRun E algorithmID array) w in
  events w' = events w ++ [EvPost url req out] /\
  (forall err, eval (createRun E algorithmID array) w = inl err ->
               runs w' = runs w) /\
  (forall run, eval (createRun E algorithmID array) w = inr run ->
     exists body trace,
       out = Resp 200 body /\ decode_trace E body = inr trace /\
       run = {| RunID := uuid_New E (events w'); Trace := trace;
                CurrentStep := 0; BehaviorSignals := ∅ |} /\
       runs w' = <[RunID run := run]> (runs w)).
Proof.
  cbv zeta. unfold eval, exec, createRun, bind.
  rewrite callPythonExecute_run.
  destruct (http_Post E (events w) _ _) as [e|status body] eqn:Hout.
  - cbn. split; [reflexivity|]. split; [reflexivity|]. intros run H.
    discriminate H.
  - destruct (status =? 200)%Z eqn:Hst.
    + apply Z.eqb_eq in Hst. subst status.
      destruct (decode_trace E body) as [err|trace] eqn:Hd.
      * cbn. split; [reflexivity|]. split; [reflexivity|]. intros run H.
        discriminate H.
      * cbn. split; [reflexivity|]. split; [intros err H; discriminate H|].
        intros run H. injection H as <-. exists body, trace.
        split; [reflexivity|]. split; [exact Hd|].
        split; reflexivity.
    + cbn. split; [reflexivity|]. split; [reflexivity|]. intros run H.
      discriminate H.
Qed.

(** X1. [createRun] posts once to /execute. It stores a run exactly when
    the answer has status 200 and a body that decodes. In that case it
    returns the run, which has the id uuid.New gave, the decoded trace,
    cursor 0 and no signal, and the run table holds it under that id. In
    every other case it returns an error and leaves the run table
    untouched: "failed to call Python backend: e" for a transport error e,
    "Python backend returned error: body" for another status, the decoder's
    error for a body that does not decode. *)
Theorem createRun_outcome (algorithmID : string) (array : list Z) (w : World) :
  let url := pythonBaseURL +:+ "/execute" in
  let req : GoMap := {[ "algorithmId" := VString algorithmID;
                        "array" := VList (VInt <$> array) ]} in
  let out := http_Post E (events w) url req in
  let w' := exec (createRun E algorithmID array) w in
  events w' = events w ++ [EvPost url req out] /\
  (forall err, eval (createRun E algorithmID array) w = inl err ->
               runs w' = runs w) /\
  (forall run, eval (createRun E algorithmID array) w = inr run ->
     exists body trace,
       out = Resp 200 body /\ decode_trace E body = inr trace /\
       run = {| RunID := uuid_New E (events w'); Trace := trace;
                CurrentStep := 0; BehaviorSignals := ∅ |} /\
       runs w' = <[RunID run := run]> (runs w)) /\
  (forall body trace,
     out = Resp 200 body -> decode_trace E body = inr trace ->
     let run := {| RunID := uuid_New E (events w'); Trace := trace;
                   CurrentStep := 0; BehaviorSignals := ∅ |} in
     eval (createRun E algorithmID array) w = inr run /\
     runs w' = <[RunID run := run]> (runs w) /\
     runs w' !! uuid_New E (events w') = Some run) /\
  (forall e,
     out = NetErr e ->
     eval (createRun E algorithmID array) w =
       inl ("failed to call Python backend: " +:+ e)) /\
  (forall status body,
     out = Resp status body -> status <> 200%Z ->
     eval (createRun E algorithmID array) w =
       inl ("Python backend returned error: " +:+ body)) /\
  (forall body err,
     out = Resp 200 body -> decode_trace E body = inl err ->
     eval (createRun E algorithmID array) w = inl err).
Proof.
  cbv zeta. unfold eval, exec, createRun, bind.
  rewrite callPythonExecute_run.
  destruct (http_Post E (events w) _ _) as [e|status body] eqn:Hout.
  - cbn. split; [reflexivity|]. split; [reflexivity|].
    split; [intros run H; discriminate H|].
    split; [intros body trace H; discriminate H|].
    split; [intros e' H; injection H as <-; reflexivity|].
    split; [intros status body H; discriminate H|].
    intros body err H. discriminate H.
  - destruct (status =? 200)%Z eqn:Hst.
    + apply Z.eqb_eq in Hst. subst status.
      destruct (decode_trace E body) as [err|trace] eqn:Hd.
      * cbn. split; [reflexivity|]. split; [reflexivity|].
        split; [intros run H; discriminate H|].
        split; [intros b t H Ht; injection H as <-; congruence|].
        split; [intros e' H; discriminate H|].
        split; [intros st b H Hne; injection H as <- _; congruence|].
        intros b err' H Hd'. injection H as <-. congruence.
      * cbn. split; [reflexivity|]. split; [intros err H; discriminate H|].
        split.
        { intros run H. injection H as <-. exists body, trace.
          split; [reflexivity|]. split; [exact Hd|].
          split; reflexivity. }
        split.
        { intros b t H Ht. injection H as <-.
          assert (t = trace) by congruence. subst t.
          split; [reflexivity|]. split; [reflexivity|].
          apply lookup_insert_eq. }
        split; [intros e' H; discriminate H|].
        split; [intros st b H Hne; injection H as <- _; congruence|].
        intros b err' H Hd'. injection H as <-. congruence.
    + apply Z.eqb_neq in Hst.
      cbn. split; [reflexivity|]. split; [reflexivity|].
      split; [intros run H; discriminate H|].
      split; [intros b t H; injection H as H1 H2; congruence|].
      split; [intros e' H; discriminate H|].
      split; [intros st b H Hne; injection H as <- <-; reflexivity|].
      intros b err H. injection H as H1 H2. congruence.
Qed.

Lemma handleRunCreate_post (rw : ResponseWriter) (r : Request)
    (algorithmID : string) (array : list Z) (w : World) :
  Method r = "POST" ->
  decode_request E (Body r) = inr (algorithmID, array) ->
  array <> [] ->
  handleRunCreate E rw r w =
  (match eval (createRun E algorithmID array) w with
   | inl err =>
       http_Error (enableCORS rw) ("Failed to create run: " +:+ err)
         http_StatusInternalServerError
   | inr run =>
       ResponseWriter_Write (Json {[ "runId" := VString (RunID run) ]})
         (Header_Set "Content-Type" "application/json" (enableCORS rw))
   end, exec (createRun E algorithmID array) w).
Proof.
  intros Hm Hd Hne. unfold handleRunCreate. rewrite Hm, Hd.
  destruct array as [|z array]; [congruence|].
  destruct (decide ("POST" = "OPTIONS")) as [Hc|_]; [discriminate Hc|].
  destruct (decide ("POST" <> "POST")) as [Hc|_]; [congruence|].
  cbn [length Nat.eqb]. unfold bind.
  rewrite (run_eq (createRun E algorithmID (z :: array)) w).
  destruct (eval (createRun E algorithmID (z :: array)) w); reflexivity.
Qed.

Lemma handleRunCreate_stored (rw : ResponseWriter) (r : Request)
    (algorithmID : string) (array : list Z) (body : string)
    (trace : list (option GoMap)) (w : World) :
  Method r = "POST" ->
  decode_request E (Body r) = inr (algorithmID, array) ->
  array <> [] ->
  let url := pythonBaseURL +:+ "/execute" in
  let req : GoMap := {[ "algorithmId" := VString algorithmID;
                        "array" := VList (VInt <$> array) ]} in
  http_Post E (events w) url req = Resp 200 body ->
  decode_trace E body = inr trace ->
  let log := events w ++ [EvPost url req (Resp 200 body)] in
  let run := {| RunID := uuid_New E log; Trace := trace; CurrentStep := 0;
                BehaviorSignals := ∅ |} in
  handleRunCreate E rw r w =
  (ResponseWriter_Write (Json {[ "runId" := VString (uuid_New E log) ]})
     (Header_Set "Content-Type" "application/json" (enableCORS rw)),
   {| runs := <[uuid_New E log := run]> (runs w); events := log |}).
Proof.
  intros Hm Hd Hne url req Hpost Htrace. cbv zeta.
  rewrite (handleRunCreate_post rw r algorithmID array w Hm Hd Hne).
  unfold eval, exec, createRun, bind.
  rewrite callPythonExecute_run. cbv zeta. fold url. fold req.
  rewrite Hpost. cbn [Z.eqb Pos.eqb]. rewrite Htrace. reflexivity.
Qed.

(** X2. Create, then look up. When the generator answers a POST with a
    non-empty array by status 200 and a trace that decodes, the handler
    answers 200 with JSON [{runId}]; the run table then holds, under that
    id, a run with exactly the generator's frames, cursor 0 and no signal,
    and every other id is as before. *)
Theorem create_then_lookup (w : World) (rw : ResponseWriter) (r : Request)
    (algorithmID : string) (array : list Z) (body : string)
    (trace : list (option GoMap)) :
  Method r = "POST" ->
  decode_request E (Body r) = inr (algorithmID, array) ->
  array <> [] ->
  StatusCode rw = None ->
  http_Post E (events w) (pythonBaseURL +:+ "/execute")
    {[ "algorithmId" := VString algorithmID;
       "array" := VList (VInt <$> array) ]} = Resp 200 body ->
  decode_trace E body = inr trace ->
  let resp := eval (handleRunCreate E rw r) w in
  let w' := exec (handleRunCreate E rw r) w in
  exists runID,
    StatusCode resp = Some 200%Z /\
    Header resp !! "Content-Type" = Some "application/json" /\
    Written resp = Written rw ++ [Json {[ "runId" := VString runID ]}] /\
    runs w' !! runID =
      Some {| RunID := runID; Trace := trace; CurrentStep := 0;
              BehaviorSignals := ∅ |} /\
    (forall other, other <> runID -> runs w' !! other = runs w !! other).
Proof.
  intros Hm Hd Hne Hs Hpost Htrace. cbv zeta.
  pose proof (handleRunCreate_stored rw r algorithmID array body trace w
                Hm Hd Hne Hpost Htrace) as Heq.
  cbv zeta in Heq. eexists. unfold eval, exec. rewrite Heq. cbn [fst snd runs].
  split; [cbn; rewrite Hs; reflexivity|].
  split; [apply lookup_insert_eq|]. split; [reflexivity|].
  split; [apply lookup_insert_eq|].
  intros other Hother. apply lookup_insert_ne. congruence.
Qed.

(** X3. Create, then stream. A run created by a successful request can be
    attached to under the id the handler returned: with every write
    accepted the relay returns no error and sends one TRACE per frame the
    generator returned, in the generator's order, each followed by an
    EXPLANATION, then END. Message 2i is exactly the envelope with type
    TRACE whose data is frame i of the generator's trace, message 2i+1 has
    type EXPLANATION, and the last of the 2N+1 messages is the END
    envelope. *)
Theorem create_then_stream (w : World) (rw : ResponseWriter) (r : Request)
    (algorithmID : string) (array : list Z) (body : string)
    (trace : list (option GoMap)) (speed : float) :
  Method r = "POST" ->
  decode_request E (Body r) = inr (algorithmID, array) ->
  array <> [] ->
  http_Post E (events w) (pythonBaseURL +:+ "/execute")
    {[ "algorithmId" := VString algorithmID;
       "array" := VList (VInt <$> array) ]} = Resp 200 body ->
  decode_trace E body = inr trace ->
  let w' := exec (handleRunCreate E rw r) w in
  forall runID,
    Written (eval (handleRunCreate E rw r) w) =
      Written rw ++ [Json {[ "runId" := VString runID ]}] ->
    all_sent (trail (streamRun E runID speed) w') ->
    let msgs := sent (trail (streamRun E runID speed) w') in
    eval (streamRun E runID speed) w' = None /\
    (exists explanations,
        length explanations = length trace /\
        msgs = interleaved trace explanations ++ [endMsg]) /\
    length msgs = (2 * length trace + 1)%nat /\
    (forall (i : nat) (frame : option GoMap),
        trace !! i = Some frame ->
        msgs !! (2 * i)%nat =
          Some {[ "type" := VString "TRACE"; "data" := ofMap frame ]} /\
        exists m, msgs !! (2 * i + 1)%nat = Some m /\
                  m !! "type" = Some (VString "EXPLANATION") /\
                  is_Some (m !! "data")) /\
    msgs !! (2 * length trace)%nat =
      Some {[ "type" := VString "END";
              "data" :=
                VMap {[ "message" := VString "Visualization complete" ]} ]}.
Proof.
  intros Hm Hd Hne Hpost Htrace w' runID Hid Hall.
  pose proof (handleRunCreate_stored rw r algorithmID array body trace w
                Hm Hd Hne Hpost Htrace) as Heq.
  cbv zeta in Heq.
  set (log := events w ++ [EvPost _ _ (Resp 200 body)]) in Heq.
  assert (HrunID : runID = uuid_New E log).
  { unfold eval in Hid. rewrite Heq in Hid. cbn [fst Written ResponseWriter_Write
      Header_Set enableCORS] in Hid.
    apply app_inv_head in Hid.
    apply (f_equal (fun l : list Payload =>
                      match l with
                      | [Json m] => m !! "runId"
                      | _ => None
                      end)) in Hid.
    rewrite !lookup_singleton_eq in Hid. congruence. }
  assert (Hrun : runs w' !! runID =
                 Some {| RunID := uuid_New E log; Trace := trace;
                         CurrentStep := 0; BehaviorSignals := ∅ |}).
  { subst w'. unfold exec. rewrite Heq. cbn [snd runs]. rewrite HrunID.
    apply lookup_insert_eq. }
  pose proof (streamRun_found E runID speed w' _ Hrun) as Hs.
  cbn [Trace] in Hs.
  rewrite (trail_ext _ _ _ Hs) in Hall |- *. rewrite (eval_ext _ _ _ Hs).
  rewrite trail_relayFrom in Hall |- *. rewrite eval_relayFrom.
  apply Forall_app in Hall as [Hloop Hend].
  destruct (streamFrames_drained E runID speed _ _ _ _ Hloop)
    as [Hev [expls [Hlen Hsent]]].
  rewrite Hev in Hend |- *.
  apply Forall_cons in Hend as [Hend _].
  destruct (eval (WriteJSON E endMsg) _) as [e|]; [discriminate Hend|].
  assert (Hmsgs : sent (trail (streamFrames E runID speed (frameDelayOf E speed)
                                 0 trace) w' ++ [EvWrite endMsg None]) =
                  interleaved trace expls ++ [endMsg]).
  { rewrite sent_app, Hsent. reflexivity. }
  cbv zeta. rewrite Hmsgs.
  split; [reflexivity|].
  split; [exists expls; split; [exact Hlen|reflexivity]|].
  exact (drained_positions trace expls _ Hlen eq_refl).
Qed.

End CreationFacts.

Lemma create_then_stream_witness :
  let E := demoEnv (fun _ _ _ => Resp 200 "abcdefghi") viewerOpen in
  let w' := exec (handleRunCreate E freshResponse (createRequest "52819"))
              emptyWorld in
  let trace := demoFrame <$> list_ascii_of_string "abcdefghi" in
  let msgs := sent (trail (streamRun E "run-1" 2%float) w') in
  eval (streamRun E "run-1" 2%float) w' = None /\
  (exists explanations,
      length explanations = 9%nat /\
      msgs = interleaved trace explanations ++ [endMsg]) /\
  length msgs = 19%nat /\
  (forall (i : nat) (frame : option GoMap),
      trace !! i = Some frame ->
      msgs !! (2 * i)%nat =
        Some {[ "type" := VString "TRACE"; "data" := ofMap frame ]} /\
      exists m, msgs !! (2 * i + 1)%nat = Some m /\
                m !! "type" = Some (VString "EXPLANATION") /\
                is_Some (m !! "data")) /\
  msgs !! 18%nat =
    Some {[ "type" := VString "END";
            "data" :=
              VMap {[ "message" := VString "Visualization complete" ]} ]}.
Proof.
  assert (Hne : [5; 2; 8; 1; 9]%Z <> []) by discriminate.
  apply (create_then_stream
           (demoEnv (fun _ _ _ => Resp 200 "abcdefghi") viewerOpen)
           emptyWorld freshResponse (createRequest "52819")
           "bubble_sort" [5; 2; 8; 1; 9]%Z "abcdefghi"
           (demoFrame <$> list_ascii_of_string "abcdefghi") 2%float
           eq_refl eq_refl Hne eq_refl eq_refl "run-1" eq_refl).
  apply all_sent_check. vm_compute. reflexivity.
Defined.

Lemma create_then_lookup_witness :
  let E' := demoEnv (fun _ _ _ => Resp 200 "abcdefghi") viewerOpen in
  let resp := eval (handleRunCreate E' freshResponse (createRequest "52819"))
                (demoWorld "xy") in
  let w' := exec (handleRunCreate E' freshResponse (createRequest "52819"))
              (demoWorld "xy") in
  exists runID,
    StatusCode resp = Some 200%Z /\
    Header resp !! "Content-Type" = Some "application/json" /\
    Written resp = [Json {[ "runId" := VString runID ]}] /\
    runs w' !! runID =
      Some {| RunID := runID;
              Trace := demoFrame <$> list_ascii_of_string "abcdefghi";
              CurrentStep := 0; BehaviorSignals := ∅ |} /\
    (forall other, other <> runID ->
                   runs w' !! other = runs (demoWorld "xy") !! other).
Proof.
  apply (create_then_lookup
           (demoEnv (fun _ _ _ => Resp 200 "abcdefghi") viewerOpen)
           (demoWorld "xy") freshResponse
           (createRequest "52819") "bubble_sort" [5; 2; 8; 1; 9]%Z
           "abcdefghi"); try reflexivity.
  discriminate.
Defined.


(** ** The create-run handler, all requests *)

Section HandlerFacts.

Variable E : Env.

(** The answers that leave the world alone. *)
Lemma handleRunCreate_rejects (rw : ResponseWriter) (r : Request) (w : World) :
  (Method r = "OPTIONS" /\
   handleRunCreate E rw r w = (WriteHeader http_StatusOK (enableCORS rw), w)) \/
  (Method r <> "OPTIONS" /\ Method r <> "POST" /\
   handleRunCreate E rw r w =
   (http_Error (enableCORS rw) "Method not allowed"
      http_StatusMethodNotAllowed, w)) \/
  (Method r = "POST" /\
   (exists err, decode_request E (Body r) = inl err) /\
   handleRunCreate E rw r w =
   (http_Error (enableCORS rw) "Invalid request body" http_StatusBadRequest,
    w)) \/
  (Method r = "POST" /\
   (exists algorithmID, decode_request E (Body r) = inr (algorithmID, [])) /\
   handleRunCreate E rw r w =
   (http_Error (enableCORS rw) "Array cannot be empty" http_StatusBadRequest,
    w)) \/
  (Method r = "POST" /\
   exists algorithmID array,
     decode_request E (Body r) = inr (algorithmID, array) /\ array <> []).
Proof.
  unfold handleRunCreate.
  destruct (decide (Method r = "OPTIONS")) as [Ho|Ho]; [left; auto|].
  destruct (decide (Method r <> "POST")) as [Hp|Hp]; [right; left; auto|].
  assert (Hpost : Method r = "POST").
  { destruct (decide (Method r = "POST")); [assumption|contradiction]. }
  destruct (decode_request E (Body r)) as [err|[algorithmID array]] eqn:Hd.
  { right; right; left. eauto. }
  destruct array as [|z array].
  { right; right; right; left. eauto. }
  right; right; right; right. split; [exact Hpost|].
  exists algorithmID, (z :: array). split; [reflexivity|discriminate].
Qed.

Lemma cors_enableCORS (rw : ResponseWriter) :
  Header (enableCORS rw) !! "Access-Control-Allow-Origin" = Some "*" /\
  Header (enableCORS rw) !! "Access-Control-Allow-Methods" =
    Some "POST, GET, OPTIONS" /\
  Header (enableCORS rw) !! "Access-Control-Allow-Headers" =
    Some "Content-Type".
Proof.
  unfold enableCORS, Header_Set. cbn [Header].
  split; [|split].
  - rewrite lookup_insert_ne by discriminate.
    rewrite lookup_insert_ne by discriminate. apply lookup_insert_eq.
  - rewrite lookup_insert_ne by discriminate. apply lookup_insert_eq.
  - apply lookup_insert_eq.
Qed.

Lemma Header_http_Error (rw : ResponseWriter) msg code key :
  key <> "Content-Length" -> key <> "Content-Type" ->
  key <> "X-Content-Type-Options" ->
  Header (http_Error rw msg code) !! key = Header rw !! key.
Proof.
  intros H1 H2 H3. unfold http_Error, ResponseWriter_Write, WriteHeader,
    Header_Set. cbn [Header].
  rewrite lookup_insert_ne by congruence.
  rewrite lookup_insert_ne by congruence.
  apply lookup_delete_ne. congruence.
Qed.

(** X4. Every answer of the create-run handler and of the health handler
    carries the three CORS headers set by [enableCORS], whatever the method,
    the body and the outcome. *)
Theorem cors_on_every_answer (rw : ResponseWriter) (r : Request) (w : World) :
  let cors (resp : ResponseWriter) :=
    Header resp !! "Access-Control-Allow-Origin" = Some "*" /\
    Header resp !! "Access-Control-Allow-Methods" = Some "POST, GET, OPTIONS" /\
    Header resp !! "Access-Control-Allow-Headers" = Some "Content-Type" in
  cors (eval (handleRunCreate E rw r) w) /\
  cors (eval (handleHealth rw r) w).
Proof.
  cbv zeta.
  assert (Herr : forall msg code,
             Header (http_Error (enableCORS rw) msg code)
               !! "Access-Control-Allow-Origin" = Some "*" /\
             Header (http_Error (enableCORS rw) msg code)
               !! "Access-Control-Allow-Methods" = Some "POST, GET, OPTIONS" /\
             Header (http_Error (enableCORS rw) msg code)
               !! "Access-Control-Allow-Headers" = Some "Content-Type").
  { intros msg code. rewrite !Header_http_Error by discriminate.
    apply cors_enableCORS. }
  assert (Hjson : forall p,
             Header (ResponseWriter_Write p
                       (Header_Set "Content-Type" "application/json"
                          (enableCORS rw)))
               !! "Access-Control-Allow-Origin" = Some "*" /\
             Header (ResponseWriter_Write p
                       (Header_Set "Content-Type" "application/json"
                          (enableCORS rw)))
               !! "Access-Control-Allow-Methods" = Some "POST, GET, OPTIONS" /\
             Header (ResponseWriter_Write p
                       (Header_Set "Content-Type" "application/json"
                          (enableCORS rw)))
               !! "Access-Control-Allow-Headers" = Some "Content-Type").
  { intros p.
    assert (Hk : forall key, key <> "Content-Type" ->
               Header (ResponseWriter_Write p
                         (Header_Set "Content-Type" "application/json"
                            (enableCORS rw))) !! key =
               Header (enableCORS rw) !! key).
    { intros key Hkey. apply lookup_insert_ne. congruence. }
    rewrite !Hk by discriminate. apply cors_enableCORS. }
  split; [|apply Hjson].
  unfold eval.
  destruct (handleRunCreate_rejects rw r w)
    as [[_ ->]|[(_ & _ & ->)|[(_ & _ & ->)|[(_ & _ & ->)|
        (Hm & algorithmID & array & Hd & Hne)]]]]; cbn [fst].
  - apply cors_enableCORS.
  - apply Herr.
  - apply Herr.
  - apply Herr.
  - rewrite (handleRunCreate_post E rw r algorithmID array w Hm Hd Hne).
    cbn [fst]. destruct (eval (createRun E algorithmID array) w).
    + apply Herr.
    + apply Hjson.
Qed.

(** X5. What the create-run handler can do to the world, for every
    request: it never writes to a viewer connection; it posts at most once,
    and only to /execute; the run table afterwards is the one before, or the
    one before with one run put under the id that run carries; and, on a
    fresh response, the status is 200, 400, 405 or 500. *)
Theorem handleRunCreate_footprint (rw : ResponseWriter) (r : Request)
    (w : World) :
  let w' := exec (handleRunCreate E rw r) w in
  let t := trail (handleRunCreate E rw r) w in
  (runs w' = runs w \/
   exists run, runs w' = <[RunID run := run]> (runs w)) /\
  attempted t = [] /\
  (t = [] \/ exists req out, t = [EvPost (pythonBaseURL +:+ "/execute") req out]) /\
  (StatusCode rw = None ->
   exists c, StatusCode (eval (handleRunCreate E rw r) w) = Some c /\
             (c = 200 \/ c = 400 \/ c = 405 \/ c = 500)%Z).
Proof.
  cbv zeta.
  assert (Hsame : forall resp,
             handleRunCreate E rw r w = (resp, w) ->
             (runs (exec (handleRunCreate E rw r) w) = runs w \/
              exists run, runs (exec (handleRunCreate E rw r) w) =
                          <[RunID run := run]> (runs w)) /\
             attempted (trail (handleRunCreate E rw r) w) = [] /\
             (trail (handleRunCreate E rw r) w = [] \/
              exists req out, trail (handleRunCreate E rw r) w =
                              [EvPost (pythonBaseURL +:+ "/execute") req out])).
  { intros resp Heq.
    assert (Ht : trail (handleRunCreate E rw r) w = []).
    { unfold trail, exec. rewrite Heq. apply drop_all. }
    rewrite Ht. unfold exec. rewrite Heq. auto. }
  destruct (handleRunCreate_rejects rw r w)
    as [[_ Heq]|[(_ & _ & Heq)|[(_ & _ & Heq)|[(_ & _ & Heq)|
        (Hm & algorithmID & array & Hd & Hne)]]]].
  - destruct (Hsame _ Heq) as (H1 & H2 & H3). repeat split; try assumption.
    intros Hs. unfold eval. rewrite Heq. cbn. rewrite Hs. eauto.
  - destruct (Hsame _ Heq) as (H1 & H2 & H3). repeat split; try assumption.
    intros Hs. unfold eval. rewrite Heq. cbn. rewrite Hs. eauto 6.
  - destruct (Hsame _ Heq) as (H1 & H2 & H3). repeat split; try assumption.
    intros Hs. unfold eval. rewrite Heq. cbn. rewrite Hs. eauto 6.
  - destruct (Hsame _ Heq) as (H1 & H2 & H3). repeat split; try assumption.
    intros Hs. unfold eval. rewrite Heq. cbn. rewrite Hs. eauto 6.
  - pose proof (handleRunCreate_post E rw r algorithmID array w Hm Hd Hne)
      as Heq.
    destruct (createRun_cases E algorithmID array w) as (Hev & Herr & Hok).
    cbv zeta in Hev.
    assert (Ht : trail (handleRunCreate E rw r) w =
                 [EvPost (pythonBaseURL +:+ "/execute")
                    {[ "algorithmId" := VString algorithmID;
                       "array" := VList (VInt <$> array) ]}
                    (http_Post E (events w) (pythonBaseURL +:+ "/execute")
                       {[ "algorithmId" := VString algorithmID;
                          "array" := VList (VInt <$> array) ]})]).
    { apply trail_unique. unfold exec at 1. rewrite Heq. exact Hev. }
    rewrite Ht. unfold eval at 1, exec. rewrite Heq. cbn [fst snd].
    fold (exec (createRun E algorithmID array) w).
    destruct (eval (createRun E algorithmID array) w) as [err|run] eqn:Hres.
    + split; [left; apply (Herr err); reflexivity|].
      split; [reflexivity|]. split; [right; eauto|].
      intros Hs. cbn. rewrite Hs. eauto 6.
    + destruct (Hok run eq_refl) as (body & trace & _ & _ & _ & Hruns).
      split; [right; exists run; exact Hruns|].
      split; [reflexivity|]. split; [right; eauto|].
      intros Hs. cbn. rewrite Hs. eauto 6.
Qed.

(** X6. Only POST reaches the body. A request with another method leaves
    the world as it was: OPTIONS is answered 200 with no body, any other
    method 405 with "Method not allowed". *)
Theorem only_post_creates (rw : ResponseWriter) (r : Request) (w : World) :
  Method r <> "POST" ->
  StatusCode rw = None ->
  let resp := eval (handleRunCreate E rw r) w in
  exec (handleRunCreate E rw r) w = w /\
  (Method r = "OPTIONS" ->
   StatusCode resp = Some 200%Z /\ Written resp = Written rw) /\
  (Method r <> "OPTIONS" ->
   StatusCode resp = Some 405%Z /\
   Written resp = Written rw ++ [Text ("Method not allowed" +:+ newline)]).
Proof.
  intros Hm Hs. cbv zeta. unfold eval, exec.
  destruct (handleRunCreate_rejects rw r w)
    as [[Ho ->]|[(Ho & _ & ->)|[(Hp & _)|[(Hp & _)|(Hp & _)]]]];
    try contradiction; cbn [fst snd].
  - split; [reflexivity|]. split; [|intros Hc; contradiction].
    intros _. cbn. rewrite Hs. auto.
  - split; [reflexivity|]. split; [intros Hc; contradiction|].
    intros _. cbn. rewrite Hs. auto.
Qed.

(** X7. A POST whose body does not decode is answered 400 with "Invalid
    request body", before the array is looked at; the world is as it
    was. *)
Theorem undecodable_body_rejected (rw : ResponseWriter) (r : Request)
    (w : World) (err : string) :
  Method r = "POST" ->
  decode_request E (Body r) = inl err ->
  StatusCode rw = None ->
  let resp := eval (handleRunCreate E rw r) w in
  exec (handleRunCreate E rw r) w = w /\
  StatusCode resp = Some 400%Z /\
  Written resp = Written rw ++ [Text ("Invalid request body" +:+ newline)].
Proof.
  intros Hm Hd Hs. cbv zeta. unfold eval, exec.
  destruct (handleRunCreate_rejects rw r w)
    as [[Ho _]|[(_ & Hp & _)|[(_ & _ & ->)|[(_ & [a Ha] & _)|
        (_ & a & b & Ha & _)]]]]; try congruence.
  cbn [fst snd]. split; [reflexivity|]. cbn. rewrite Hs. auto.
Qed.

End HandlerFacts.

Lemma only_post_creates_witness :
  let E := demoEnv pythonUp viewerOpen in
  let r := {| Method := "DELETE"; Query := ∅; Body := "52819" |} in
  let resp := eval (handleRunCreate E freshResponse r) (demoWorld "ab") in
  exec (handleRunCreate E freshResponse r) (demoWorld "ab") = demoWorld "ab" /\
  (Method r = "OPTIONS" ->
   StatusCode resp = Some 200%Z /\ Written resp = Written freshResponse) /\
  (Method r <> "OPTIONS" ->
   StatusCode resp = Some 405%Z /\
   Written resp =
     Written freshResponse ++ [Text ("Method not allowed" +:+ newline)]).
Proof.
  apply (only_post_creates (demoEnv pythonUp viewerOpen) freshResponse
           {| Method := "DELETE"; Query := ∅; Body := "52819" |}
           (demoWorld "ab")).
  - discriminate.
  - reflexivity.
Defined.

Lemma undecodable_body_rejected_witness :
  let E := demoEnv pythonUp viewerOpen in
  let resp := eval (handleRunCreate E freshResponse (createRequest ""))
                (demoWorld "ab") in
  exec (handleRunCreate E freshResponse (createRequest "")) (demoWorld "ab")
    = demoWorld "ab" /\
  StatusCode resp = Some 400%Z /\
  Written resp =
    Written freshResponse ++ [Text ("Invalid request body" +:+ newline)].
Proof.
  apply (undecodable_body_rejected (demoEnv pythonUp viewerOpen) freshResponse
           (createRequest "") (demoWorld "ab") "EOF"); reflexivity.
Defined.

(** ** The relay, every execution *)

Section RelayInduction.

Variables (E : Env) (runID : string) (speed : float) (delay : Z).

(** Induction over the loop through what it logs: the loop ends, or a TRACE
    is refused, or an EXPLANATION is refused, or a frame goes through and
    the loop goes on. *)
Lemma streamFrames_trail_ind
    (P : Z -> list (option GoMap) -> World -> list Event -> option string -> Prop) :
  (forall i w, P i [] w [] None) ->
  (forall i frame rest w e,
      traceResult E frame w = Some e ->
      P i (frame :: rest) w [EvWrite (traceMsg frame) (Some e)]
        (Some ("failed to send trace: " +:+ e))) ->
  (forall i frame rest w e,
      traceResult E frame w = None ->
      explainWriteResult E runID speed i frame w = Some e ->
      P i (frame :: rest) w
        (EvWrite (traceMsg frame) None ::
         explainTrail E runID speed i frame w ++
         [EvWrite (explainMsg (explanationSent E runID speed i frame w))
            (Some e)])
        (Some ("failed to send explanation: " +:+ e))) ->
  (forall i frame rest w t r,
      traceResult E frame w = None ->
      explainWriteResult E runID speed i frame w = None ->
      P (i + 1)%Z rest (afterFrame E runID speed delay i frame w) t r ->
      P i (frame :: rest) w
        (EvWrite (traceMsg frame) None ::
         explainTrail E runID speed i frame w ++
         EvWrite (explainMsg (explanationSent E runID speed i frame w)) None ::
         EvSleep delay :: t) r) ->
  forall frames i w,
    P i frames w (trail (streamFrames E runID speed delay i frames) w)
      (eval (streamFrames E runID speed delay i frames) w).
Proof.
  intros Hnil Htf Hef Hstep.
  induction frames as [|frame rest IH]; intros i w.
  - cbn [streamFrames]. rewrite trail_ret. apply Hnil.
  - rewrite trail_streamFrames_cons, eval_streamFrames_cons.
    destruct (traceResult E frame w) as [e|] eqn:Ht; [apply Htf; exact Ht|].
    destruct (explainWriteResult E runID speed i frame w) as [e|] eqn:Hw.
    + apply Hef; assumption.
    + apply Hstep; [assumption|assumption|apply IH].
Qed.

Lemma sleeps_app a b : sleeps (a ++ b) = sleeps a ++ sleeps b.
Proof. apply flat_map_app. Qed.

(** Between the two writes of an iteration there is at most the post to
    /explain-step, carrying the frame and the summary, and the printed
    line. *)
Lemma explainTrail_cases i frame w :
  let url := pythonBaseURL +:+ "/explain-step" in
  let req : GoMap :=
    {[ "frame" := ofMap frame;
       "userBehavior" := VMap (summary E runID speed i frame w) ]} in
  sleeps (explainTrail E runID speed i frame w) = [] /\
  (posted (explainTrail E runID speed i frame w) = [] \/
   posted (explainTrail E runID speed i frame w) = [(url, req)]).
Proof.
  cbv zeta. unfold explainTrail. rewrite sleeps_app, posted_app.
  rewrite trail_callPythonExplain. cbv zeta.
  destruct (json_Marshal _), (explainResult E runID speed i frame w);
    cbn; auto.
Qed.

(** A call that succeeded logged exactly one post, answered with status 200
    and a body that decoded to what the call returned. *)
Lemma explainTrail_answered i frame w x :
  explainResult E runID speed i frame w = inr x ->
  exists req body,
    explainTrail E runID speed i frame w =
      [EvPost (pythonBaseURL +:+ "/explain-step") req (Resp 200 body)] /\
    decode_object E body = inr x.
Proof.
  intros Hr. unfold explainTrail. rewrite Hr, app_nil_r.
  rewrite trail_callPythonExplain. cbv zeta.
  unfold explainResult, eval, callPythonExplain, json_Marshal in Hr |- *.
  cbv zeta in Hr.
  destruct (firstUnsupported _); [discriminate Hr|].
  unfold bind, Post in Hr. cbv beta iota in Hr.
  destruct (http_Post E _ _ _) as [e|status body]; [discriminate Hr|].
  unfold http_StatusOK in Hr.
  destruct (status =? 200)%Z eqn:Hst; [|discriminate Hr].
  apply Z.eqb_eq in Hst. subst status. cbn [negb] in Hr.
  destruct (decode_object E body) as [e|y] eqn:Hd; [discriminate Hr|].
  cbn in Hr. injection Hr as <-.
  eexists _, body. split; [reflexivity|exact Hd].
Qed.

End RelayInduction.

Lemma countType_cons t m msgs :
  countType t (m :: msgs) =
  ((if msgTypeIs t m then 1 else 0) + countType t msgs)%nat.
Proof. unfold countType. cbn [List.filter]. destruct (msgTypeIs t m); reflexivity. Qed.

Section RelayEvery.

Variables (E : Env) (runID : string) (speed : float).

(** Either the relay finds no run and does nothing, or it runs the loop and
    then, when the loop reports no error, writes END. *)
Lemma streamRun_cases w :
  (runs w !! runID = None /\
   trail (streamRun E runID speed) w = [] /\
   eval (streamRun E runID speed) w = Some ("run not found: " +:+ runID)) \/
  (exists run,
      runs w !! runID = Some run /\
      let loop := streamFrames E runID speed (frameDelayOf E speed) 0
                    (Trace run) in
      trail (streamRun E runID speed) w =
        trail loop w ++
        match eval loop w with
        | Some _ => []
        | None => [EvWrite endMsg (eval (WriteJSON E endMsg) (exec loop w))]
        end /\
      eval (streamRun E runID speed) w =
        match eval loop w with
        | Some e => Some e
        | None => eval (WriteJSON E endMsg) (exec loop w)
        end).
Proof.
  destruct (runs w !! runID) as [run|] eqn:Hrun.
  - right. exists run. split; [reflexivity|]. cbv zeta.
    pose proof (streamRun_found E runID speed w run Hrun) as Heq.
    rewrite (trail_ext _ _ _ Heq), (eval_ext _ _ _ Heq).
    rewrite trail_relayFrom, eval_relayFrom. split; reflexivity.
  - left. split; [reflexivity|].
    pose proof (streamRun_missing E runID speed w Hrun) as Heq.
    split.
    + apply trail_unique. unfold exec. rewrite Heq. cbn. symmetry.
      apply app_nil_r.
    + unfold eval. rewrite Heq. reflexivity.
Qed.


(** X9. The relay's result depends on the viewer connection only: it
    returns no error exactly when the run is in the table and every write
    was accepted, whatever the explanation collaborator answered. *)
Theorem relay_succeeds_iff_all_sent (w : World) :
  eval (streamRun E runID speed) w = None <->
  is_Some (runs w !! runID) /\ all_sent (trail (streamRun E runID speed) w).
Proof.
  destruct (streamRun_cases w) as [(Hrun & Ht & Hev)|(run & Hrun & Ht & Hev)].
  - rewrite Hev, Hrun. split; [discriminate|].
    intros [[x Hx] _]. discriminate Hx.
  - cbv zeta in Ht, Hev. rewrite Hev, Ht, Hrun.
    destruct (streamFrames_stops E runID speed (frameDelayOf E speed)
                (Trace run) 0 w)
      as [[Hloop Hall]|(pre & m & e & Hpre & _ & [err Herr])].
    + rewrite Hloop.
      destruct (eval (WriteJSON E endMsg) _) as [e|].
      * split; [discriminate|]. intros [_ Hbad].
        apply Forall_app in Hbad as [_ Hbad].
        apply Forall_cons in Hbad as [Hbad _]. discriminate Hbad.
      * split; [|reflexivity]. intros _. split; [eexists; reflexivity|].
        apply Forall_app. split; [exact Hall|]. repeat constructor.
    + rewrite Herr. split; [discriminate|]. intros [_ Hbad].
      rewrite Hpre, app_nil_r in Hbad.
      apply Forall_app in Hbad as [_ Hbad].
      apply Forall_cons in Hbad as [Hbad _]. discriminate Hbad.
Qed.

End RelayEvery.

Lemma interleaved_cons frame frames x explanations :
  interleaved (frame :: frames) (x :: explanations) =
  traceMsg frame :: explainMsg x :: interleaved frames explanations.
Proof. reflexivity. Qed.

Section RelayOrder.

Variables (E : Env) (runID : string) (speed : float).

Lemma attempted_iteration i frame w res tl :
  attempted (EvWrite (traceMsg frame) None ::
             explainTrail E runID speed i frame w ++
             EvWrite (explainMsg (explanationSent E runID speed i frame w)) res
             :: tl) =
  traceMsg frame :: explainMsg (explanationSent E runID speed i frame w)
  :: attempted tl.
Proof.
  change (attempted (EvWrite ?m ?r :: ?l)) with (m :: attempted l).
  rewrite attempted_app.
  destruct (explainTrail_no_write E runID speed i frame w) as [-> _].
  reflexivity.
Qed.

(** What was handed to the connection is an initial segment of the full
    sequence, for some explanations. *)
Lemma attempted_prefix (w : World) (run : RunState) :
  runs w !! runID = Some run ->
  exists explanations,
    length explanations = length (Trace run) /\
    attempted (trail (streamRun E runID speed) w) `prefix_of`
      interleaved (Trace run) explanations ++ [endMsg].
Proof.
  intros Hrun.
  destruct (streamRun_cases E runID speed w)
    as [(Hnone & _)|(run' & Hrun' & Ht & _)]; [congruence|].
  assert (run' = run) by congruence. subst run'. cbv zeta in Ht. rewrite Ht.
  rewrite attempted_app.
  assert (Hloop : forall frames i w0,
             exists expls,
               length expls = length frames /\
               (eval (streamFrames E runID speed (frameDelayOf E speed) i
                        frames) w0 = None ->
                attempted (trail (streamFrames E runID speed
                                    (frameDelayOf E speed) i frames) w0) =
                interleaved frames expls) /\
               (is_Some (eval (streamFrames E runID speed
                                 (frameDelayOf E speed) i frames) w0) ->
                attempted (trail (streamFrames E runID speed
                                    (frameDelayOf E speed) i frames) w0)
                `prefix_of` interleaved frames expls)).
  { apply (streamFrames_trail_ind E runID speed (frameDelayOf E speed)
             (fun _ frames _ t r =>
                exists expls,
                  length expls = length frames /\
                  (r = None -> attempted t = interleaved frames expls) /\
                  (is_Some r -> attempted t `prefix_of`
                                  interleaved frames expls))).
    - intros i w0. exists []. split; [reflexivity|].
      split; [reflexivity|]. intros [x Hx]. discriminate Hx.
    - intros i frame rest w0 e _.
      exists (replicate (length (frame :: rest)) (Some fallbackExplanation)).
      split; [apply length_replicate|]. split; [discriminate|]. intros _.
      cbn [length replicate]. rewrite interleaved_cons.
      eexists. reflexivity.
    - intros i frame rest w0 e _ _.
      exists (explanationSent E runID speed i frame w0
                :: replicate (length rest) (Some fallbackExplanation)).
      split; [cbn [length]; rewrite length_replicate; reflexivity|].
      split; [discriminate|]. intros _.
      rewrite attempted_iteration, interleaved_cons.
      eexists. reflexivity.
    - intros i frame rest w0 t r _ _ (expls & Hlen & Hnone & Hsome).
      exists (explanationSent E runID speed i frame w0 :: expls).
      split; [cbn [length]; congruence|].
      change (EvWrite (explainMsg ?x) None :: EvSleep ?d :: t)
        with ([EvWrite (explainMsg x) None; EvSleep d] ++ t).
      assert (Hatt : forall l,
                 attempted (EvWrite (traceMsg frame) None ::
                            explainTrail E runID speed i frame w0 ++
                            [EvWrite (explainMsg
                                        (explanationSent E runID speed i
                                           frame w0)) None;
                             EvSleep (frameDelayOf E speed)] ++ l) =
                 traceMsg frame ::
                 explainMsg (explanationSent E runID speed i frame w0) ::
                 attempted l).
      { intros l. cbn [app]. rewrite attempted_iteration. reflexivity. }
      rewrite Hatt, interleaved_cons. split.
      + intros Hr. rewrite (Hnone Hr). reflexivity.
      + intros Hr. destruct (Hsome Hr) as [k Hk]. exists k. rewrite Hk.
        reflexivity. }
  destruct (Hloop (Trace run) 0%Z w) as (expls & Hlen & Hnone & Hsome).
  exists expls. split; [exact Hlen|].
  destruct (eval (streamFrames E runID speed (frameDelayOf E speed) 0
                    (Trace run)) w) as [e|].
  - rewrite app_nil_r. destruct (Hsome (ltac:(eexists; reflexivity)))
      as [k Hk]. exists (k ++ [endMsg]). rewrite Hk. symmetry. apply app_assoc.
  - rewrite (Hnone eq_refl). exists []. symmetry. apply app_nil_r.
Qed.

(** X10. Order, in every execution. For a stored run, the messages handed
    to the connection, accepted or refused, always form an initial segment
    of TRACE(0), EXPLANATION(0), TRACE(1), EXPLANATION(1), ..., END over the
    run's frames, at most 2N+1 of them: the message at an even position 2i
    is exactly the envelope with type TRACE whose data is frame i of the
    run, the message at an odd position 2i+1 has type EXPLANATION, and a
    message at position 2N is the END envelope. So an aborted relay stops
    early but never skips a frame, repeats one, sends another frame's data
    or sends END before the last frame's pair. *)
Theorem messages_always_in_order (w : World) (run : RunState) :
  runs w !! runID = Some run ->
  let msgs := attempted (trail (streamRun E runID speed) w) in
  let N := length (Trace run) in
  (exists explanations,
      length explanations = N /\
      msgs `prefix_of` interleaved (Trace run) explanations ++ [endMsg]) /\
  (length msgs <= 2 * N + 1)%nat /\
  forall (k : nat) (m : GoMap),
    msgs !! k = Some m ->
    (exists (i : nat) (frame : option GoMap),
        k = (2 * i)%nat /\ Trace run !! i = Some frame /\
        m = {[ "type" := VString "TRACE"; "data" := ofMap frame ]}) \/
    (exists i : nat,
        k = (2 * i + 1)%nat /\ (i < N)%nat /\
        m !! "type" = Some (VString "EXPLANATION") /\ is_Some (m !! "data")) \/
    (k = (2 * N)%nat /\
     m = {[ "type" := VString "END";
            "data" := VMap {[ "message" := VString "Visualization complete" ]} ]}).
Proof.
  intros Hrun. cbv zeta.
  destruct (attempted_prefix w run Hrun) as (expls & Hlen & Hpre).
  split; [exists expls; split; [exact Hlen|exact Hpre]|].
  exact (prefix_positions (Trace run) expls _ Hlen Hpre).
Qed.

(** X11. The error the relay returns names the write that was refused: the
    refused write is the last event, and the error is "failed to send
    trace: e" for a TRACE of one of the run's frames, "failed to send
    explanation: e" for an EXPLANATION, and the connection's own error e
    for END. *)
Theorem relay_error_names_message (w : World) (run : RunState) (err : string) :
  runs w !! runID = Some run ->
  eval (streamRun E runID speed) w = Some err ->
  exists pre m e,
    trail (streamRun E runID speed) w = pre ++ [EvWrite m (Some e)] /\
    ((exists frame, frame ∈ Trace run /\ m = traceMsg frame /\
                    err = "failed to send trace: " +:+ e) \/
     (exists x, m = explainMsg x /\
                err = "failed to send explanation: " +:+ e) \/
     (m = endMsg /\ err = e)).
Proof.
  intros Hrun Herr.
  destruct (streamRun_cases E runID speed w)
    as [(Hnone & _)|(run' & Hrun' & Ht & Hev)]; [congruence|].
  assert (run' = run) by congruence. subst run'. cbv zeta in Ht, Hev.
  rewrite Hev in Herr. rewrite Ht.
  assert (Hloop : forall frames i w0 err0,
             eval (streamFrames E runID speed (frameDelayOf E speed) i frames)
               w0 = Some err0 ->
             exists pre m e,
               trail (streamFrames E runID speed (frameDelayOf E speed) i
                        frames) w0 = pre ++ [EvWrite m (Some e)] /\
               ((exists frame, frame ∈ frames /\ m = traceMsg frame /\
                               err0 = "failed to send trace: " +:+ e) \/
                (exists x, m = explainMsg x /\
                           err0 = "failed to send explanation: " +:+ e))).
  { intros frames i w0.
    apply (streamFrames_trail_ind E runID speed (frameDelayOf E speed)
             (fun _ frames _ t r =>
                forall err0, r = Some err0 ->
                  exists pre m e,
                    t = pre ++ [EvWrite m (Some e)] /\
                    ((exists frame, frame ∈ frames /\ m = traceMsg frame /\
                                    err0 = "failed to send trace: " +:+ e) \/
                     (exists x, m = explainMsg x /\
                                err0 = "failed to send explanation: " +:+ e)))).
    - intros ? ? err0 H. discriminate H.
    - intros ? frame rest ? e _ err0 H. injection H as <-.
      exists [], (traceMsg frame), e. split; [reflexivity|]. left.
      exists frame. split; [apply list_elem_of_here|]. split; reflexivity.
    - intros j frame rest w1 e _ _ err0 H. injection H as <-.
      eexists (_ :: _), _, e. split; [reflexivity|]. right.
      eexists. split; reflexivity.
    - intros j frame rest w1 t r _ _ IH err0 H.
      destruct (IH err0 H) as (pre & m & e & -> & Hcase).
      exists (EvWrite (traceMsg frame) None ::
              explainTrail E runID speed j frame w1 ++
              EvWrite (explainMsg (explanationSent E runID speed j frame w1))
                None :: EvSleep (frameDelayOf E speed) :: pre), m, e.
      split; [cbn [app]; rewrite <- app_assoc; reflexivity|].
      destruct Hcase as [(fr & Hin & -> & ->)|Hx]; [left|right; exact Hx].
      exists fr. split; [apply list_elem_of_further; exact Hin|].
      split; reflexivity. }
  destruct (eval (streamFrames E runID speed (frameDelayOf E speed) 0
                    (Trace run)) w) as [e0|] eqn:Hloopres.
  - injection Herr as <-.
    destruct (Hloop _ _ _ _ Hloopres) as (pre & m & e & -> & Hcase).
    exists pre, m, e. rewrite app_nil_r. split; [reflexivity|].
    destruct Hcase as [Hc|Hc]; [left; exact Hc|right; left; exact Hc].
  - rewrite Herr. eexists _, endMsg, err. split; [reflexivity|].
    right; right. split; reflexivity.
Qed.

(** Where a write sits in the log of one iteration: it is the TRACE, or
    the EXPLANATION, or it comes later. *)
Lemma app_cons_split {A} (a b pre post : list A) (e : A) :
  a ++ b = pre ++ e :: post ->
  (exists mid, a = pre ++ e :: mid /\ post = mid ++ b) \/
  (exists pre', pre = a ++ pre' /\ b = pre' ++ e :: post).
Proof.
  revert pre. induction a as [|x a IH]; intros pre H.
  - right. exists pre. split; [reflexivity|exact H].
  - destruct pre as [|p pre]; cbn in H; injection H as -> H.
    + left. exists a. split; [reflexivity|symmetry; exact H].
    + destruct (IH pre H) as [(mid & -> & ->)|(pre' & -> & ->)].
      * left. exists mid. split; reflexivity.
      * right. exists pre'. split; reflexivity.
Qed.

Lemma iteration_split (a b : GoMap) ra rb (xt tl pre post : list Event) m res :
  attempted xt = [] ->
  EvWrite a ra :: xt ++ EvWrite b rb :: tl = pre ++ EvWrite m res :: post ->
  (pre = [] /\ m = a) \/
  (pre = EvWrite a ra :: xt /\ m = b) \/
  (exists pre', pre = EvWrite a ra :: xt ++ EvWrite b rb :: pre' /\
                tl = pre' ++ EvWrite m res :: post).
Proof.
  intros Hxt H. destruct pre as [|p pre]; cbn in H.
  - injection H as -> _ _. left. split; reflexivity.
  - injection H as <- H. right.
    apply app_cons_split in H as [(mid & Hx & _)|(pre' & -> & H)].
    + rewrite Hx, attempted_app in Hxt. apply app_eq_nil in Hxt as [_ Hc].
      discriminate Hc.
    + destruct pre' as [|p' pre']; cbn in H.
      * injection H as -> _ _. left. rewrite app_nil_r. split; reflexivity.
      * injection H as <- H. right. exists pre'. split; [reflexivity|exact H].
Qed.

Local Abbreviation explained pre m :=
  (m = {[ "type" := VString "EXPLANATION";
          "data" := VMap {[ "mode" := VString "conceptual";
                            "explanation" := VString "Processing this step...";
                            "short_hint" := VString "Watch the visualization";
                            "confidence_estimate" := VString "medium";
                            "followup_question" := VString "" ]} ]} \/
   exists (pre' : list Event) (req : GoMap) (body : string)
          (x : option GoMap),
     pre = pre' ++ [EvPost (pythonBaseURL +:+ "/explain-step") req
                      (Resp 200 body)] /\
     decode_object E body = inr x /\
     m = {[ "type" := VString "EXPLANATION";
            "data" := match x with
                      | Some object => VMap object
                      | None => VNil
                      end ]}).

Lemma explained_iteration i frame w :
  explained (EvWrite (traceMsg frame) None ::
             explainTrail E runID speed i frame w)
            (explainMsg (explanationSent E runID speed i frame w)).
Proof.
  unfold explanationSent.
  destruct (explainResult E runID speed i frame w) as [e|x] eqn:Hr.
  - left. reflexivity.
  - right. destruct (explainTrail_answered E runID speed i frame w x Hr)
      as (req & body & -> & Hd).
    exists [EvWrite (traceMsg frame) None], req, body, x.
    split; [reflexivity|]. split; [exact Hd|reflexivity].
Qed.

Lemma explained_later (l pre : list Event) (m : GoMap) :
  explained pre m -> explained (l ++ pre) m.
Proof.
  intros [H|(pre' & req & body & x & -> & Hd & Hm)]; [left; exact H|right].
  exists (l ++ pre'), req, body, x.
  split; [apply app_assoc|]. split; [exact Hd|exact Hm].
Qed.

(** X12. The relay never makes up or alters an explanation. Every message
    of type EXPLANATION it hands to the connection is either exactly the
    fallback envelope, or it comes right after a post to /explain-step that
    this attachment made and that was answered with status 200, and its
    data is what that answer's body decoded to: the decoded object, or null
    when the body decoded to the nil map. *)
Theorem explanations_fallback_or_decoded (w : World) (pre post : list Event)
    (m : GoMap) (res : option string) :
  trail (streamRun E runID speed) w = pre ++ EvWrite m res :: post ->
  m !! "type" = Some (VString "EXPLANATION") ->
  m = {[ "type" := VString "EXPLANATION";
         "data" := VMap {[ "mode" := VString "conceptual";
                           "explanation" := VString "Processing this step...";
                           "short_hint" := VString "Watch the visualization";
                           "confidence_estimate" := VString "medium";
                           "followup_question" := VString "" ]} ]} \/
  exists (pre' : list Event) (req : GoMap) (body : string)
         (x : option GoMap),
    pre = pre' ++ [EvPost (pythonBaseURL +:+ "/explain-step") req
                     (Resp 200 body)] /\
    decode_object E body = inr x /\
    m = {[ "type" := VString "EXPLANATION";
           "data" := match x with
                     | Some object => VMap object
                     | None => VNil
                     end ]}.
Proof.
  intros Htrail Htype.
  assert (Hloop : forall frames i w0 pre0 post0,
             trail (streamFrames E runID speed (frameDelayOf E speed) i frames)
               w0 = pre0 ++ EvWrite m res :: post0 ->
             explained pre0 m).
  { intros frames i w0.
    apply (streamFrames_trail_ind E runID speed (frameDelayOf E speed)
             (fun _ _ _ t _ =>
                forall pre0 post0,
                  t = pre0 ++ EvWrite m res :: post0 -> explained pre0 m)).
    - intros ? ? [|? ?] ? H; discriminate H.
    - intros ? frame rest ? e _ [|? [|? ?]] ? H; try discriminate H.
      injection H as <- _. discriminate Htype.
    - intros j frame rest w1 e _ _ pre0 post0 H.
      destruct (explainTrail_no_write E runID speed j frame w1) as [Hxt _].
      destruct (iteration_split _ _ _ _ _ _ _ _ _ _ Hxt H)
        as [(_ & ->)|[(-> & ->)|(pre' & _ & Hc)]].
      + discriminate Htype.
      + apply explained_iteration.
      + destruct pre'; discriminate Hc.
    - intros j frame rest w1 t r _ _ IH pre0 post0 H.
      destruct (explainTrail_no_write E runID speed j frame w1) as [Hxt _].
      destruct (iteration_split _ _ _ _ _ _ _ _ _ _ Hxt H)
        as [(_ & ->)|[(-> & ->)|(pre' & -> & Hc)]].
      + discriminate Htype.
      + apply explained_iteration.
      + destruct pre' as [|p pre']; [discriminate Hc|].
        injection Hc as <- Hc.
        change (EvWrite (traceMsg frame) None ::
                explainTrail E runID speed j frame w1 ++
                EvWrite (explainMsg (explanationSent E runID speed j frame w1))
                  None :: EvSleep (frameDelayOf E speed) :: pre')
          with ((EvWrite (traceMsg frame) None ::
                 explainTrail E runID speed j frame w1) ++
                [EvWrite (explainMsg (explanationSent E runID speed j frame w1))
                   None; EvSleep (frameDelayOf E speed)] ++ pre').
        rewrite app_assoc. apply explained_later. exact (IH _ _ Hc). }
  destruct (streamRun_cases E runID speed w)
    as [(_ & Ht & _)|(run & _ & Ht & _)].
  - rewrite Ht in Htrail. destruct pre; discriminate Htrail.
  - cbv zeta in Ht. rewrite Ht in Htrail.
    apply app_cons_split in Htrail as [(mid & Hin & _)|(pre' & -> & Hend)].
    + exact (Hloop _ _ _ _ _ Hin).
    + destruct (eval (streamFrames E runID speed (frameDelayOf E speed) 0
                        (Trace run)) w).
      * destruct pre'; discriminate Hend.
      * destruct pre' as [|? [|? ?]]; try discriminate Hend.
        injection Hend as <- _ _. discriminate Htype.
Qed.

End RelayOrder.

Lemma messages_always_in_order_witness :
  let E := demoEnv pythonUp (viewerGoneAt 3) in
  let msgs := attempted (trail (streamRun E "r1" 1%float) (demoWorld "abc")) in
  (exists explanations,
      length explanations = 3%nat /\
      msgs `prefix_of`
        interleaved (Trace (demoRun "abc")) explanations ++ [endMsg]) /\
  (length msgs <= 7)%nat /\
  forall (k : nat) (m : GoMap),
    msgs !! k = Some m ->
    (exists (i : nat) (frame : option GoMap),
        k = (2 * i)%nat /\ Trace (demoRun "abc") !! i = Some frame /\
        m = {[ "type" := VString "TRACE"; "data" := ofMap frame ]}) \/
    (exists i : nat,
        k = (2 * i + 1)%nat /\ (i < 3)%nat /\
        m !! "type" = Some (VString "EXPLANATION") /\ is_Some (m !! "data")) \/
    (k = 6%nat /\
     m = {[ "type" := VString "END";
            "data" := VMap {[ "message" := VString "Visualization complete" ]} ]}).
Proof.
  apply (messages_always_in_order (demoEnv pythonUp (viewerGoneAt 3)) "r1"
           1%float (demoWorld "abc") (demoRun "abc")).
  reflexivity.
Defined.

Lemma relay_error_names_message_witness :
  let E := demoEnv pythonUp (viewerGoneAt 3) in
  exists pre m e,
    trail (streamRun E "r1" 1%float) (demoWorld "abc") =
      pre ++ [EvWrite m (Some e)] /\
    ((exists frame, frame ∈ Trace (demoRun "abc") /\ m = traceMsg frame /\
                    "failed to send explanation: broken pipe" =
                    "failed to send trace: " +:+ e) \/
     (exists x, m = explainMsg x /\
                "failed to send explanation: broken pipe" =
                "failed to send explanation: " +:+ e) \/
     (m = endMsg /\ "failed to send explanation: broken pipe" = e)).
Proof.
  apply (relay_error_names_message (demoEnv pythonUp (viewerGoneAt 3)) "r1"
           1%float (demoWorld "abc") (demoRun "abc")
           "failed to send explanation: broken pipe").
  - reflexivity.
  - vm_compute. reflexivity.
Defined.

Lemma explanations_fallback_or_decoded_witness :
  let E := demoEnv (fun _ _ _ => Resp 200 "null") viewerOpen in
  let t := trail (streamRun E "r1" 1%float) (demoWorld "a") in
  let m : GoMap := {[ "type" := VString "EXPLANATION"; "data" := VNil ]} in
  t = take 2 t ++ EvWrite m None :: drop 3 t /\
  (m = {[ "type" := VString "EXPLANATION";
          "data" := VMap {[ "mode" := VString "conceptual";
                            "explanation" := VString "Processing this step...";
                            "short_hint" := VString "Watch the visualization";
                            "confidence_estimate" := VString "medium";
                            "followup_question" := VString "" ]} ]} \/
   exists (pre' : list Event) (req : GoMap) (body : string)
          (x : option GoMap),
     take 2 t = pre' ++ [EvPost (pythonBaseURL +:+ "/explain-step") req
                           (Resp 200 body)] /\
     decode_object E body = inr x /\
     m = {[ "type" := VString "EXPLANATION";
            "data" := match x with
                      | Some object => VMap object
                      | None => VNil
                      end ]}).
Proof.
  assert (H : let E := demoEnv (fun _ _ _ => Resp 200 "null") viewerOpen in
              let t := trail (streamRun E "r1" 1%float) (demoWorld "a") in
              t = take 2 t ++
                  EvWrite {[ "type" := VString "EXPLANATION"; "data" := VNil ]}
                    None :: drop 3 t).
  { vm_compute. reflexivity. }
  split; [exact H|].
  apply (explanations_fallback_or_decoded
           (demoEnv (fun _ _ _ => Resp 200 "null") viewerOpen) "r1" 1%float
           (demoWorld "a") _ _ _ None H).
  reflexivity.
Defined.

(** ** Calls to the explanation collaborator *)

Section RelayPosts.

Variables (E : Env) (runID : string) (speed : float).

Lemma summary_speed i frame w :
  summary E runID speed i frame w !! "speedMultiplier" = Some (VFloat speed).
Proof. unfold summary. apply lookup_insert_eq. Qed.

(** X13. What the relay posts. Every post made while streaming a stored
    run goes to /explain-step and carries one of the run's frames together
    with a behaviour summary whose speedMultiplier is the attachment's
    multiplier; the relay never posts to /execute, and it has never posted
    more often than TRACE messages were accepted. *)
Theorem relay_posts_only_explanations (w : World) (run : RunState) :
  runs w !! runID = Some run ->
  let t := trail (streamRun E runID speed) w in
  Forall (fun p : string * GoMap =>
            p.1 = pythonBaseURL +:+ "/explain-step" /\
            exists frame ub,
              frame ∈ Trace run /\
              p.2 = {[ "frame" := ofMap frame; "userBehavior" := VMap ub ]} /\
              ub !! "speedMultiplier" = Some (VFloat speed))
         (posted t) /\
  (length (posted t) <= countType "TRACE" (sent t))%nat.
Proof.
  intros Hrun. cbv zeta.
  destruct (streamRun_cases E runID speed w)
    as [(Hnone & _)|(run' & Hrun' & Ht & _)]; [congruence|].
  assert (run' = run) by congruence. subst run'. cbv zeta in Ht. rewrite Ht.
  rewrite posted_app, sent_app, countType_app.
  assert (Hend : forall o : option string,
             posted (match o with
                     | Some _ => []
                     | None => [EvWrite endMsg
                                  (eval (WriteJSON E endMsg)
                                     (exec (streamFrames E runID speed
                                              (frameDelayOf E speed) 0
                                              (Trace run)) w))]
                     end) = []).
  { intros [e|]; reflexivity. }
  rewrite Hend, app_nil_r.
  assert (Hloop :
    forall frames i w0,
      Forall (fun p : string * GoMap =>
                p.1 = pythonBaseURL +:+ "/explain-step" /\
                exists frame ub,
                  frame ∈ frames /\
                  p.2 = {[ "frame" := ofMap frame; "userBehavior" := VMap ub ]} /\
                  ub !! "speedMultiplier" = Some (VFloat speed))
             (posted (trail (streamFrames E runID speed (frameDelayOf E speed)
                               i frames) w0)) /\
      (length (posted (trail (streamFrames E runID speed (frameDelayOf E speed)
                                i frames) w0)) <=
       countType "TRACE"
         (sent (trail (streamFrames E runID speed (frameDelayOf E speed)
                         i frames) w0)))%nat).
  { apply (streamFrames_trail_ind E runID speed (frameDelayOf E speed)
             (fun _ frames _ t _ =>
                Forall (fun p : string * GoMap =>
                          p.1 = pythonBaseURL +:+ "/explain-step" /\
                          exists frame ub,
                            frame ∈ frames /\
                            p.2 = {[ "frame" := ofMap frame;
                                     "userBehavior" := VMap ub ]} /\
                            ub !! "speedMultiplier" = Some (VFloat speed))
                       (posted t) /\
                (length (posted t) <= countType "TRACE" (sent t))%nat)).
    - intros. split; [constructor|reflexivity].
    - intros. split; [constructor|cbn; lia].
    - intros i frame rest w0 e _ _.
      change (posted (EvWrite ?m ?r :: ?l)) with (posted l).
      change (sent (EvWrite ?m None :: ?l)) with (m :: sent l).
      rewrite posted_app, countType_cons, msgTypeIs_traceMsg.
      change (posted [EvWrite _ _]) with (@nil (string * GoMap)).
      rewrite app_nil_r.
      destruct (explainTrail_cases E runID speed i frame w0) as [_ [-> | ->]].
      + split; [constructor|cbn; lia].
      + split; [|cbn; lia]. constructor; [|constructor].
        split; [reflexivity|]. eexists frame, _.
        split; [apply list_elem_of_here|]. split; [reflexivity|].
        apply summary_speed.
    - intros i frame rest w0 t r _ _ [IHp IHn].
      change (posted (EvWrite ?m ?r :: ?l)) with (posted l).
      change (sent (EvWrite ?m None :: ?l)) with (m :: sent l).
      rewrite posted_app, sent_app, countType_cons, countType_app,
        msgTypeIs_traceMsg.
      change (posted (EvWrite ?m ?r :: EvSleep ?d :: ?l)) with (posted l).
      change (sent (EvWrite ?m None :: EvSleep ?d :: ?l)) with (m :: sent l).
      rewrite length_app, countType_cons, msgTypeIs_explainMsg.
      destruct (explainTrail_sent E runID speed i frame w0) as [-> _].
      change (String.eqb "TRACE" "TRACE") with true.
      change (String.eqb "EXPLANATION" "TRACE") with false.
      change (countType "TRACE" []) with 0%nat.
      assert (Hrest :
        Forall (fun p : string * GoMap =>
                  p.1 = pythonBaseURL +:+ "/explain-step" /\
                  exists frame0 ub,
                    frame0 ∈ frame :: rest /\
                    p.2 = {[ "frame" := ofMap frame0;
                             "userBehavior" := VMap ub ]} /\
                    ub !! "speedMultiplier" = Some (VFloat speed))
               (posted t)).
      { eapply Forall_impl; [exact IHp|].
        intros p (Hu & fr & ub & Hin & Hreq & Hsp). split; [exact Hu|].
        exists fr, ub. split; [apply list_elem_of_further; exact Hin|].
        split; assumption. }
      destruct (explainTrail_cases E runID speed i frame w0) as [_ [-> | ->]].
      + split; [exact Hrest|]. cbn [length]. lia.
      + split; [|cbn [length]; lia]. constructor; [|exact Hrest].
        split; [reflexivity|]. eexists frame, _.
        split; [apply list_elem_of_here|]. split; [reflexivity|].
        apply summary_speed. }
  destruct (Hloop (Trace run) 0%Z w) as [Hp Hn]. split; [exact Hp|lia].
Qed.

End RelayPosts.

Lemma relay_posts_only_explanations_witness :
  let E := demoEnv pythonUp viewerOpen in
  let t := trail (streamRun E "r1" 2%float) (demoWorld "abc") in
  Forall (fun p : string * GoMap =>
            p.1 = pythonBaseURL +:+ "/explain-step" /\
            exists frame ub,
              frame ∈ Trace (demoRun "abc") /\
              p.2 = {[ "frame" := ofMap frame; "userBehavior" := VMap ub ]} /\
              ub !! "speedMultiplier" = Some (VFloat 2%float))
         (posted t) /\
  (length (posted t) <= countType "TRACE" (sent t))%nat.
Proof.
  apply (relay_posts_only_explanations (demoEnv pythonUp viewerOpen) "r1"
           2%float (demoWorld "abc") (demoRun "abc")).
  reflexivity.
Defined.

(** ** The behaviour-signal lookup *)

(** X14. [getBehaviorSignal] only reads: the world, and so the run's signal
    map, is as before (nothing is created). Its result always binds
    pauseDuration to a float, replayCount to an integer and speedMultiplier
    to a float; it binds hoverIndex and scrollDepth exactly when a signal is
    recorded for that step of a stored run; for a run id that is not in the
    table it is the all-defaults map. *)
Theorem getBehaviorSignal_shape (w : World) (runID : string) (i : Z) :
  let s := eval (getBehaviorSignal runID i) w in
  let recorded :=
    exists run signal,
      runs w !! runID = Some run /\ BehaviorSignals run !! i = Some signal in
  exec (getBehaviorSignal runID i) w = w /\
  (exists p, s !! "pauseDuration" = Some (VFloat p)) /\
  (exists n, s !! "replayCount" = Some (VInt n)) /\
  (exists m, s !! "speedMultiplier" = Some (VFloat m)) /\
  (is_Some (s !! "hoverIndex") <-> recorded) /\
  (is_Some (s !! "scrollDepth") <-> recorded) /\
  (runs w !! runID = None ->
   s = {[ "pauseDuration" := VFloat 0%float; "replayCount" := VInt 0;
          "speedMultiplier" := VFloat 1%float ]}).
Proof.
  cbv zeta. split; [apply exec_getBehaviorSignal|].
  unfold eval, getBehaviorSignal.
  destruct (runs w !! runID) as [run|] eqn:Hrun.
  - destruct (BehaviorSignals run !! i) as [signal|] eqn:Hsig; cbn [fst].
    + split; [eexists; reflexivity|]. split; [eexists; reflexivity|].
      split; [eexists; reflexivity|].
      split; [|split; [|discriminate]].
      * split; [intros _; eauto|intros _; eexists; reflexivity].
      * split; [intros _; eauto|intros _; eexists; reflexivity].
    + split; [eexists; reflexivity|]. split; [eexists; reflexivity|].
      split; [eexists; reflexivity|].
      split; [|split; [|discriminate]].
      * split; [intros [x Hx]; discriminate Hx|].
        intros (r0 & s0 & Hr & Hs). congruence.
      * split; [intros [x Hx]; discriminate Hx|].
        intros (r0 & s0 & Hr & Hs). congruence.
  - cbn [fst].
    split; [eexists; reflexivity|]. split; [eexists; reflexivity|].
    split; [eexists; reflexivity|].
    split; [|split; [|reflexivity]].
    + split; [intros [x Hx]; discriminate Hx|].
      intros (r0 & s0 & Hr & Hs). discriminate Hr.
    + split; [intros [x Hx]; discriminate Hx|].
      intros (r0 & s0 & Hr & Hs). discriminate Hr.
Qed.

(** ** The attach handler *)

Section AttachFacts.

Variable E : Env.

Lemma appends_handleWebSocket rw r : appends (handleWebSocket E rw r).
Proof.
  unfold handleWebSocket.
  destruct (decide (Query_Get r "runId" = "")); [apply appends_ret|].
  intros w. unfold exec.
  destruct (ws_Upgrade E (events w) rw r) as [[err rw']|u].
  - apply (appends_bind (log_Printf _) (fun _ => ret rw'));
      [apply appends_emit|intros _; apply appends_ret].
  - apply (appends_bind (streamRun E (Query_Get r "runId") (speedOf E r))).
    + apply appends_streamRun.
    + intros err. apply appends_bind.
      * destruct err as [e|]; [|apply appends_ret].
        apply appends_bind; [apply appends_emit|]. intros _.
        apply appends_bind; [apply appends_WriteJSON|]. intros _.
        apply appends_ret.
      * intros _. apply appends_bind; [apply appends_emit|]. intros _.
        apply appends_ret.
Qed.

(** X15. Streaming only reads the run table: neither the relay nor the
    attach handler adds, removes or changes a run, whatever the request and
    however the attachment ends. *)
Theorem streaming_is_read_only (rw : ResponseWriter) (r : Request)
    (runID : string) (speed : float) (w : World) :
  runs (exec (handleWebSocket E rw r) w) = runs w /\
  runs (exec (streamRun E runID speed) w) = runs w.
Proof.
  split.
  - apply appends_handleWebSocket.
  - apply appends_streamRun.
Qed.

(** X16. After a successful upgrade the handler runs the relay with the
    request's run id and multiplier and then always closes the connection,
    last of all. If the relay returned an error it first logs it and tries
    one message, the envelope with type ERROR whose data is {message: the
    error's text}; if not, it writes nothing more. The HTTP response writer
    is left as it was. *)
Theorem attach_reports_then_closes (rw : ResponseWriter) (r : Request)
    (w : World) :
  Query_Get r "runId" <> "" ->
  ws_Upgrade E (events w) rw r = inr tt ->
  let relay := streamRun E (Query_Get r "runId") (speedOf E r) in
  eval (handleWebSocket E rw r) w = rw /\
  exists res,
    trail (handleWebSocket E rw r) w =
    trail relay w ++
    match eval relay w with
    | Some err =>
        [EvLog ("Error streaming run: " +:+ err);
         EvWrite {[ "type" := VString "ERROR";
                    "data" := VMap {[ "message" := VString err ]} ]} res]
    | None => []
    end ++ [EvClose].
Proof.
  intros Hid Hup. cbv zeta.
  set (relay := streamRun E (Query_Get r "runId") (speedOf E r)).
  set (after := fun err : option string =>
         do! match err with
             | Some err =>
                 do! log_Printf ("Error streaming run: " +:+ err) in
                 let! _ := WriteJSON E (errorMsg err) in
                 ret tt
             | None => ret tt
             end in
         do! Close in
         ret rw).
  assert (Heq : handleWebSocket E rw r w = bind relay after w).
  { unfold handleWebSocket.
    destruct (decide (Query_Get r "runId" = "")) as [Hc|_]; [contradiction|].
    rewrite Hup. reflexivity. }
  assert (Hafter : forall err, appends (after err)).
  { intros err. subst after. cbv beta. apply appends_bind.
    - destruct err as [e|]; [|apply appends_ret].
      apply appends_bind; [apply appends_emit|]. intros _.
      apply appends_bind; [apply appends_WriteJSON|]. intros _.
      apply appends_ret.
    - intros _. apply appends_bind; [apply appends_emit|]. intros _.
      apply appends_ret. }
  rewrite (eval_ext _ _ _ Heq), (trail_ext _ _ _ Heq).
  rewrite eval_bind, trail_bind;
    [|apply appends_streamRun|exact Hafter].
  destruct (eval relay w) as [err|].
  - split; [reflexivity|]. eexists. f_equal.
    apply trail_unique. unfold after, exec, bind, log_Printf, Close, emit,
      WriteJSON, ret. cbn [snd events]. rewrite <- !app_assoc. reflexivity.
  - split; [reflexivity|]. exists None. f_equal.
    apply trail_unique. reflexivity.
Qed.

(** X17. No upgrade, no stream. A request whose runId parameter is missing
    or empty is answered 400 with "Missing runId parameter" and nothing else
    happens, the upgrade is not tried; when the upgrade fails the handler
    logs it and stops with the answer the upgrader gave. In both cases
    nothing is written to a connection, nothing is posted and nothing is
    closed. *)
Theorem no_upgrade_no_stream (rw : ResponseWriter) (r : Request) (w : World) :
  (Query r !! "runId" = None \/ Query r !! "runId" = Some "" ->
   exec (handleWebSocket E rw r) w = w /\
   Written (eval (handleWebSocket E rw r) w) =
     Written rw ++ [Text ("Missing runId parameter" +:+ newline)] /\
   (StatusCode rw = None ->
    StatusCode (eval (handleWebSocket E rw r) w) = Some 400%Z)) /\
  (forall err rw',
      Query_Get r "runId" <> "" ->
      ws_Upgrade E (events w) rw r = inl (err, rw') ->
      eval (handleWebSocket E rw r) w = rw' /\
      trail (handleWebSocket E rw r) w =
        [EvLog ("WebSocket upgrade failed: " +:+ err)]).
Proof.
  split.
  - intros Hq.
    assert (Hid : Query_Get r "runId" = "").
    { unfold Query_Get. destruct Hq as [-> | ->]; reflexivity. }
    assert (Heq : handleWebSocket E rw r w =
                  (http_Error rw "Missing runId parameter"
                     http_StatusBadRequest, w)).
    { unfold handleWebSocket.
      destruct (decide (Query_Get r "runId" = "")) as [_|Hc];
        [reflexivity|contradiction]. }
    unfold eval, exec. rewrite Heq. cbn [fst snd].
    split; [reflexivity|]. split; [reflexivity|].
    intros Hs. cbn. rewrite Hs. reflexivity.
  - intros err rw' Hid Hup.
    assert (Heq : handleWebSocket E rw r w =
                  (rw', {| runs := runs w;
                           events := events w ++
                             [EvLog ("WebSocket upgrade failed: " +:+ err)] |})).
    { unfold handleWebSocket.
      destruct (decide (Query_Get r "runId" = "")) as [Hc|_]; [contradiction|].
      rewrite Hup. reflexivity. }
    split; [unfold eval; rewrite Heq; reflexivity|].
    apply trail_unique. unfold exec. rewrite Heq. reflexivity.
Qed.

(** X18. No shared cursor. After one attachment to a stored run has ended,
    in whatever way and at whatever speed, a second attachment to the same
    run whose writes are all accepted again gets the whole sequence from
    frame 0: TRACE and EXPLANATION for every frame in order, then END.
    Message 2i of the second attachment is exactly the envelope with type
    TRACE whose data is frame i of the run, message 2i+1 has type
    EXPLANATION, and the last of its 2N+1 messages is the END envelope. *)
Theorem reattach_replays_from_start (w : World) (runID : string)
    (run : RunState) (first second : float) :
  runs w !! runID = Some run ->
  let w1 := exec (streamRun E runID first) w in
  all_sent (trail (streamRun E runID second) w1) ->
  let msgs := sent (trail (streamRun E runID second) w1) in
  let N := length (Trace run) in
  eval (streamRun E runID second) w1 = None /\
  (exists explanations,
      length explanations = N /\
      msgs = interleaved (Trace run) explanations ++ [endMsg]) /\
  length msgs = (2 * N + 1)%nat /\
  (forall (i : nat) (frame : option GoMap),
      Trace run !! i = Some frame ->
      msgs !! (2 * i)%nat =
        Some {[ "type" := VString "TRACE"; "data" := ofMap frame ]} /\
      exists m, msgs !! (2 * i + 1)%nat = Some m /\
                m !! "type" = Some (VString "EXPLANATION") /\
                is_Some (m !! "data")) /\
  msgs !! (2 * N)%nat =
    Some {[ "type" := VString "END";
            "data" := VMap {[ "message" := VString "Visualization complete" ]} ]}.
Proof.
  intros Hrun w1 Hall.
  assert (Hrun1 : runs w1 !! runID = Some run).
  { subst w1. rewrite (proj1 (appends_streamRun E runID first w)). exact Hrun. }
  pose proof (streamRun_found E runID second w1 run Hrun1) as Hs.
  rewrite (trail_ext _ _ _ Hs) in Hall |- *. rewrite (eval_ext _ _ _ Hs).
  rewrite trail_relayFrom in Hall |- *. rewrite eval_relayFrom.
  apply Forall_app in Hall as [Hloop Hend].
  destruct (streamFrames_drained E runID second _ _ _ _ Hloop)
    as [Hev [expls [Hlen Hsent]]].
  rewrite Hev in Hend |- *.
  apply Forall_cons in Hend as [Hend _].
  destruct (eval (WriteJSON E endMsg) _) as [e|]; [discriminate Hend|].
  assert (Hmsgs : sent (trail (streamFrames E runID second
                                 (frameDelayOf E second) 0 (Trace run)) w1 ++
                        [EvWrite endMsg None]) =
                  interleaved (Trace run) expls ++ [endMsg]).
  { rewrite sent_app, Hsent. reflexivity. }
  cbv zeta. rewrite Hmsgs.
  split; [reflexivity|].
  split; [exists expls; split; [exact Hlen|reflexivity]|].
  exact (drained_positions (Trace run) expls _ Hlen eq_refl).
Qed.

End AttachFacts.

Lemma attach_reports_then_closes_witness :
  let E := demoEnv pythonUp (viewerGoneAt 1) in
  let r := attachRequest "r1" "2" in
  let relay := streamRun E "r1" 2%float in
  eval (handleWebSocket E freshResponse r) (demoWorld "ab") = freshResponse /\
  exists res,
    trail (handleWebSocket E freshResponse r) (demoWorld "ab") =
    trail relay (demoWorld "ab") ++
    [EvLog ("Error streaming run: " +:+
            "failed to send explanation: broken pipe");
     EvWrite {[ "type" := VString "ERROR";
                "data" := VMap {[ "message" :=
                  VString "failed to send explanation: broken pipe" ]} ]}
       res] ++
    [EvClose].
Proof.
  apply (attach_reports_then_closes (demoEnv pythonUp (viewerGoneAt 1))
           freshResponse (attachRequest "r1" "2") (demoWorld "ab")).
  - discriminate.
  - reflexivity.
Defined.

Lemma reattach_replays_from_start_witness :
  let E := demoEnv pythonUp (fun h _ =>
             if (length (attempted h) =? 2)%nat then Some "broken pipe"
             else None) in
  let w1 := exec (streamRun E "r1" 1%float) (demoWorld "abc") in
  let msgs := sent (trail (streamRun E "r1" 2%float) w1) in
  eval (streamRun E "r1" 2%float) w1 = None /\
  (exists explanations,
      length explanations = 3%nat /\
      msgs = interleaved (Trace (demoRun "abc")) explanations ++ [endMsg]) /\
  length msgs = 7%nat /\
  (forall (i : nat) (frame : option GoMap),
      Trace (demoRun "abc") !! i = Some frame ->
      msgs !! (2 * i)%nat =
        Some {[ "type" := VString "TRACE"; "data" := ofMap frame ]} /\
      exists m, msgs !! (2 * i + 1)%nat = Some m /\
                m !! "type" = Some (VString "EXPLANATION") /\
                is_Some (m !! "data")) /\
  msgs !! 6%nat =
    Some {[ "type" := VString "END";
            "data" := VMap {[ "message" := VString "Visualization complete" ]} ]}.
Proof.
  apply (reattach_replays_from_start
           (demoEnv pythonUp (fun h _ =>
              if (length (attempted h) =? 2)%nat then Some "broken pipe"
              else None))
           (demoWorld "abc") "r1" (demoRun "abc") 1%float 2%float).
  - reflexivity.
  - apply all_sent_check. vm_compute. reflexivity.
Defined.

(** ** Requests that cannot be marshalled *)

Section Unmarshalable.

Variables (E : Env) (runID : string) (speed : float).

Hypothesis speed_not_finite : float_finite speed = false.

Lemma explain_request_refused i frame w :
  exists text,
    explainResult E runID speed i frame w =
      inl ("json: unsupported value: " +:+ text) /\
    explainTrail E runID speed i frame w =
      [EvPrintf ("Error getting explanation: " +:+
                 ("json: unsupported value: " +:+ text) +:+ newline)] /\
    explanationSent E runID speed i frame w = Some fallbackExplanation.
Proof.
  destruct (firstUnsupported
              (VMap {[ "frame" := ofMap frame;
                       "userBehavior" :=
                         VMap (summary E runID speed i frame w) ]}))
    as [text|] eqn:Hb.
  - exists text.
    assert (Hm : json_Marshal
                   {[ "frame" := ofMap frame;
                      "userBehavior" :=
                        VMap (summary E runID speed i frame w) ]}
                 = inl ("json: unsupported value: " +:+ text)).
    { unfold json_Marshal. rewrite Hb. reflexivity. }
    assert (Hr : explainResult E runID speed i frame w =
                 inl ("json: unsupported value: " +:+ text)).
    { unfold explainResult, eval, callPythonExplain. cbv zeta. rewrite Hm.
      reflexivity. }
    split; [exact Hr|]. split.
    + unfold explainTrail. rewrite trail_callPythonExplain. cbv zeta.
      rewrite Hm, Hr. reflexivity.
    + unfold explanationSent. rewrite Hr. reflexivity.
  - exfalso.
    assert (Hub : firstUnsupported
                    (VMap (summary E runID speed i frame w)) = None).
    { apply (proj1 (firstUnsupported_VMap _) Hb "userBehavior").
      rewrite lookup_insert_ne by discriminate. apply lookup_singleton_eq. }
    pose proof (proj1 (firstUnsupported_VMap _) Hub "speedMultiplier" _
                  (summary_speed E runID speed i frame w)) as Hs.
    cbn [firstUnsupported] in Hs. rewrite speed_not_finite in Hs.
    discriminate Hs.
Qed.

(** X19. A multiplier that is NaN or infinite (the speed parameter "NaN" or
    "Inf" parses to one) cannot be marshalled into the explanation request:
    the relay then posts nothing at all, and every EXPLANATION it hands to
    the connection is the fallback. *)
Theorem nonfinite_speed_all_fallback (w : World) :
  posted (trail (streamRun E runID speed) w) = [] /\
  Forall (fun m => msgTypeIs "EXPLANATION" m = true ->
                   m = explainMsg (Some fallbackExplanation) /\
                   m = {[ "type" := VString "EXPLANATION";
                          "data" := VMap {[
                            "mode" := VString "conceptual";
                            "explanation" := VString "Processing this step...";
                            "short_hint" := VString "Watch the visualization";
                            "confidence_estimate" := VString "medium";
                            "followup_question" := VString "" ]} ]})
         (attempted (trail (streamRun E runID speed) w)).
Proof.
  cut (posted (trail (streamRun E runID speed) w) = [] /\
       Forall (fun m => msgTypeIs "EXPLANATION" m = true ->
                        m = explainMsg (Some fallbackExplanation))
              (attempted (trail (streamRun E runID speed) w))).
  { intros [Hp Ha]. split; [exact Hp|].
    eapply Forall_impl; [exact Ha|]. intros m Hm Ht. split; exact (Hm Ht). }
  destruct (streamRun_cases E runID speed w)
    as [(_ & -> & _)|(run & _ & Ht & _)]; [split; [reflexivity|constructor]|].
  cbv zeta in Ht. rewrite Ht, posted_app, attempted_app.
  assert (Hloop :
    posted (trail (streamFrames E runID speed (frameDelayOf E speed) 0
                     (Trace run)) w) = [] /\
    Forall (fun m => msgTypeIs "EXPLANATION" m = true ->
                     m = explainMsg (Some fallbackExplanation))
           (attempted (trail (streamFrames E runID speed (frameDelayOf E speed)
                                0 (Trace run)) w))).
  { apply (streamFrames_trail_ind E runID speed (frameDelayOf E speed)
             (fun _ _ _ t _ =>
                posted t = [] /\
                Forall (fun m => msgTypeIs "EXPLANATION" m = true ->
                                 m = explainMsg (Some fallbackExplanation))
                       (attempted t))).
    - intros. split; [reflexivity|constructor].
    - intros i frame rest w0 e _. split; [reflexivity|].
      constructor; [rewrite msgTypeIs_traceMsg; discriminate|constructor].
    - intros i frame rest w0 e _ _.
      destruct (explain_request_refused i frame w0) as (text & _ & -> & ->).
      split; [reflexivity|].
      constructor; [rewrite msgTypeIs_traceMsg; discriminate|].
      constructor; [reflexivity|constructor].
    - intros i frame rest w0 t r _ _ [IHp IHa].
      destruct (explain_request_refused i frame w0) as (text & _ & -> & ->).
      split; [exact IHp|].
      constructor; [rewrite msgTypeIs_traceMsg; discriminate|].
      constructor; [reflexivity|exact IHa]. }
  destruct Hloop as [-> Hall]. split.
  - destruct (eval (streamFrames E runID speed (frameDelayOf E speed) 0
                      (Trace run)) w); reflexivity.
  - apply Forall_app. split; [exact Hall|].
    destruct (eval (streamFrames E runID speed (frameDelayOf E speed) 0
                      (Trace run)) w); [constructor|].
    constructor; [|constructor]. intros H. discriminate H.
Qed.

End Unmarshalable.

Lemma nonfinite_speed_all_fallback_witness :
  let E := demoEnv pythonUp viewerOpen in
  let t := trail (streamRun E "r1" infinity) (demoWorld "ab") in
  posted t = [] /\
  Forall (fun m => msgTypeIs "EXPLANATION" m = true ->
                   m = explainMsg (Some fallbackExplanation) /\
                   m = {[ "type" := VString "EXPLANATION";
                          "data" := VMap {[
                            "mode" := VString "conceptual";
                            "explanation" := VString "Processing this step...";
                            "short_hint" := VString "Watch the visualization";
                            "confidence_estimate" := VString "medium";
                            "followup_question" := VString "" ]} ]})
         (attempted t).
Proof.
  apply (nonfinite_speed_all_fallback (demoEnv pythonUp viewerOpen) "r1"
           infinity).
  reflexivity.
Defined.


(** ** TrackedArray *)

Section TrackedArrayFacts.

Import TrackedArray.

Implicit Types (a : TrackedArray.t) (i j k index : nat) (v value : Z).

Lemma data_record action highlights a :
  data (record action highlights a) = data a.
Proof. reflexivity. Qed.

(** X20. Out-of-range accesses are silent. With an index at or past the
    end, [get] returns -1 and [set], [swap] (either index) and [erase] leave
    the array and its trace exactly as they were; [insert] does so for an
    index past the end (inserting at the end itself is allowed). *)
Theorem tracked_out_of_range_ignored a index :
  length (data a) <= index ->
  get index a = (-1)%Z /\
  (forall value, set index value a = a) /\
  (forall j, swap index j a = a /\ swap j index a = a) /\
  erase index a = a /\
  (forall value, length (data a) < index -> insert index value a = a).
Proof.
  intros Hle.
  assert (Hb : (length (data a) <=? index)%nat = true)
    by (apply Nat.leb_le; exact Hle).
  unfold get, set, swap, erase, insert. rewrite Hb.
  split; [reflexivity|]. split; [reflexivity|].
  split; [intros j; rewrite orb_true_r; split; reflexivity|].
  split; [reflexivity|].
  intros value Hlt. apply Nat.ltb_lt in Hlt. rewrite Hlt. reflexivity.
Qed.

(** X21. [set] then [get]. In range, [set] stores the value where [get]
    finds it, changes no other position and keeps the size. *)
Theorem tracked_set_get a index value :
  index < length (data a) ->
  get index (set index value a) = value /\
  (forall j, j <> index -> get j (set index value a) = get j a) /\
  size (set index value a) = size a.
Proof.
  intros Hlt.
  assert (Hb : (length (data a) <=? index)%nat = false)
    by (apply Nat.leb_gt; exact Hlt).
  assert (Hd : data (set index value a) = <[index := value]> (data a)).
  { unfold set. rewrite Hb. reflexivity. }
  unfold get, size. rewrite Hd, length_insert.
  split; [|split; [|reflexivity]].
  - rewrite Hb, list_lookup_insert_eq by exact Hlt. reflexivity.
  - intros j Hj. rewrite list_lookup_insert_ne by congruence. reflexivity.
Qed.

Lemma data_swap a i j :
  i < length (data a) -> j < length (data a) ->
  data (swap i j a) =
  <[j := default 0%Z (data a !! i)]>
    (<[i := default 0%Z (data a !! j)]> (data a)).
Proof.
  intros Hi Hj. unfold swap.
  apply Nat.leb_gt in Hi, Hj. rewrite Hi, Hj. reflexivity.
Qed.

Lemma insert_Permutation (l : list Z) i x y :
  l !! i = Some x -> <[i := y]> l ≡ₚ y :: delete i l.
Proof.
  intros Hx. pose proof (lookup_lt_Some _ _ _ Hx) as Hlt.
  rewrite insert_take_drop by exact Hlt.
  rewrite delete_take_drop. symmetry. apply Permutation_middle.
Qed.

(** X22. [swap], in range: the two positions exchange their values, every
    other position keeps its value, the array afterwards is a permutation of
    the array before (same elements, same size), and swapping again restores
    it. *)
Theorem tracked_swap a i j :
  i < length (data a) -> j < length (data a) ->
  get i (swap i j a) = get j a /\
  get j (swap i j a) = get i a /\
  (forall k, k <> i -> k <> j -> get k (swap i j a) = get k a) /\
  data (swap i j a) ≡ₚ data a /\
  data (swap i j (swap i j a)) = data a.
Proof.
  intros Hi Hj.
  destruct (lookup_lt_is_Some_2 _ _ Hi) as [xi Hxi].
  destruct (lookup_lt_is_Some_2 _ _ Hj) as [xj Hxj].
  pose proof (data_swap a i j Hi Hj) as Hd. rewrite Hxi, Hxj in Hd.
  cbn [from_option id] in Hd.
  assert (Hlen : length (data (swap i j a)) = length (data a)).
  { rewrite Hd, !length_insert. reflexivity. }
  assert (Hsi : data (swap i j a) !! i = Some xj).
  { rewrite Hd. destruct (decide (j = i)) as [->|Hne].
    - rewrite list_lookup_insert_eq by (rewrite length_insert; exact Hi).
      congruence.
    - rewrite list_lookup_insert_ne by exact Hne.
      apply list_lookup_insert_eq. exact Hi. }
  assert (Hsj : data (swap i j a) !! j = Some xi).
  { rewrite Hd. apply list_lookup_insert_eq. rewrite length_insert. exact Hj. }
  assert (Hget : forall k x (b : TrackedArray.t),
             data b !! k = Some x -> get k b = x).
  { intros k x b Hk. unfold get.
    pose proof (lookup_lt_Some _ _ _ Hk) as Hlt. apply Nat.leb_gt in Hlt.
    rewrite Hlt, Hk. reflexivity. }
  split; [rewrite (Hget _ _ _ Hsi), (Hget _ _ _ Hxj); reflexivity|].
  split; [rewrite (Hget _ _ _ Hsj), (Hget _ _ _ Hxi); reflexivity|].
  split.
  { intros k Hki Hkj. unfold get. rewrite Hlen, Hd.
    rewrite !list_lookup_insert_ne by congruence. reflexivity. }
  split.
  - rewrite Hd. destruct (decide (i = j)) as [->|Hne].
    + rewrite list_insert_insert_eq.
      rewrite list_insert_id by exact Hxi. reflexivity.
    + assert (Hmid : <[i := xj]> (data a) !! j = Some xj).
      { rewrite list_lookup_insert_ne by exact Hne. exact Hxj. }
      rewrite (insert_Permutation _ j xj xi Hmid).
      pose proof (delete_Permutation _ _ _ Hmid) as H1.
      rewrite (insert_Permutation _ i xi xj Hxi) in H1 at 1.
      apply Permutation_cons_inv in H1. rewrite <- H1.
      symmetry. apply delete_Permutation. exact Hxi.
  - assert (Hi' : i < length (data (swap i j a))) by (rewrite Hlen; exact Hi).
    assert (Hj' : j < length (data (swap i j a))) by (rewrite Hlen; exact Hj).
    rewrite (data_swap (swap i j a) i j Hi' Hj'), Hsi, Hsj.
    cbn [from_option id].
    rewrite Hd. apply list_eq. intros k.
    destruct (decide (k = j)) as [->|Hkj].
    + rewrite list_lookup_insert_eq by (rewrite !length_insert; exact Hj).
      symmetry. exact Hxj.
    + rewrite list_lookup_insert_ne by congruence.
      destruct (decide (k = i)) as [->|Hki].
      * rewrite list_lookup_insert_eq by (rewrite !length_insert; exact Hi).
        symmetry. exact Hxi.
      * rewrite !list_lookup_insert_ne by congruence. reflexivity.
Qed.

Lemma data_insert a index value :
  index <= length (data a) ->
  data (insert index value a) =
  take index (data a) ++ value :: drop index (data a).
Proof.
  intros Hle. unfold insert.
  assert (Hb : (length (data a) <? index)%nat = false)
    by (apply Nat.ltb_ge; exact Hle).
  rewrite Hb. reflexivity.
Qed.

(** X23. [insert] and [erase]. Inserting at an index up to and including
    the end puts the value there, makes the array one longer, keeps the
    values before it in place and moves the others up by one; erasing that
    index again gives back the original array. *)
Theorem tracked_insert_erase a index value :
  index <= length (data a) ->
  get index (insert index value a) = value /\
  length (data (insert index value a)) = S (length (data a)) /\
  (forall j, j < index -> get j (insert index value a) = get j a) /\
  (forall j, index <= j -> j < length (data a) ->
             get (S j) (insert index value a) = get j a) /\
  data (erase index (insert index value a)) = data a.
Proof.
  intros Hle.
  pose proof (data_insert a index value Hle) as Hd.
  assert (Htake : length (take index (data a)) = index)
    by (rewrite length_take; lia).
  assert (Hlen : length (data (insert index value a)) = S (length (data a))).
  { rewrite Hd, length_app, Htake. cbn [length]. rewrite length_drop. lia. }
  assert (Hget : forall k (b : TrackedArray.t),
             k < length (data b) -> get k b = default 0%Z (data b !! k)).
  { intros k b Hk. unfold get. apply Nat.leb_gt in Hk. rewrite Hk.
    reflexivity. }
  split; [|split; [exact Hlen|split; [|split]]].
  - rewrite Hget by lia. rewrite Hd.
    rewrite list_lookup_middle by (symmetry; exact Htake). reflexivity.
  - intros j Hj. rewrite !Hget by lia. rewrite Hd.
    rewrite lookup_app_l by lia. rewrite lookup_take_lt by lia. reflexivity.
  - intros j Hij Hj. rewrite !Hget by lia. rewrite Hd.
    rewrite lookup_app_r by lia. rewrite Htake.
    replace (S j - index) with (S (j - index)) by lia.
    change ((value :: drop index (data a)) !! S (j - index))
      with (drop index (data a) !! (j - index)).
    rewrite lookup_drop. f_equal. f_equal. lia.
  - unfold erase.
    assert (Hb : (length (data (insert index value a)) <=? index)%nat = false)
      by (apply Nat.leb_gt; lia).
    rewrite Hb. cbn [data]. rewrite data_record, Hd.
    replace (delete index (take index (data a) ++ value :: drop index (data a)))
      with (delete (length (take index (data a)))
              (take index (data a) ++ value :: drop index (data a)))
      by (rewrite Htake; reflexivity).
    rewrite delete_middle. apply take_drop.
Qed.

(** X24. The trace only grows. Every operation keeps the steps recorded so
    far and adds at the end: exactly one step when the operation is in
    range, none when it is out of range; the constructor starts the trace
    with one step and [print_trace] adds one. *)
Theorem tracked_trace_append_only a :
  let grows (b : TrackedArray.t) (n : nat) :=
    exists steps,
      trace_steps b = trace_steps a ++ steps /\ length steps = n in
  (forall index value,
      grows (set index value a)
        (if (index <? length (data a))%nat then 1 else 0)) /\
  (forall i j,
      grows (swap i j a)
        (if ((i <? length (data a)) && (j <? length (data a)))%nat
         then 1 else 0)) /\
  (forall index value,
      grows (insert index value a)
        (if (index <=? length (data a))%nat then 1 else 0)) /\
  (forall index,
      grows (erase index a)
        (if (index <? length (data a))%nat then 1 else 0)) /\
  grows (print_trace a).2 1 /\
  (forall initial_data, length (trace_steps (make initial_data)) = 1).
Proof.
  cbv zeta.
  assert (Hnone : exists steps : list string,
             trace_steps a = trace_steps a ++ steps /\ length steps = 0).
  { exists []. split; [symmetry; apply app_nil_r|reflexivity]. }
  split; [|split; [|split; [|split; [|split]]]].
  - intros index value. unfold set.
    destruct (Nat.leb_spec (length (data a)) index) as [H|H].
    + apply Nat.ltb_ge in H. rewrite H. exact Hnone.
    + apply Nat.ltb_lt in H. rewrite H. eexists. split; reflexivity.
  - intros i j. unfold swap.
    destruct (Nat.leb_spec (length (data a)) i) as [Hi|Hi].
    + apply Nat.ltb_ge in Hi. rewrite Hi. exact Hnone.
    + apply Nat.ltb_lt in Hi. rewrite Hi.
      destruct (Nat.leb_spec (length (data a)) j) as [Hj|Hj].
      * apply Nat.ltb_ge in Hj. rewrite Hj. exact Hnone.
      * apply Nat.ltb_lt in Hj. rewrite Hj. eexists. split; reflexivity.
  - intros index value. unfold insert.
    destruct (Nat.ltb_spec (length (data a)) index) as [H|H].
    + apply Nat.leb_gt in H. rewrite H. exact Hnone.
    + apply Nat.leb_le in H. rewrite H. eexists. split; reflexivity.
  - intros index. unfold erase.
    destruct (Nat.leb_spec (length (data a)) index) as [H|H].
    + apply Nat.ltb_ge in H. rewrite H. exact Hnone.
    + apply Nat.ltb_lt in H. rewrite H. eexists. split; reflexivity.
  - eexists. split; reflexivity.
  - reflexivity.
Qed.

End TrackedArrayFacts.

Lemma tracked_out_of_range_ignored_witness :
  let a := TrackedArray.make [5; 2; 8]%Z in
  TrackedArray.get 3 a = (-1)%Z /\
  (forall value, TrackedArray.set 3 value a = a) /\
  (forall j, TrackedArray.swap 3 j a = a /\ TrackedArray.swap j 3 a = a) /\
  TrackedArray.erase 3 a = a /\
  (forall value, length (TrackedArray.data a) < 3 ->
                 TrackedArray.insert 3 value a = a).
Proof.
  apply (tracked_out_of_range_ignored (TrackedArray.make [5; 2; 8]%Z) 3).
  cbn. lia.
Defined.

Lemma tracked_set_get_witness :
  let a := TrackedArray.make [5; 2; 8]%Z in
  TrackedArray.get 1 (TrackedArray.set 1 7 a) = 7%Z /\
  (forall j, j <> 1%nat ->
             TrackedArray.get j (TrackedArray.set 1 7 a) = TrackedArray.get j a) /\
  TrackedArray.size (TrackedArray.set 1 7 a) = TrackedArray.size a.
Proof.
  apply (tracked_set_get (TrackedArray.make [5; 2; 8]%Z) 1 7%Z).
  cbn. lia.
Defined.

Lemma tracked_swap_witness :
  let a := TrackedArray.make [5; 2; 8]%Z in
  TrackedArray.get 0 (TrackedArray.swap 0 2 a) = TrackedArray.get 2 a /\
  TrackedArray.get 2 (TrackedArray.swap 0 2 a) = TrackedArray.get 0 a /\
  (forall k, k <> 0%nat -> k <> 2%nat ->
             TrackedArray.get k (TrackedArray.swap 0 2 a) = TrackedArray.get k a) /\
  TrackedArray.data (TrackedArray.swap 0 2 a) ≡ₚ TrackedArray.data a /\
  TrackedArray.data (TrackedArray.swap 0 2 (TrackedArray.swap 0 2 a)) =
    TrackedArray.data a.
Proof.
  apply (tracked_swap (TrackedArray.make [5; 2; 8]%Z) 0 2); cbn; lia.
Defined.

Lemma tracked_insert_erase_witness :
  let a := TrackedArray.make [5; 2; 8]%Z in
  TrackedArray.get 3 (TrackedArray.insert 3 9 a) = 9%Z /\
  length (TrackedArray.data (TrackedArray.insert 3 9 a)) = 4%nat /\
  (forall j, j < 3 ->
             TrackedArray.get j (TrackedArray.insert 3 9 a) = TrackedArray.get j a) /\
  (forall j, 3 <= j -> j < length (TrackedArray.data a) ->
             TrackedArray.get (S j) (TrackedArray.insert 3 9 a) =
             TrackedArray.get j a) /\
  TrackedArray.data (TrackedArray.erase 3 (TrackedArray.insert 3 9 a)) =
    TrackedArray.data a.
Proof.
  apply (tracked_insert_erase (TrackedArray.make [5; 2; 8]%Z) 3 9%Z).
  cbn. lia.
Defined.

(** The text of a recorded step, as the C++ program prints it. *)
Example tracked_swap_step :
  TrackedArray.trace_steps
    (TrackedArray.swap 0 2 (TrackedArray.make [5; -2; 8]%Z)) =
  [ "{" +:+ TrackedArray.dquote +:+ "data" +:+ TrackedArray.dquote +:+
    ":[5,-2,8]," +:+ TrackedArray.dquote +:+ "highlights" +:+
    TrackedArray.dquote +:+ ":[]," +:+ TrackedArray.dquote +:+ "action" +:+
    TrackedArray.dquote +:+ ":" +:+ TrackedArray.dquote +:+ "Initial array"
    +:+ TrackedArray.dquote +:+ "}";
    "{" +:+ TrackedArray.dquote +:+ "data" +:+ TrackedArray.dquote +:+
    ":[5,-2,8]," +:+ TrackedArray.dquote +:+ "highlights" +:+
    TrackedArray.dquote +:+ ":[0,2]," +:+ TrackedArray.dquote +:+ "action" +:+
    TrackedArray.dquote +:+ ":" +:+ TrackedArray.dquote +:+
    "Swap arr[0] ↔ arr[2]" +:+ TrackedArray.dquote +:+ "}" ].
Proof. vm_compute. reflexivity. Qed.

